(** * web3wallet: key storage, transaction signing and WalletConnect requests

    A shallow embedding of the wallet's key manager (KeyManager.ts), wallet
    service (WalletService.ts), transaction service (TransactionService.ts)
    and WalletConnect request formatter (RequestHandler.ts), with the
    theorems that check the specification against them.  The later
    modules cover the other methods of these files, the gas fee options of
    ProviderService.ts, the PIN shape of utils/validation.ts and the chain
    of a request in WalletConnectService.ts, with further properties of
    the code.

    Conventions.
    - A TypeScript string is a Rocq [string] holding the UTF-8 bytes of the
      text, as Rocq's own string literals do.  On ASCII text (hex keys,
      BIP-39 words, PIN digits, addresses) bytes and UTF-16 code units
      coincide, so [slice], [startsWith] and [charCodeAt] are read on bytes.
    - A [Buffer] is a [list ascii].
    - An [async] method is a state transformer over the device [world]
      (encrypted storage, keychain, clock, random source); a thrown
      exception is the [Throw] outcome. *)

From Stdlib Require Import ZArith NArith Ascii String List Bool Lia.
From Stdlib Require HexadecimalString HexadecimalN.
From Stdlib Require Import DecimalString DecimalZ.
From stdpp Require Import base option list gmap strings.

Set Warnings "-register-all".

Local Open Scope string_scope.
Local Open Scope N_scope.
Local Open Scope list_scope.

(** ** Bytes *)

Definition Buffer := list ascii.

Definition u8 (c : ascii) : N := N_of_ascii c.

Definition dquote : ascii := "034"%char.
Definition backslash : ascii := "092"%char.

(** [hexval c] is the value of a hexadecimal digit, in either case. *)
Definition hexval (c : ascii) : option N :=
  let n := u8 c in
  if (48 <=? n) && (n <=? 57) then Some (n - 48)
  else if (97 <=? n) && (n <=? 102) then Some (n - 87)
  else if (65 <=? n) && (n <=? 70) then Some (n - 55)
  else None.

Definition lower_hex_digit (n : N) : ascii :=
  if n <? 10 then ascii_of_N (48 + n) else ascii_of_N (87 + n).

(** ** Buffer encodings: hex, base64 and UTF-8 *)

Module Hex.

Definition pair (hi lo : ascii) : option ascii :=
  match hexval hi, hexval lo with
  | Some h, Some l => Some (ascii_of_N (16 * h + l))
  | _, _ => None
  end.

(** [Buffer.from(s, 'hex')]: pairs of hex digits, up to the first pair
    that is not one; a trailing odd digit is dropped. *)
Fixpoint decode (s : string) : Buffer :=
  match s with
  | String hi (String lo r) =>
      match pair hi lo with
      | Some b => b :: decode r
      | None => []
      end
  | _ => []
  end.

(** [buf.toString('hex')]. *)
Fixpoint encode (bs : Buffer) : string :=
  match bs with
  | [] => EmptyString
  | b :: r =>
      String (lower_hex_digit (u8 b / 16))
        (String (lower_hex_digit (u8 b mod 16)) (encode r))
  end.

End Hex.

Module Base64.

Inductive sextet := Sextet (b0 b1 b2 b3 b4 b5 : bool).

Definition alphabet : string :=
  "ABCDEFGHIJKLMNOPQRSTUVWXYZabcdefghijklmnopqrstuvwxyz0123456789+/".

Definition N_of_sextet (s : sextet) : N :=
  let 'Sextet b0 b1 b2 b3 b4 b5 := s in
  u8 (Ascii b0 b1 b2 b3 b4 b5 false false).

Definition sextet_of_N (n : N) : sextet :=
  let 'Ascii b0 b1 b2 b3 b4 b5 _ _ := ascii_of_N n in
  Sextet b0 b1 b2 b3 b4 b5.

Definition char_of_sextet (s : sextet) : ascii :=
  match String.get (N.to_nat (N_of_sextet s)) alphabet with
  | Some c => c
  | None => "="%char
  end.

(** The reverse table of the decoder: the standard alphabet, and [-] and
    [_] of the URL-safe one. *)
Definition sextet_of_char (c : ascii) : option sextet :=
  let n := u8 c in
  if (65 <=? n) && (n <=? 90) then Some (sextet_of_N (n - 65))
  else if (97 <=? n) && (n <=? 122) then Some (sextet_of_N (n - 71))
  else if (48 <=? n) && (n <=? 57) then Some (sextet_of_N (n + 4))
  else if (n =? 43) || (n =? 45) then Some (sextet_of_N 62)
  else if (n =? 47) || (n =? 95) then Some (sextet_of_N 63)
  else None.

Definition first_of (x : ascii) : sextet :=
  let 'Ascii x0 x1 x2 x3 x4 x5 x6 x7 := x in Sextet x2 x3 x4 x5 x6 x7.

Definition second_of (x y : ascii) : sextet :=
  let 'Ascii x0 x1 _ _ _ _ _ _ := x in
  let 'Ascii _ _ _ _ y4 y5 y6 y7 := y in Sextet y4 y5 y6 y7 x0 x1.

Definition third_of (y z : ascii) : sextet :=
  let 'Ascii y0 y1 y2 y3 _ _ _ _ := y in
  let 'Ascii _ _ _ _ _ _ z6 z7 := z in Sextet z6 z7 y0 y1 y2 y3.

Definition fourth_of (z : ascii) : sextet :=
  let 'Ascii z0 z1 z2 z3 z4 z5 _ _ := z in Sextet z0 z1 z2 z3 z4 z5.

Definition zero : ascii := "000"%char.

(** [buf.toString('base64')]: three bytes give four characters; one or
    two trailing bytes are padded with [=]. *)
Fixpoint encode (bs : Buffer) : string :=
  match bs with
  | [] => EmptyString
  | [x] =>
      String (char_of_sextet (first_of x))
        (String (char_of_sextet (second_of x zero)) "==")
  | [x; y] =>
      String (char_of_sextet (first_of x))
        (String (char_of_sextet (second_of x y))
           (String (char_of_sextet (third_of y zero)) "="))
  | x :: y :: z :: r =>
      String (char_of_sextet (first_of x))
        (String (char_of_sextet (second_of x y))
           (String (char_of_sextet (third_of y z))
              (String (char_of_sextet (fourth_of z)) (encode r))))
  end.

(** The decoder first cleans its input: it keeps what comes before the
    first [=] and drops every character outside the alphabet. *)
Fixpoint clean (s : string) : list sextet :=
  match s with
  | EmptyString => []
  | String c r =>
      if Ascii.eqb c "="%char then []
      else match sextet_of_char c with
           | Some x => x :: clean r
           | None => clean r
           end
  end.

Definition byte1 (a b : sextet) : ascii :=
  let 'Sextet a0 a1 a2 a3 a4 a5 := a in
  let 'Sextet _ _ _ _ b4 b5 := b in Ascii b4 b5 a0 a1 a2 a3 a4 a5.

Definition byte2 (b c : sextet) : ascii :=
  let 'Sextet b0 b1 b2 b3 _ _ := b in
  let 'Sextet _ _ c2 c3 c4 c5 := c in Ascii c2 c3 c4 c5 b0 b1 b2 b3.

Definition byte3 (c d : sextet) : ascii :=
  let 'Sextet c0 c1 _ _ _ _ := c in
  let 'Sextet d0 d1 d2 d3 d4 d5 := d in Ascii d0 d1 d2 d3 d4 d5 c0 c1.

(** Four sextets give three bytes; three trailing ones give two bytes,
    two give one, and a single trailing sextet gives none. *)
Fixpoint bytes_of_sextets (l : list sextet) : Buffer :=
  match l with
  | a :: b :: c :: d :: r =>
      byte1 a b :: byte2 b c :: byte3 c d :: bytes_of_sextets r
  | [a; b; c] => [byte1 a b; byte2 b c]
  | [a; b] => [byte1 a b]
  | _ => []
  end.

(** [Buffer.from(s, 'base64')]. *)
Definition decode (s : string) : Buffer := bytes_of_sextets (clean s).

End Base64.

Module Utf8.

Definition cont (c : ascii) : bool := N.land (u8 c) 0xC0 =? 0x80.

(** A decoded piece of a buffer: a code point with the bytes that spell
    it, or a byte that starts no well-formed sequence. *)
Inductive chunk :=
| Scalar (cp : N) (bytes : list ascii)
| Broken (b : ascii).

Definition point2 (b0 b1 : ascii) : N :=
  N.lor (N.shiftl (N.land (u8 b0) 0x1F) 6) (N.land (u8 b1) 0x3F).

Definition point3 (b0 b1 b2 : ascii) : N :=
  N.lor (N.lor (N.shiftl (N.land (u8 b0) 0xF) 12)
               (N.shiftl (N.land (u8 b1) 0x3F) 6))
        (N.land (u8 b2) 0x3F).

Definition point4 (b0 b1 b2 b3 : ascii) : N :=
  N.lor (N.lor (N.lor (N.shiftl (N.land (u8 b0) 0xF) 18)
                      (N.shiftl (N.land (u8 b1) 0x3F) 12))
               (N.shiftl (N.land (u8 b2) 0x3F) 6))
        (N.land (u8 b3) 0x3F).

(** The first byte announces four, three or two bytes, or stands alone. *)
Definition lead4 (b : ascii) : bool := 0xEF <? u8 b.
Definition lead3 (b : ascii) : bool := 0xDF <? u8 b.
Definition lead2 (b : ascii) : bool := 0xBF <? u8 b.
Definition ascii7 (b : ascii) : bool := u8 b <? 0x80.

Definition valid2 (b0 b1 : ascii) : bool :=
  cont b1 && (0x7F <? point2 b0 b1).

Definition valid3 (b0 b1 b2 : ascii) : bool :=
  cont b1 && cont b2 &&
  (0x7FF <? point3 b0 b1 b2) &&
  ((point3 b0 b1 b2 <? 0xD800) || (0xDFFF <? point3 b0 b1 b2)).

Definition valid4 (b0 b1 b2 b3 : ascii) : bool :=
  cont b1 && cont b2 && cont b3 &&
  (0xFFFF <? point4 b0 b1 b2 b3) && (point4 b0 b1 b2 b3 <? 0x110000).

(** The decoding loop of [buf.toString('utf8')]: the first byte gives the
    length of the sequence; a sequence that is cut short, overlong, a
    surrogate or out of range yields one replacement and advances by a
    single byte. *)
Fixpoint chunks (bs : Buffer) : list chunk :=
  match bs with
  | [] => []
  | b0 :: t0 =>
      let bad := fun _ : unit => Broken b0 :: chunks t0 in
      if lead4 b0 then
        match t0 with
        | b1 :: b2 :: b3 :: t3 =>
            if valid4 b0 b1 b2 b3
            then Scalar (point4 b0 b1 b2 b3) [b0; b1; b2; b3] :: chunks t3
            else bad tt
        | _ => bad tt
        end
      else if lead3 b0 then
        match t0 with
        | b1 :: b2 :: t2 =>
            if valid3 b0 b1 b2
            then Scalar (point3 b0 b1 b2) [b0; b1; b2] :: chunks t2
            else bad tt
        | _ => bad tt
        end
      else if lead2 b0 then
        match t0 with
        | b1 :: t1 =>
            if valid2 b0 b1
            then Scalar (point2 b0 b1) [b0; b1] :: chunks t1
            else bad tt
        | _ => bad tt
        end
      else if ascii7 b0 then Scalar (u8 b0) [b0] :: chunks t0
      else bad tt
  end.

(** U+FFFD in UTF-8. *)
Definition replacement : list ascii := ["239"; "191"; "189"]%char.

Definition render (c : chunk) : list ascii :=
  match c with
  | Scalar _ bytes => bytes
  | Broken _ => replacement
  end.

Definition point_of (c : chunk) : N :=
  match c with
  | Scalar cp _ => cp
  | Broken _ => 0xFFFD
  end.

Definition sound (c : chunk) : bool :=
  match c with
  | Scalar _ _ => true
  | Broken _ => false
  end.

(** [buf.toString('utf8')]. *)
Definition toString (bs : Buffer) : string :=
  string_of_list_ascii (concat (map render (chunks bs))).

(** [Buffer.from(s)] / [Buffer.from(s, 'utf8')]. *)
Definition fromString (s : string) : Buffer := list_ascii_of_string s.

(** The code points of a string, as [Array.from(s)] lists them. *)
Definition points (s : string) : list N :=
  map point_of (chunks (list_ascii_of_string s)).

(** A byte string is a text when all of it decodes. *)
Definition is_text (s : string) : bool :=
  forallb sound (chunks (list_ascii_of_string s)).

(** [ch.charCodeAt(0)] of the one-code-point string [ch]: the code point,
    or its high surrogate beyond the basic plane. *)
Definition first_unit (cp : N) : N :=
  if 0xFFFF <? cp then 0xD800 + (cp - 0x10000) / 0x400 else cp.

(** The UTF-8 bytes of a code point. *)
Definition encode_point (cp : N) : list ascii :=
  if cp <? 0x80 then [ascii_of_N cp]
  else if cp <? 0x800 then
    [ascii_of_N (0xC0 + cp / 0x40); ascii_of_N (0x80 + cp mod 0x40)]
  else if cp <? 0x10000 then
    [ascii_of_N (0xE0 + cp / 0x1000);
     ascii_of_N (0x80 + (cp / 0x40) mod 0x40);
     ascii_of_N (0x80 + cp mod 0x40)]
  else
    [ascii_of_N (0xF0 + cp / 0x40000);
     ascii_of_N (0x80 + (cp / 0x1000) mod 0x40);
     ascii_of_N (0x80 + (cp / 0x40) mod 0x40);
     ascii_of_N (0x80 + cp mod 0x40)].

End Utf8.

(** ** JSON text: [JSON.stringify] and [JSON.parse] *)

Module JSON.

(** Parsed JSON.  A number written without fraction or exponent is its
    integer; any other number literal is kept as written.  An object is
    the list of its members in source order; reading a property takes
    the last member of that name. *)
Inductive json :=
| JNull
| JBool (b : bool)
| JNum (z : Z)
| JReal (lexeme : string)
| JStr (s : string)
| JArr (items : list json)
| JObj (members : list (string * json)).

(** *** Printing *)

Definition u00 (n : N) : string :=
  "\u00" +:+ String (lower_hex_digit (n / 16))
               (String (lower_hex_digit (n mod 16)) EmptyString).

Definition escape (c : ascii) : string :=
  let n := u8 c in
  if n =? 8 then "\b"
  else if n =? 9 then "\t"
  else if n =? 10 then "\n"
  else if n =? 12 then "\f"
  else if n =? 13 then "\r"
  else if n =? 34 then String backslash (String dquote EmptyString)
  else if n =? 92 then String backslash (String backslash EmptyString)
  else if n <? 32 then u00 n
  else String c EmptyString.

Fixpoint escape_all (s : string) : string :=
  match s with
  | EmptyString => EmptyString
  | String c r => escape c +:+ escape_all r
  end.

Definition quote (s : string) : string :=
  String dquote (escape_all s +:+ String dquote EmptyString).

Definition print_Z (z : Z) : string := NilZero.string_of_int (Z.to_int z).

Fixpoint stringify (v : json) : string :=
  match v with
  | JNull => "null"
  | JBool true => "true"
  | JBool false => "false"
  | JNum z => print_Z z
  | JReal lexeme => lexeme
  | JStr s => quote s
  | JArr items =>
      "[" +:+
      (fix elems (l : list json) : string :=
         match l with
         | [] => "]"
         | x :: t =>
             stringify x +:+
             match t with
             | [] => "]"
             | _ :: _ => "," +:+ elems t
             end
         end) items
  | JObj members =>
      "{" +:+
      (fix membs (l : list (string * json)) : string :=
         match l with
         | [] => "}"
         | (k, x) :: t =>
             quote k +:+ ":" +:+ stringify x +:+
             match t with
             | [] => "}"
             | _ :: _ => "," +:+ membs t
             end
         end) members
  end.

(** *** Parsing *)

Definition is_ws (c : ascii) : bool :=
  let n := u8 c in (n =? 32) || (n =? 9) || (n =? 10) || (n =? 13).

Fixpoint skip_ws (s : string) : string :=
  match s with
  | String c r => if is_ws c then skip_ws r else s
  | EmptyString => s
  end.

(** A piece of a string literal: a character, or the code unit of a
    [\uXXXX] escape. *)
Inductive sitem :=
| Raw (c : ascii)
| Unit16 (u : N).

Definition simple_escape (e : ascii) : option ascii :=
  let n := u8 e in
  if n =? 34 then Some dquote
  else if n =? 92 then Some backslash
  else if n =? 47 then Some "/"%char
  else if n =? 98 then Some "008"%char
  else if n =? 102 then Some "012"%char
  else if n =? 110 then Some "010"%char
  else if n =? 114 then Some "013"%char
  else if n =? 116 then Some "009"%char
  else None.

Definition hex4 (a b c d : ascii) : option N :=
  match hexval a, hexval b, hexval c, hexval d with
  | Some x, Some y, Some z, Some w => Some (4096 * x + 256 * y + 16 * z + w)
  | _, _, _, _ => None
  end.

Definition push (i : sitem) (r : option (list sitem * string)) :
  option (list sitem * string) :=
  match r with
  | Some (l, rest) => Some (i :: l, rest)
  | None => None
  end.

(** The body of a string literal, up to and including the closing quote. *)
Fixpoint scan_string (s : string) : option (list sitem * string) :=
  match s with
  | EmptyString => None
  | String c r =>
      if Ascii.eqb c dquote then Some ([], r)
      else if Ascii.eqb c backslash then
        match r with
        | EmptyString => None
        | String e r1 =>
            if Ascii.eqb e "u"%char then
              match r1 with
              | String h1 (String h2 (String h3 (String h4 r2))) =>
                  match hex4 h1 h2 h3 h4 with
                  | Some u => push (Unit16 u) (scan_string r2)
                  | None => None
                  end
              | _ => None
              end
            else
              match simple_escape e with
              | Some x => push (Raw x) (scan_string r1)
              | None => None
              end
        end
      else if u8 c <? 32 then None
      else push (Raw c) (scan_string r)
  end.

Definition is_high (u : N) : bool := (0xD800 <=? u) && (u <=? 0xDBFF).
Definition is_low (u : N) : bool := (0xDC00 <=? u) && (u <=? 0xDFFF).

Definition pair_point (hi lo : N) : N :=
  0x10000 + (hi - 0xD800) * 0x400 + (lo - 0xDC00).

(** The text of a literal.  A surrogate pair is one code point; a lone
    surrogate has no UTF-8 form and stands as U+FFFD. *)
Fixpoint assemble (l : list sitem) : list ascii :=
  match l with
  | [] => []
  | Raw c :: t => c :: assemble t
  | Unit16 u :: t =>
      if is_high u then
        match t with
        | Unit16 lo :: t' =>
            if is_low lo
            then (Utf8.encode_point (pair_point u lo) ++ assemble t')%list
            else (Utf8.replacement ++ assemble t)%list
        | _ => (Utf8.replacement ++ assemble t)%list
        end
      else if is_low u then (Utf8.replacement ++ assemble t)%list
      else (Utf8.encode_point u ++ assemble t)%list
  end.

Definition parse_string (s : string) : option (string * string) :=
  match scan_string s with
  | Some (l, rest) => Some (string_of_list_ascii (assemble l), rest)
  | None => None
  end.

Definition is_digit (c : ascii) : bool :=
  let n := u8 c in (48 <=? n) && (n <=? 57).

Definition is_numchar (c : ascii) : bool :=
  let n := u8 c in
  is_digit c || (n =? 43) || (n =? 45) || (n =? 46) || (n =? 69) || (n =? 101).

Fixpoint span (p : ascii -> bool) (s : string) : string * string :=
  match s with
  | String c r =>
      if p c then let '(a, b) := span p r in (String c a, b) else (EmptyString, s)
  | EmptyString => (EmptyString, EmptyString)
  end.

Definition strip (c : ascii) (s : string) : string :=
  match s with
  | String x r => if Ascii.eqb x c then r else s
  | EmptyString => s
  end.

Definition strip_sign (s : string) : string :=
  match s with
  | String x r => if Ascii.eqb x "+"%char || Ascii.eqb x "-"%char then r else s
  | EmptyString => s
  end.

Definition nonempty (s : string) : bool :=
  match s with EmptyString => false | _ => true end.

(** The number grammar: an optional minus; an integer part, [0] or digits
    with no leading zero; an optional fraction, a dot and digits; an
    optional exponent, [e] or [E], an optional sign and digits. *)
Definition valid_number (lexeme : string) : bool :=
  let '(ip, r1) := span is_digit (strip "-"%char lexeme) in
  let int_ok :=
    match ip with
    | EmptyString => false
    | String d EmptyString => true
    | String d _ => negb (Ascii.eqb d "0"%char)
    end in
  let '(frac_ok, r2) :=
    match r1 with
    | String "."%char f => let '(fd, r) := span is_digit f in (nonempty fd, r)
    | _ => (true, r1)
    end in
  let '(exp_ok, r3) :=
    match r2 with
    | String c e =>
        if Ascii.eqb c "e"%char || Ascii.eqb c "E"%char
        then let '(ed, r) := span is_digit (strip_sign e) in (nonempty ed, r)
        else (true, r2)
    | EmptyString => (true, r2)
    end in
  int_ok && frac_ok && exp_ok && negb (nonempty r3).

(** A literal that is the decimal form of an integer is that integer
    (and [-0] is zero); any other literal of the grammar is kept. *)
Definition parse_number (s : string) : option (json * string) :=
  let '(lexeme, rest) := span is_numchar s in
  let real :=
    if valid_number lexeme then Some (JReal lexeme, rest) else None in
  match NilZero.int_of_string lexeme with
  | Some d =>
      if String.eqb (print_Z (Z.of_int d)) lexeme
      then Some (JNum (Z.of_int d), rest)
      else if String.eqb lexeme "-0" then Some (JNum 0, rest)
      else real
  | None => real
  end.

Fixpoint drop_prefix (k s : string) : option string :=
  match k, s with
  | EmptyString, _ => Some s
  | String a k', String b s' =>
      if Ascii.eqb a b then drop_prefix k' s' else None
  | String _ _, EmptyString => None
  end.

Definition keyword (k : string) (v : json) (s : string) :
  option (json * string) :=
  match drop_prefix k s with
  | Some r => Some (v, r)
  | None => None
  end.

Fixpoint parse_value (fuel : nat) (s : string) : option (json * string) :=
  match fuel with
  | O => None
  | S fuel' =>
      match skip_ws s with
      | EmptyString => None
      | String c r =>
          if Ascii.eqb c "{"%char then
            match skip_ws r with
            | String "}"%char r' => Some (JObj [], r')
            | _ =>
                match parse_members fuel' r with
                | Some (ms, r') => Some (JObj ms, r')
                | None => None
                end
            end
          else if Ascii.eqb c "["%char then
            match skip_ws r with
            | String "]"%char r' => Some (JArr [], r')
            | _ =>
                match parse_elems fuel' r with
                | Some (vs, r') => Some (JArr vs, r')
                | None => None
                end
            end
          else if Ascii.eqb c dquote then
            match parse_string r with
            | Some (x, r') => Some (JStr x, r')
            | None => None
            end
          else if Ascii.eqb c "t"%char then keyword "true" (JBool true) (String c r)
          else if Ascii.eqb c "f"%char then keyword "false" (JBool false) (String c r)
          else if Ascii.eqb c "n"%char then keyword "null" JNull (String c r)
          else parse_number (String c r)
      end
  end
with parse_elems (fuel : nat) (s : string) : option (list json * string) :=
  match fuel with
  | O => None
  | S fuel' =>
      match parse_value fuel' s with
      | Some (v, r) =>
          match skip_ws r with
          | String c r' =>
              if Ascii.eqb c ","%char then
                match parse_elems fuel' r' with
                | Some (vs, r'') => Some (v :: vs, r'')
                | None => None
                end
              else if Ascii.eqb c "]"%char then Some ([v], r')
              else None
          | EmptyString => None
          end
      | None => None
      end
  end
with parse_members (fuel : nat) (s : string) :
  option (list (string * json) * string) :=
  match fuel with
  | O => None
  | S fuel' =>
      match skip_ws s with
      | String q r0 =>
          if Ascii.eqb q dquote then
            match parse_string r0 with
            | Some (k, r1) =>
                match skip_ws r1 with
                | String ":"%char r2 =>
                    match parse_value fuel' r2 with
                    | Some (v, r3) =>
                        match skip_ws r3 with
                        | String c r4 =>
                            if Ascii.eqb c ","%char then
                              match parse_members fuel' r4 with
                              | Some (ms, r5) => Some ((k, v) :: ms, r5)
                              | None => None
                              end
                            else if Ascii.eqb c "}"%char then Some ([(k, v)], r4)
                            else None
                        | EmptyString => None
                        end
                    | None => None
                    end
                | _ => None
                end
            | None => None
            end
          else None
      | EmptyString => None
      end
  end.

(** [JSON.parse(s)]; [None] is the SyntaxError. *)
Definition parse (s : string) : option json :=
  match parse_value (2 * String.length s + 2) s with
  | Some (v, r) =>
      match skip_ws r with
      | EmptyString => Some v
      | _ => None
      end
  | None => None
  end.

(** *** What the printer writes *)

(** The text of the items of an array, closing bracket included. *)
Fixpoint elems_text (l : list json) : string :=
  match l with
  | [] => "]"
  | x :: t =>
      stringify x +:+
      match t with
      | [] => "]"
      | _ :: _ => "," +:+ elems_text t
      end
  end.

(** The text of the members of an object, closing brace included. *)
Fixpoint membs_text (l : list (string * json)) : string :=
  match l with
  | [] => "}"
  | (k, x) :: t =>
      quote k +:+ ":" +:+ stringify x +:+
      match t with
      | [] => "}"
      | _ :: _ => "," +:+ membs_text t
      end
  end.

(** Values without a number kept as written: those the program writes. *)
Fixpoint plain (v : json) : bool :=
  match v with
  | JReal _ => false
  | JArr items => forallb plain items
  | JObj members => forallb (fun m => plain (snd m)) members
  | _ => true
  end.

(** What may follow a value: nothing that would extend a number. *)
Definition tail_ok (s : string) : bool :=
  match s with
  | String c _ => negb (is_numchar c)
  | EmptyString => true
  end.

(** The piece that the scanner makes of an escaped character. *)
Definition item_of (c : ascii) : sitem :=
  let n := u8 c in
  if (n <? 32) &&
     negb ((n =? 8) || (n =? 9) || (n =? 10) || (n =? 12) || (n =? 13))
  then Unit16 n else Raw c.

(** The characters a printed value can start with. *)
Definition starts (c : ascii) : bool :=
  is_numchar c && negb ((u8 c =? 43) || (u8 c =? 46) || (u8 c =? 69) || (u8 c =? 101))
  || Ascii.eqb c "{"%char || Ascii.eqb c "["%char || Ascii.eqb c dquote
  || Ascii.eqb c "t"%char || Ascii.eqb c "f"%char || Ascii.eqb c "n"%char.

(** Property read [v.k] on a parsed value, for a name [k] that no
    prototype defines: [None] is [undefined]. *)
Fixpoint assoc_last (k : string) (l : list (string * json)) : option json :=
  match l with
  | [] => None
  | (k', x) :: t =>
      match assoc_last k t with
      | Some y => Some y
      | None => if String.eqb k' k then Some x else None
      end
  end.

Definition get (v : json) (k : string) : option json :=
  match v with
  | JObj members => assoc_last k members
  | _ => None
  end.

End JSON.

Import JSON.

(** ** Effects *)

(** Native calls that the device may reject. *)
Inductive extcall :=
| ES_getItem
| ES_setItem
| KC_getInternetCredentials
| KC_setInternetCredentials
| KC_resetInternetCredentials
| KC_getGenericPassword
| KC_setGenericPassword.

Inductive exn :=
| Error (message : string)
| TypeError
| SyntaxError
| Rejected (call : extcall).

Inductive outcome (A : Type) :=
| Return (a : A)
| Throw (e : exn).

Arguments Return {A} a.
Arguments Throw {A} e.

(** A computation over a state [S]: an [async] method, awaited in order. *)
Definition St (S A : Type) : Type := S -> outcome A * S.

Definition ret {S A} (a : A) : St S A := fun w => (Return a, w).

Definition throw {S A} (e : exn) : St S A := fun w => (Throw e, w).

Definition bind {S A B} (c : St S A) (k : A -> St S B) : St S B :=
  fun w =>
    match c w with
    | (Return a, w') => k a w'
    | (Throw e, w') => (Throw e, w')
    end.

Definition try_catch {S A} (c : St S A) (h : exn -> St S A) : St S A :=
  fun w =>
    match c w with
    | (Return a, w') => (Return a, w')
    | (Throw e, w') => h e w'
    end.

Definition lift {S A} (o : outcome A) : St S A := fun w => (o, w).

Notation "'do' x <- c ; k" := (bind c (fun x => k))
  (at level 10, x name, c at level 100, k at level 200).

(** The parts of the device that the key manager touches. *)
Record world := {
  (** react-native-encrypted-storage: key to item *)
  storage : gmap string string;
  (** Keychain internet credentials: server to (username, password) *)
  internet : gmap string (string * string);
  (** Keychain generic passwords: service to (username, password) *)
  generic : gmap string (string * string);
  (** [Date.now()] *)
  clock : Z;
  (** the address of the n-th wallet that [Wallet.createRandom()] makes *)
  random_wallet : nat -> string;
  (** the n-th buffer that [crypto.getRandomValues] fills *)
  random_bytes : nat -> Buffer;
  (** random draws made so far *)
  draws : nat;
  (** native calls that reject *)
  rejects : extcall -> bool
}.

Definition set_storage (f : gmap string string -> gmap string string) (w : world) : world :=
  {| storage := f (storage w); internet := internet w; generic := generic w;
     clock := clock w; random_wallet := random_wallet w;
     random_bytes := random_bytes w; draws := draws w; rejects := rejects w |}.

Definition set_internet
  (f : gmap string (string * string) -> gmap string (string * string))
  (w : world) : world :=
  {| storage := storage w; internet := f (internet w); generic := generic w;
     clock := clock w; random_wallet := random_wallet w;
     random_bytes := random_bytes w; draws := draws w; rejects := rejects w |}.

Definition set_generic
  (f : gmap string (string * string) -> gmap string (string * string))
  (w : world) : world :=
  {| storage := storage w; internet := internet w; generic := f (generic w);
     clock := clock w; random_wallet := random_wallet w;
     random_bytes := random_bytes w; draws := draws w; rejects := rejects w |}.

Definition draw (w : world) : world :=
  {| storage := storage w; internet := internet w; generic := generic w;
     clock := clock w; random_wallet := random_wallet w;
     random_bytes := random_bytes w; draws := S (draws w); rejects := rejects w |}.

(** A native call goes through unless the device rejects it. *)
Definition native {A} (call : extcall) (run : world -> A * world) : St world A :=
  fun w =>
    if rejects w call then (Throw (Rejected call), w)
    else let '(a, w') := run w in (Return a, w').

Module EncryptedStorage.

Definition getItem (key : string) : St world (option string) :=
  native ES_getItem (fun w => (storage w !! key, w)).

Definition setItem (key value : string) : St world unit :=
  native ES_setItem (fun w => (tt, set_storage (insert key value) w)).

End EncryptedStorage.

Module Keychain.

Definition setInternetCredentials (server username password : string) :
  St world unit :=
  native KC_setInternetCredentials
    (fun w => (tt, set_internet (insert server (username, password)) w)).

(** [false] when nothing is stored for the server, here [None]. *)
Definition getInternetCredentials (server : string) :
  St world (option (string * string)) :=
  native KC_getInternetCredentials (fun w => (internet w !! server, w)).

Definition resetInternetCredentials (server : string) : St world unit :=
  native KC_resetInternetCredentials
    (fun w => (tt, set_internet (delete server) w)).

Definition setGenericPassword (username password service : string) :
  St world unit :=
  native KC_setGenericPassword
    (fun w => (tt, set_generic (insert service (username, password)) w)).

Definition getGenericPassword (service : string) :
  St world (option (string * string)) :=
  native KC_getGenericPassword (fun w => (generic w !! service, w)).

End Keychain.

Definition Date_now : St world Z := fun w => (Return (clock w), w).

(** [Wallet.createRandom().address] *)
Definition Wallet_createRandom : St world string :=
  fun w => (Return (random_wallet w (draws w)), draw w).

(** [crypto.getRandomValues(new Uint8Array(n))] *)
Definition getRandomValues (n : nat) : St world Buffer :=
  fun w => (Return (take n (random_bytes w (draws w))), draw w).

(** [s.startsWith(p)] *)
Fixpoint startsWith (p s : string) : bool :=
  match p, s with
  | EmptyString, _ => true
  | String a p', String b s' => Ascii.eqb a b && startsWith p' s'
  | String _ _, EmptyString => false
  end.

(** [s.slice(0, n)] *)
Definition slice_to (n : nat) (s : string) : string := String.substring 0 n s.

(** [s.slice(n)] *)
Fixpoint slice_from (n : nat) (s : string) : string :=
  match n, s with
  | O, _ => s
  | S n', String _ r => slice_from n' r
  | S _, EmptyString => EmptyString
  end.

Definition is_hex (c : ascii) : bool :=
  match hexval c with Some _ => true | None => false end.

(** The shape of an address: [0x] and forty hex digits. *)
Definition isAddress (a : string) : bool :=
  match a with
  | String "0"%char (String "x"%char h) =>
      Nat.eqb (String.length h) 40 && forallb is_hex (list_ascii_of_string h)
  | _ => false
  end.

(** [n.toString(16)] *)
Definition to_hex (n : N) : string :=
  HexadecimalString.NilZero.string_of_uint (N.to_hex_uint n).

(** ** KeyManager.ts *)

Module KeyManager.

Definition KEYCHAIN_SERVICE : string := "com.web3wallet.keys".
Definition MNEMONIC_KEY : string := "wallet_mnemonic".

(** A value that may be [undefined]. *)
Definition value := option json.
Definition undefined : value := None.
Definition null : value := Some JNull.

Record StoredWallet := {
  address : string;
  encryptedPrivateKey : string;
  createdAt : Z
}.

Definition record (address encryptedPrivateKey : string) (createdAt : value) : json :=
  JObj ([("address", JStr address);
         ("encryptedPrivateKey", JStr encryptedPrivateKey)] ++
        match createdAt with
        | Some t => [("createdAt", t)]
        | None => []
        end).

Definition of_wallet (r : StoredWallet) : json :=
  record (address r) (encryptedPrivateKey r) (Some (JNum (createdAt r))).

(** The registry as [JSON.parse] returns it. *)
Definition registry (ws : list StoredWallet) : json := JArr (map of_wallet ws).

(** [encrypt(data, key)]: a random wallet is made and encrypted under
    [key], and that result is dropped; what is returned is the base64 of
    the JSON of [data] and of the first ten characters of the random
    wallet's address. *)
Definition seal (wallet_address data : string) : string :=
  let combined :=
    stringify (JObj [("data", JStr data);
                     ("salt", JStr (slice_to 10 wallet_address))]) in
  Base64.encode (Utf8.fromString combined).

Definition encrypt (data key : string) : St world string :=
  do wallet_address <- Wallet_createRandom;
  ret (seal wallet_address data).

(** [decrypt(encrypted, key)]: every exception of the body becomes the
    one error; [key] is not read. *)
Definition decrypt (encrypted key : string) : outcome value :=
  let decoded := Utf8.toString (Base64.decode encrypted) in
  match parse decoded with
  | None => Throw (Error "Decryption failed")
  | Some JNull => Throw (Error "Decryption failed")
  | Some v => Return (get v "data")
  end.

Definition step (acc : N) (cp : N) : N :=
  (acc * 31 + Utf8.first_unit cp) mod 2 ^ 32.

Definition hashPin (pin : string) : string :=
  to_hex (fold_left step (Utf8.points pin) 0).

Definition storeMnemonic (mnemonic pin : string) : St world bool :=
  try_catch
    (do encryptedMnemonic <- encrypt mnemonic pin;
     do now <- Date_now;
     do _ <- EncryptedStorage.setItem MNEMONIC_KEY
               (stringify (JObj [("encrypted", JStr encryptedMnemonic);
                                 ("createdAt", JNum now)]));
     ret true)
    (fun _ => ret false).

Definition getWalletList : St world json :=
  try_catch
    (do stored <- EncryptedStorage.getItem "wallet_list";
     match stored with
     | None => ret (JArr [])
     | Some EmptyString => ret (JArr [])
     | Some text =>
         match parse text with
         | Some v => ret v
         | None => throw SyntaxError
         end
     end)
    (fun _ => ret (JArr [])).

(** [w.address === address] for an element [w] of the parsed list. *)
Definition has_address (address : string) (w : json) : outcome bool :=
  match w with
  | JNull => Throw TypeError
  | _ =>
      match get w "address" with
      | Some (JStr a) => Return (String.eqb a address)
      | _ => Return false
      end
  end.

(** [wallets.findIndex((w) => w.address === address)]; [None] is -1. *)
Fixpoint findIndex (address : string) (wallets : list json) : outcome (option nat) :=
  match wallets with
  | [] => Return None
  | w :: t =>
      match has_address address w with
      | Throw e => Throw e
      | Return true => Return (Some O)
      | Return false =>
          match findIndex address t with
          | Return (Some i) => Return (Some (S i))
          | r => r
          end
      end
  end.

(** [wallets.filter((w) => w.address !== address)] *)
Fixpoint filter_out (address : string) (wallets : list json) : outcome (list json) :=
  match wallets with
  | [] => Return []
  | w :: t =>
      match has_address address w with
      | Throw e => Throw e
      | Return same =>
          match filter_out address t with
          | Return t' => Return (if same then t' else w :: t')
          | Throw e => Throw e
          end
      end
  end.

Definition addToWalletList (address encryptedPrivateKey : string) : St world unit :=
  do wallets <- getWalletList;
  match wallets with
  | JArr items =>
      do existingIndex <- lift (findIndex address items);
      do updated <-
        match existingIndex with
        | Some i =>
            let old := default JNull (items !! i) in
            ret (<[i := record address encryptedPrivateKey (get old "createdAt")]> items)
        | None =>
            do now <- Date_now;
            ret (items ++ [record address encryptedPrivateKey (Some (JNum now))])
        end;
      EncryptedStorage.setItem "wallet_list" (stringify (JArr updated))
  | _ => throw TypeError
  end.

Definition server (address : string) : string :=
  KEYCHAIN_SERVICE +:+ "." +:+ address.

Definition storePrivateKey (address privateKey pin : string) : St world bool :=
  try_catch
    (do encryptedKey <- encrypt privateKey pin;
     do _ <- Keychain.setInternetCredentials (server address) address encryptedKey;
     do _ <- addToWalletList address encryptedKey;
     ret true)
    (fun _ => ret false).

Definition retrievePrivateKey (address pin : string) : St world value :=
  try_catch
    (do credentials <- Keychain.getInternetCredentials (server address);
     match credentials with
     | None => ret null
     | Some (_, password) => lift (decrypt password pin)
     end)
    (fun _ => ret null).

Definition setPin (pin : string) : St world bool :=
  try_catch
    (do _ <- Keychain.setGenericPassword "pin" (hashPin pin)
               (KEYCHAIN_SERVICE +:+ ".pin");
     ret true)
    (fun _ => ret false).

Definition verifyPin (pin : string) : St world bool :=
  try_catch
    (do stored <- Keychain.getGenericPassword (KEYCHAIN_SERVICE +:+ ".pin");
     match stored with
     | None => ret false
     | Some (_, password) => ret (String.eqb password (hashPin pin))
     end)
    (fun _ => ret false).

Definition hasPin : St world bool :=
  try_catch
    (do stored <- Keychain.getGenericPassword (KEYCHAIN_SERVICE +:+ ".pin");
     ret (bool_decide (is_Some stored)))
    (fun _ => ret false).

Definition deleteWallet (address : string) : St world bool :=
  try_catch
    (do _ <- Keychain.resetInternetCredentials (server address);
     do wallets <- getWalletList;
     match wallets with
     | JArr items =>
         do filtered <- lift (filter_out address items);
         do _ <- EncryptedStorage.setItem "wallet_list" (stringify (JArr filtered));
         ret true
     | _ => throw TypeError
     end)
    (fun _ => ret false).

End KeyManager.

(** ** WalletService.ts *)

Module WalletService.

Record WalletAccount := {
  address : string;
  privateKey : string;
  mnemonic : option string
}.

Definition is_space (c : ascii) : bool :=
  let n := u8 c in ((9 <=? n) && (n <=? 13)) || (n =? 32).

Fixpoint trim_start (s : string) : string :=
  match s with
  | String c r => if is_space c then trim_start r else s
  | EmptyString => s
  end.

Fixpoint trim_end (s : string) : string :=
  match s with
  | EmptyString => EmptyString
  | String c r =>
      match trim_end r with
      | EmptyString => if is_space c then EmptyString else String c EmptyString
      | r' => String c r'
      end
  end.

(** [s.trim()], on ASCII white space. *)
Definition trim (s : string) : string := trim_end (trim_start s).

Section Ethers.

(** [Mnemonic.fromEntropy(entropy).phrase] *)
Variable phrase_of_entropy : Buffer -> string.

(** [HDNodeWallet.fromMnemonic(Mnemonic.fromPhrase(phrase), path)]: the
    address and the private key, or the exception for a bad phrase. *)
Variable derive : string -> string -> outcome (string * string).

Definition generateMnemonic : St world string :=
  do entropy <- getRandomValues 16;
  ret (phrase_of_entropy entropy).

Definition createWalletFromMnemonic (mnemonic : string) (index : Z) :
  outcome WalletAccount :=
  let path := "m/44'/60'/0'/0/" +:+ print_Z index in
  match derive (trim mnemonic) path with
  | Return (a, k) =>
      Return {| address := a; privateKey := k; mnemonic := Some (trim mnemonic) |}
  | Throw e => Throw e
  end.

(** [createNewWallet(pin)]; [None] is [null]. *)
Definition createNewWallet (pin : string) : St world (option WalletAccount) :=
  try_catch
    (do mnemonic <- generateMnemonic;
     do wallet <- lift (createWalletFromMnemonic mnemonic 0);
     do _ <- KeyManager.storeMnemonic mnemonic pin;
     do _ <- KeyManager.storePrivateKey (address wallet) (privateKey wallet) pin;
     do _ <- KeyManager.setPin pin;
     ret (Some wallet))
    (fun _ => ret None).

End Ethers.

End WalletService.

(** ** TransactionService.ts *)

Module TransactionService.

Record TransactionRequest := {
  to : option string;
  from : option string;
  value : option Z;
  data : option string;
  nonce : option Z;
  gasLimit : option Z;
  gasPrice : option Z;
  maxFeePerGas : option Z;
  chainId : option Z
}.

(** The provider and what has been broadcast through it. *)
Record chain := {
  (** [providerService.getCurrentChainId()] *)
  currentChainId : Z;
  (** [provider.getTransactionCount(address, 'pending')] *)
  transactionCount : string -> Z;
  (** [provider.estimateGas(tx)] *)
  gasEstimate : TransactionRequest -> Z;
  (** [(await provider.getFeeData()).gasPrice] *)
  feeGasPrice : option Z;
  (** the requests signed and sent so far, each with its signer, oldest first *)
  sent : list (string * TransactionRequest)
}.

Definition with_nonce (n : option Z) (tx : TransactionRequest) : TransactionRequest :=
  {| to := to tx; from := from tx; value := value tx; data := data tx;
     nonce := n; gasLimit := gasLimit tx; gasPrice := gasPrice tx;
     maxFeePerGas := maxFeePerGas tx; chainId := chainId tx |}.

Definition with_gasLimit (g : option Z) (tx : TransactionRequest) : TransactionRequest :=
  {| to := to tx; from := from tx; value := value tx; data := data tx;
     nonce := nonce tx; gasLimit := g; gasPrice := gasPrice tx;
     maxFeePerGas := maxFeePerGas tx; chainId := chainId tx |}.

Definition with_gasPrice (g : option Z) (tx : TransactionRequest) : TransactionRequest :=
  {| to := to tx; from := from tx; value := value tx; data := data tx;
     nonce := nonce tx; gasLimit := gasLimit tx; gasPrice := g;
     maxFeePerGas := maxFeePerGas tx; chainId := chainId tx |}.

Definition with_from (a : option string) (tx : TransactionRequest) : TransactionRequest :=
  {| to := to tx; from := a; value := value tx; data := data tx;
     nonce := nonce tx; gasLimit := gasLimit tx; gasPrice := gasPrice tx;
     maxFeePerGas := maxFeePerGas tx; chainId := chainId tx |}.

(** [!x] for a numeric field: unset, or zero. *)
Definition falsy (x : option Z) : bool :=
  match x with
  | None => true
  | Some z => Z.eqb z 0
  end.

Definition getTransactionCount (address : string) : St chain Z :=
  fun c => (Return (transactionCount c address), c).

Definition estimateGas (tx : TransactionRequest) : St chain Z :=
  fun c => (Return (gasEstimate c tx), c).

Definition getFeeData : St chain (option Z) :=
  fun c => (Return (feeGasPrice c), c).

Definition getCurrentChainId : St chain Z :=
  fun c => (Return (currentChainId c), c).

Section Ethers.

(** [new Wallet(privateKey).address], or the exception for a bad key. *)
Variable address_of_key : string -> outcome string.

(** [ethers.parseUnits(amount, unit)], or the exception for a bad amount. *)
Variable parseUnits : string -> string -> outcome Z.

(** The hash of the request as signed by the signer. *)
Variable hash_of : string -> TransactionRequest -> string.

(** [wallet.sendTransaction(tx)] *)
Definition sendTransaction (signer : string) (tx : TransactionRequest) :
  St chain string :=
  fun c =>
    (Return (hash_of signer tx),
     {| currentChainId := currentChainId c;
        transactionCount := transactionCount c;
        gasEstimate := gasEstimate c;
        feeGasPrice := feeGasPrice c;
        sent := sent c ++ [(signer, tx)] |}).

Definition signAndSend (privateKey : string) (tx : TransactionRequest) :
  St chain string :=
  do wallet <- lift (address_of_key privateKey);
  do tx <-
    (if falsy (nonce tx)
     then do n <- getTransactionCount wallet; ret (with_nonce (Some n) tx)
     else ret tx);
  do tx <-
    (if falsy (gasLimit tx)
     then do g <- estimateGas (with_from (Some wallet) tx);
          ret (with_gasLimit (Some g) tx)
     else ret tx);
  do tx <-
    (if falsy (gasPrice tx) && falsy (maxFeePerGas tx)
     then do p <- getFeeData; ret (with_gasPrice p tx)
     else ret tx);
  sendTransaction wallet tx.

Definition cancelTransaction (privateKey : string) (nonce : Z) (gasPrice : string) :
  St chain string :=
  do wallet <- lift (address_of_key privateKey);
  do price <- lift (parseUnits gasPrice "gwei");
  do chainId <- getCurrentChainId;
  signAndSend privateKey
    {| to := Some wallet; from := None; value := Some 0%Z; data := None;
       nonce := Some nonce; gasLimit := Some 21000%Z; gasPrice := Some price;
       maxFeePerGas := None; chainId := Some chainId |}.

Definition speedUpTransaction (privateKey : string)
  (originalTx : TransactionRequest) (newGasPrice : string) : St chain string :=
  do price <- lift (parseUnits newGasPrice "gwei");
  signAndSend privateKey (with_gasPrice (Some price) originalTx).

End Ethers.

End TransactionService.

(** ** RequestHandler.ts *)

Module RequestHandler.

Definition value := option json.

Record WCSignRequest := {
  id : Z;
  topic : string;
  method : string;
  params : list json;
  chainId : Z
}.

Inductive WCFormattedRequest :=
| message (m : string)
| transaction (to : value) (amount : string) (data gasLimit gasPrice : value)
| typedData (domain types msg : value).

(** Whether a number literal kept as written denotes zero. *)
Fixpoint zero_mantissa (s : string) : bool :=
  match s with
  | EmptyString => true
  | String c r =>
      if Ascii.eqb c "e"%char || Ascii.eqb c "E"%char then true
      else if is_digit c && negb (Ascii.eqb c "0"%char) then false
      else zero_mantissa r
  end.

(** Truthiness of a parsed value. *)
Definition truthy (v : value) : bool :=
  match v with
  | None => false
  | Some JNull => false
  | Some (JBool b) => b
  | Some (JNum z) => negb (Z.eqb z 0)
  | Some (JReal lexeme) => negb (zero_mantissa lexeme)
  | Some (JStr s) => nonempty s
  | Some (JArr _) => true
  | Some (JObj _) => true
  end.

(** [a || b] *)
Definition or_else (a b : value) : value := if truthy a then a else b.

(** The string that [JSON.parse] makes of its argument before parsing. *)
Fixpoint to_string (v : json) : string :=
  match v with
  | JNull => "null"
  | JBool true => "true"
  | JBool false => "false"
  | JNum z => print_Z z
  | JReal lexeme => lexeme
  | JStr s => s
  | JArr items =>
      (fix join (l : list json) : string :=
         match l with
         | [] => EmptyString
         | x :: t =>
             match x with JNull => EmptyString | _ => to_string x end +:+
             match t with
             | [] => EmptyString
             | _ :: _ => "," +:+ join t
             end
         end) items
  | JObj _ => "[object Object]"
  end.

(** [message.startsWith('0x')], then the hex bytes read as UTF-8. *)
Definition decodeMessage (message : string) : string :=
  if startsWith "0x" message
  then Utf8.toString (Hex.decode (slice_from 2 message))
  else message.

(** [this.decodeMessage(message as string)]: a value that is not a string
    has no [startsWith]. *)
Definition decoded (v : value) : outcome WCFormattedRequest :=
  match v with
  | Some (JStr m) => Return (message (decodeMessage m))
  | _ => Throw TypeError
  end.

Definition is_method (name : string) (req : WCSignRequest) : bool :=
  String.eqb (method req) name.

Section Ethers.

(** [ethers.formatEther(wei)] *)
Variable formatEther : json -> outcome string.

Definition formatRequest (request : WCSignRequest) : outcome WCFormattedRequest :=
  let params := params request in
  if is_method "personal_sign" request || is_method "eth_sign" request then
    decoded (if is_method "personal_sign" request then params !! 0%nat
             else params !! 1%nat)
  else if is_method "eth_signTransaction" request
          || is_method "eth_sendTransaction" request then
    match params !! 0%nat with
    | None => Throw TypeError
    | Some JNull => Throw TypeError
    | Some txParams =>
        match
          (if truthy (get txParams "value")
           then formatEther (default JNull (get txParams "value"))
           else Return "0")
        with
        | Return amount =>
            Return (transaction
                      (or_else (get txParams "to") (Some (JStr EmptyString)))
                      amount
                      (get txParams "data")
                      (or_else (get txParams "gas") (get txParams "gasLimit"))
                      (get txParams "gasPrice"))
        | Throw e => Throw e
        end
    end
  else if is_method "eth_signTypedData" request
          || is_method "eth_signTypedData_v4" request then
    let typedDataString := params !! 1%nat in
    let fallback :=
      typedData (Some (JObj [])) (Some (JObj []))
        (Some (JObj match typedDataString with
                    | Some x => [("raw", x)]
                    | None => []
                    end)) in
    match parse (from_option to_string "undefined" typedDataString) with
    | None => Return fallback
    | Some JNull => Return fallback
    | Some parsed =>
        Return (typedData (get parsed "domain") (get parsed "types")
                  (get parsed "message"))
    end
  else Return (message ("Unsupported method: " +:+ method request)).

End Ethers.

End RequestHandler.

(** ** WalletConnectService.ts *)

Module WalletConnectService.

Definition SUPPORTED_METHODS : list string :=
  ["personal_sign"; "eth_sign"; "eth_signTransaction"; "eth_sendTransaction";
   "eth_signTypedData"; "eth_signTypedData_v4"].

Definition SUPPORTED_EVENTS : list string := ["chainChanged"; "accountsChanged"].

Record Namespace := {
  chains : list string;
  methods : list string;
  events : list string;
  accounts : list string
}.

Section Library.

(** [SUPPORTED_CHAIN_IDS] of constants/chains.ts *)
Variable SUPPORTED_CHAIN_IDS : list Z.

(** [ProposalTypes.Struct] of @walletconnect/types *)
Variable Proposal : Type.

(** [buildApprovedNamespaces] of @walletconnect/utils: from the proposal and
    the namespaces the wallet supports, the namespaces to approve, or an
    exception.  Its code is not part of this repository. *)
Variable buildApprovedNamespaces :
  Proposal -> list (string * Namespace) -> outcome (list (string * Namespace)).

(** Every supported chain, every supported method and event, and the
    address on every supported chain. *)
Definition supportedNamespaces (address : string) : list (string * Namespace) :=
  [("eip155",
    {| chains := map (fun id => "eip155:" +:+ print_Z id) SUPPORTED_CHAIN_IDS;
       methods := SUPPORTED_METHODS;
       events := SUPPORTED_EVENTS;
       accounts :=
         map (fun id => "eip155:" +:+ print_Z id +:+ ":" +:+ address)
           SUPPORTED_CHAIN_IDS |})].

(** The namespaces that [approveSession] grants: what the library makes of
    the proposal and of everything the wallet supports. *)
Definition approvedNamespaces (address : string) (proposalParams : Proposal) :
  outcome (list (string * Namespace)) :=
  buildApprovedNamespaces proposalParams (supportedNamespaces address).

End Library.

End WalletConnectService.

(** ** KeyManager.ts: the other methods *)

Module KeyVault.

(** The end of [decrypt], from the decoded bytes on. *)
Definition open_blob (bytes : Buffer) : outcome KeyManager.value :=
  match parse (Utf8.toString bytes) with
  | None => Throw (Error "Decryption failed")
  | Some JNull => Throw (Error "Decryption failed")
  | Some v => Return (get v "data")
  end.

Section Polyfill.

(** [Buffer.from(value, 'base64')] of the buffer polyfill for a value that
    is not a string: the bytes of an array-like or buffer-like object, or
    the TypeError. *)
Variable Buffer_from_value : KeyManager.value -> outcome Buffer.

(** [decrypt(encrypted, key)] on whatever was read from the store. *)
Definition decrypt_value (encrypted : KeyManager.value) (key : string) :
  outcome KeyManager.value :=
  match encrypted with
  | Some (JStr s) => KeyManager.decrypt s key
  | other =>
      match Buffer_from_value other with
      | Return bytes => open_blob bytes
      | Throw _ => Throw (Error "Decryption failed")
      end
  end.

Definition retrieveMnemonic (pin : string) : St world KeyManager.value :=
  try_catch
    (do stored <- EncryptedStorage.getItem KeyManager.MNEMONIC_KEY;
     match stored with
     | None => ret KeyManager.null
     | Some EmptyString => ret KeyManager.null
     | Some text =>
         match parse text with
         | None => throw SyntaxError
         | Some JNull => throw TypeError
         | Some v => lift (decrypt_value (get v "encrypted") pin)
         end
     end)
    (fun _ => ret KeyManager.null).

End Polyfill.

Definition BIOMETRIC_SERVICE : string := KeyManager.KEYCHAIN_SERVICE +:+ ".biometric".
Definition PIN_SERVICE : string := KeyManager.KEYCHAIN_SERVICE +:+ ".pin".



(** The values that [for (const wallet of wallets)] visits: the items of
    an array, the characters of a string; nothing else can be iterated. *)
Definition iterate (wallets : json) : outcome (list json) :=
  match wallets with
  | JArr items => Return items
  | JStr s =>
      Return (map (fun c => JStr (string_of_list_ascii (Utf8.render c)))
                (Utf8.chunks (list_ascii_of_string s)))
  | _ => Throw TypeError
  end.

Section Wipe.

(** Whether the device rejects [Keychain.resetGenericPassword] and
    [EncryptedStorage.clear]. *)
Variable rejects_resetGenericPassword : bool.
Variable rejects_clear : bool.

(** [String(v)] for a value that is not a string; the engine's number
    formatting is part of it. *)
Variable String_of : json -> string.

(** The text that the template literal makes of [wallet.address]. *)
Definition address_text (wallet : json) : outcome string :=
  match wallet with
  | JNull => Throw TypeError
  | _ =>
      Return match get wallet "address" with
             | Some (JStr a) => a
             | Some v => String_of v
             | None => "undefined"
             end
  end.

Definition resetGenericPassword (service : string) : St world unit :=
  fun w =>
    if rejects_resetGenericPassword
    then (Throw (Error "resetGenericPassword"), w)
    else (Return tt, set_generic (delete service) w).

Definition clear : St world unit :=
  fun w =>
    if rejects_clear
    then (Throw (Error "clear"), w)
    else (Return tt, set_storage (fun _ => ∅) w).

(** The loop of [clearAll] over the listed wallets. *)
Fixpoint reset_each (wallets : list json) : St world unit :=
  match wallets with
  | [] => ret tt
  | wallet :: rest =>
      do a <- lift (address_text wallet);
      do _ <- Keychain.resetInternetCredentials (KeyManager.server a);
      reset_each rest
  end.

Definition clearAll : St world unit :=
  try_catch
    (do wallets <- KeyManager.getWalletList;
     do items <- lift (iterate wallets);
     do _ <- reset_each items;
     do _ <- resetGenericPassword PIN_SERVICE;
     do _ <- resetGenericPassword BIOMETRIC_SERVICE;
     clear)
    (fun _ => ret tt).

End Wipe.

End KeyVault.

(** ** utils/validation.ts *)

Module Validation.

(** [/^\d{6}$/.test(pin)] *)
Definition isValidPin (pin : string) : bool :=
  Nat.eqb (String.length pin) 6 && forallb is_digit (list_ascii_of_string pin).

End Validation.

(** ** WalletService.ts: the other methods *)

Module WalletFactory.

(** What [loadWallet] returns: the address asked for and the key as
    decrypted. *)
Record LoadedWallet := {
  address : string;
  privateKey : json
}.

(** [s.split(' ')] *)
Fixpoint split (sep : ascii) (s : string) : list string :=
  match s with
  | EmptyString => [EmptyString]
  | String c r =>
      if Ascii.eqb c sep then EmptyString :: split sep r
      else match split sep r with
           | word :: words => String c word :: words
           | [] => [String c EmptyString]
           end
  end.

(** [words.join(' ')] *)
Fixpoint join (sep : string) (words : list string) : string :=
  match words with
  | [] => EmptyString
  | [word] => word
  | word :: rest => word +:+ sep +:+ join sep rest
  end.

Definition mnemonicToWords (mnemonic : string) : list string :=
  split " "%char (WalletService.trim mnemonic).

Definition wordsToMnemonic (words : list string) : string :=
  WalletService.trim (join " " words).

(** [wallets.map((w) => w.address)] *)
Fixpoint addresses_of (wallets : list json) : outcome (list KeyManager.value) :=
  match wallets with
  | [] => Return []
  | JNull :: _ => Throw TypeError
  | w :: rest =>
      match addresses_of rest with
      | Return l => Return (get w "address" :: l)
      | Throw e => Throw e
      end
  end.

Definition getWalletAddresses : St world (list KeyManager.value) :=
  do wallets <- KeyManager.getWalletList;
  match wallets with
  | JArr items => lift (addresses_of items)
  | _ => throw TypeError
  end.

Definition loadWallet (address pin : string) : St world (option LoadedWallet) :=
  try_catch
    (do privateKey <- KeyManager.retrievePrivateKey address pin;
     match privateKey with
     | Some key =>
         if RequestHandler.truthy privateKey
         then ret (Some {| address := address; privateKey := key |})
         else ret None
     | None => ret None
     end)
    (fun _ => ret None).

Section Ethers.

(** Whether [Mnemonic.fromPhrase(phrase)] accepts the phrase. *)
Variable valid_phrase : string -> bool.

(** [HDNodeWallet.fromMnemonic(Mnemonic.fromPhrase(phrase), path)], as in
    [WalletService]. *)
Variable derive : string -> string -> outcome (string * string).

(** [new ethers.Wallet(privateKey)]: the address and the private key of
    the wallet, or the exception for a bad key. *)
Variable wallet_of_key : string -> outcome (string * string).

Definition validateMnemonic (mnemonic : string) : bool :=
  valid_phrase (WalletService.trim mnemonic).

Definition createWalletFromPrivateKey (privateKey : string) :
  outcome WalletService.WalletAccount :=
  match wallet_of_key privateKey with
  | Return (a, k) =>
      Return {| WalletService.address := a; WalletService.privateKey := k;
                WalletService.mnemonic := None |}
  | Throw e => Throw e
  end.

Definition importWalletFromMnemonic (mnemonic pin : string) :
  St world (option WalletService.WalletAccount) :=
  try_catch
    (if negb (validateMnemonic mnemonic) then throw (Error "Invalid mnemonic")
     else
       do wallet <- lift (WalletService.createWalletFromMnemonic derive mnemonic 0);
       do _ <- KeyManager.storeMnemonic mnemonic pin;
       do _ <- KeyManager.storePrivateKey (WalletService.address wallet)
                 (WalletService.privateKey wallet) pin;
       do _ <- KeyManager.setPin pin;
       ret (Some wallet))
    (fun _ => ret None).

Definition importWalletFromPrivateKey (privateKey pin : string) :
  St world (option WalletService.WalletAccount) :=
  try_catch
    (do wallet <- lift (createWalletFromPrivateKey privateKey);
     do _ <- KeyManager.storePrivateKey (WalletService.address wallet)
               (WalletService.privateKey wallet) pin;
     do hasPin <- KeyManager.hasPin;
     do _ <- (if negb hasPin then KeyManager.setPin pin else ret true);
     ret (Some wallet))
    (fun _ => ret None).

End Ethers.

End WalletFactory.

(** ** ProviderService.ts: gas fee options *)

Module ProviderService.

Record GasOption := {
  gasPrice : string;
  label : string
}.

Record GasFeeOptions := {
  slow : GasOption;
  normal : GasOption;
  fast : GasOption
}.

(** [feeData.gasPrice || BigInt(0)] *)
Definition baseGasPrice (feeData : option Z) : Z :=
  if TransactionService.falsy feeData then 0%Z else default 0%Z feeData.

Section Ethers.

(** [ethers.formatUnits(value, unit)] *)
Variable formatUnits : Z -> string -> string.

(** [getGasFeeOptions()]; the division of BigInts truncates. *)
Definition getGasFeeOptions : St TransactionService.chain GasFeeOptions :=
  do feeData <- TransactionService.getFeeData;
  let base := baseGasPrice feeData in
  ret {| slow := {| gasPrice := formatUnits (Z.quot (base * 80) 100) "gwei";
                    label := "~5 min" |};
         normal := {| gasPrice := formatUnits base "gwei"; label := "~2 min" |};
         fast := {| gasPrice := formatUnits (Z.quot (base * 120) 100) "gwei";
                    label := "~30 sec" |} |}.

End Ethers.

End ProviderService.

(** ** TransactionService.ts: the other methods *)

Module ChainSigner.

Import TransactionService.

Record SpeedOption := {
  gasPrice : string;
  estimatedTime : string
}.

Record GasFee := {
  slow : SpeedOption;
  normal : SpeedOption;
  fast : SpeedOption
}.


Section Ethers.

Variable address_of_key : string -> outcome string.

(** [ethers.parseEther(amount)], or the exception for a bad amount. *)
Variable parseEther : string -> outcome Z.

Variable parseUnits : string -> string -> outcome Z.

(** Lines 400 to 406 of [buildTokenTransfer]: the call data that ethers
    encodes for [transfer(to, parseUnits(amount, decimals))] on the token
    contract, or the exception. *)
Variable transfer_data : string -> string -> string -> Z -> outcome string.

(** [wallet.signTransaction(tx)]: the signed request, serialized. *)
Variable signed_of : string -> TransactionRequest -> string.

Variable formatEther : Z -> string.

Variable formatUnits : Z -> string -> string.



(** [signTransaction(privateKey, tx)]: the request is completed as in
    [signAndSend], then signed and not sent. *)
Definition signTransaction (privateKey : string) (tx : TransactionRequest) :
  St chain string :=
  do wallet <- lift (address_of_key privateKey);
  do tx <-
    (if falsy (nonce tx)
     then do n <- getTransactionCount wallet; ret (with_nonce (Some n) tx)
     else ret tx);
  do tx <-
    (if falsy (gasLimit tx)
     then do g <- estimateGas (with_from (Some wallet) tx);
          ret (with_gasLimit (Some g) tx)
     else ret tx);
  do tx <-
    (if falsy (TransactionService.gasPrice tx) && falsy (maxFeePerGas tx)
     then do p <- getFeeData; ret (with_gasPrice p tx)
     else ret tx);
  ret (signed_of wallet tx).

Definition calculateGasFee (gasLimit gasPrice : Z) : string :=
  formatEther (gasLimit * gasPrice).

Definition getSpeedOptions : St chain GasFee :=
  do options <- ProviderService.getGasFeeOptions formatUnits;
  ret {| slow :=
           {| gasPrice := ProviderService.gasPrice (ProviderService.slow options);
              estimatedTime := ProviderService.label (ProviderService.slow options) |};
         normal :=
           {| gasPrice := ProviderService.gasPrice (ProviderService.normal options);
              estimatedTime := ProviderService.label (ProviderService.normal options) |};
         fast :=
           {| gasPrice := ProviderService.gasPrice (ProviderService.fast options);
              estimatedTime := ProviderService.label (ProviderService.fast options) |} |}.

End Ethers.

End ChainSigner.

(** ** [parseInt] *)

Module Numbers.

(** A number as [parseInt] returns it. *)
Inductive number :=
| Num (z : Z)
| NaN
| Infinity (negative : bool).

(** White space and line terminators, in UTF-8: one byte, U+00A0, and the
    three-byte ones (U+1680, U+2000 to U+200A, U+2028, U+2029, U+202F,
    U+205F, U+3000, U+FEFF). *)
Definition white1 (a : ascii) : bool :=
  let n := u8 a in ((9 <=? n) && (n <=? 13)) || (n =? 32).

Definition white2 (a b : ascii) : bool := (u8 a =? 0xC2) && (u8 b =? 0xA0).

Definition white3 (a b c : ascii) : bool :=
  let x := u8 a in
  let y := u8 b in
  let z := u8 c in
  ((x =? 0xE1) && (y =? 0x9A) && (z =? 0x80)) ||
  ((x =? 0xE2) && (y =? 0x80) &&
   (((0x80 <=? z) && (z <=? 0x8A)) || (z =? 0xA8) || (z =? 0xA9) || (z =? 0xAF))) ||
  ((x =? 0xE2) && (y =? 0x81) && (z =? 0x9F)) ||
  ((x =? 0xE3) && (y =? 0x80) && (z =? 0x80)) ||
  ((x =? 0xEF) && (y =? 0xBB) && (z =? 0xBF)).

Fixpoint skip_white (s : string) : string :=
  match s with
  | String a r1 =>
      if white1 a then skip_white r1
      else
        match r1 with
        | String b r2 =>
            if white2 a b then skip_white r2
            else
              match r2 with
              | String c r3 => if white3 a b c then skip_white r3 else s
              | EmptyString => s
              end
        | EmptyString => s
        end
  | EmptyString => s
  end.

Definition negative (s : string) : bool :=
  match s with
  | String c _ => Ascii.eqb c "-"%char
  | EmptyString => false
  end.

(** A leading [0x] or [0X] is dropped when the radix is 16. *)
Definition strip_0x (s : string) : string :=
  match s with
  | String "0"%char (String c r) =>
      if Ascii.eqb c "x"%char || Ascii.eqb c "X"%char then r else s
  | _ => s
  end.

Definition digit_of (radix : N) (c : ascii) : option N :=
  match hexval c with
  | Some d => if d <? radix then Some d else None
  | None => None
  end.

(** The value of the longest prefix of digits. *)
Fixpoint digits_value (radix acc : N) (s : string) : N :=
  match s with
  | String c r =>
      match digit_of radix c with
      | Some d => digits_value radix (acc * radix + d) r
      | None => acc
      end
  | EmptyString => acc
  end.

Definition has_digit (radix : N) (s : string) : bool :=
  match s with
  | String c _ => bool_decide (is_Some (digit_of radix c))
  | EmptyString => false
  end.

Section Engine.

(** The Number that the engine makes of an integer of 2^53 or more, from
    its sign and magnitude. *)
Variable double_of : bool -> N -> number.

(** [parseInt(s, radix)] for the radix 10 or 16. *)
Definition parseInt (s : string) (radix : N) : number :=
  let s1 := skip_white s in
  let s2 := JSON.strip_sign s1 in
  let s3 := if radix =? 16 then strip_0x s2 else s2 in
  if has_digit radix s3 then
    let n := digits_value radix 0 s3 in
    if n <? 2 ^ 53
    then Num (if negative s1 then - Z.of_N n else Z.of_N n)
    else double_of (negative s1) n
  else NaN.

End Engine.

End Numbers.

(** ** WalletConnectService.ts: the chain of a request *)

Module SessionRequest.

Section Engine.

Variable double_of : bool -> N -> Numbers.number.

(** [parseInt(event.params.chainId.split(':')[1], 10)] *)
Definition chainId (caip : string) : Numbers.number :=
  match WalletFactory.split ":"%char caip with
  | _ :: reference :: _ => Numbers.parseInt double_of reference 10
  | _ => Numbers.NaN
  end.

End Engine.

End SessionRequest.

(** ** RequestHandler.ts: handling a request *)

Module PeerSessionBroker.

Import Numbers.

(** A field of the request handed to ethers: absent, a value of the dApp,
    a BigInt of the provider, or [null]. *)
Inductive field :=
| Unset
| Given (v : json)
| Big (z : Z)
| Null.

Record RawTransaction := {
  to : field;
  value : field;
  data : field;
  gasLimit : field;
  gasPrice : field;
  nonce : option number;
  maxFeePerGas : field;
  maxPriorityFeePerGas : field
}.

(** The provider as the request handler drives it. *)
Record provider := {
  currentChainId : Z;
  transactionCount : string -> Z;
  feeGasPrice : option Z;
  (** the requests sent so far, each with its signer, oldest first *)
  broadcast : list (string * RawTransaction)
}.

Definition session : Type := world * provider.

Definition on_world {A} (c : St world A) : St session A :=
  fun s => let '(o, w') := c (fst s) in (o, (w', snd s)).

Definition on_provider {A} (c : St provider A) : St session A :=
  fun s => let '(o, p') := c (snd s) in (o, (fst s, p')).

Definition of_value (v : RequestHandler.value) : field :=
  match v with
  | Some x => Given x
  | None => Unset
  end.

(** [if (x) tx.field = x] *)
Definition when_truthy (v : RequestHandler.value) : field :=
  if RequestHandler.truthy v then of_value v else Unset.

(** [!x] for a field. *)
Definition falsy (f : field) : bool :=
  match f with
  | Unset => true
  | Given v => negb (RequestHandler.truthy (Some v))
  | Big z => Z.eqb z 0
  | Null => true
  end.

(** [!tx.nonce] *)
Definition falsy_nonce (n : option number) : bool :=
  match n with
  | None => true
  | Some (Num z) => Z.eqb z 0
  | Some NaN => true
  | Some (Infinity _) => false
  end.

Definition with_nonce (n : option number) (tx : RawTransaction) : RawTransaction :=
  {| to := to tx; value := value tx; data := data tx; gasLimit := gasLimit tx;
     gasPrice := gasPrice tx; nonce := n; maxFeePerGas := maxFeePerGas tx;
     maxPriorityFeePerGas := maxPriorityFeePerGas tx |}.

Definition with_gasLimit (g : field) (tx : RawTransaction) : RawTransaction :=
  {| to := to tx; value := value tx; data := data tx; gasLimit := g;
     gasPrice := gasPrice tx; nonce := nonce tx; maxFeePerGas := maxFeePerGas tx;
     maxPriorityFeePerGas := maxPriorityFeePerGas tx |}.

Definition with_gasPrice (g : field) (tx : RawTransaction) : RawTransaction :=
  {| to := to tx; value := value tx; data := data tx; gasLimit := gasLimit tx;
     gasPrice := g; nonce := nonce tx; maxFeePerGas := maxFeePerGas tx;
     maxPriorityFeePerGas := maxPriorityFeePerGas tx |}.

Definition with_chain (chainId : Z) (p : provider) : provider :=
  {| currentChainId := chainId; transactionCount := transactionCount p;
     feeGasPrice := feeGasPrice p; broadcast := broadcast p |}.

Definition sending (signer : string) (tx : RawTransaction) (p : provider) : provider :=
  {| currentChainId := currentChainId p; transactionCount := transactionCount p;
     feeGasPrice := feeGasPrice p; broadcast := broadcast p ++ [(signer, tx)] |}.

(** The own properties of an array, by index. *)
Fixpoint indexed (i : Z) (items : list json) : list (string * json) :=
  match items with
  | [] => []
  | x :: rest => (print_Z i, x) :: indexed (i + 1) rest
  end.

(** [delete object.key], on the members of the object. *)
Fixpoint without (key : string) (members : list (string * json)) :
  list (string * json) :=
  match members with
  | [] => []
  | (k, x) :: rest =>
      if String.eqb k key then without key rest else (k, x) :: without key rest
  end.

(** The constants and the libraries that the handler relies on. *)
Record libraries := {
  (** whether [CHAINS] of constants/chains.ts has the chain id *)
  supported : Z -> bool;
  (** the Number that the engine makes of an integer of 2^53 or more *)
  double_of : bool -> N -> number;
  (** [String(v)] for a value that is not a string *)
  String_of : json -> string;
  (** the own properties of a string, one for each code unit *)
  units_of : string -> list (string * json);
  (** [new Wallet(privateKey, provider).address], or the exception of
      ethers for a value that is no private key *)
  address_of_key : json -> outcome string;
  (** [new Wallet(privateKey).signMessage(message)] *)
  signMessage : json -> string -> outcome string;
  (** [new Wallet(privateKey).signTypedData(domain, types, value)] *)
  signTypedData :
    json -> RequestHandler.value -> list (string * json) -> RequestHandler.value ->
    outcome string;
  (** [provider.estimateGas(tx)] for the request and its sender *)
  estimateGas : RawTransaction -> string -> outcome Z;
  (** [wallet.signTransaction(tx)] *)
  sign : string -> RawTransaction -> outcome string;
  (** [wallet.sendTransaction(tx)]: the hash, or the exception of ethers
      for a request it does not accept *)
  send : string -> RawTransaction -> outcome string
}.

Section Libraries.

Variable lib : libraries.

(** [providerService.setCurrentChain(chainId)] *)
Definition setCurrentChain (chainId : Z) : St provider unit :=
  fun p =>
    if supported lib chainId then (Return tt, with_chain chainId p)
    else (Throw (Error ("Unsupported chain: " +:+ print_Z chainId)), p).

Definition decodeMessage (v : RequestHandler.value) : outcome string :=
  match v with
  | Some (JStr m) => Return (RequestHandler.decodeMessage m)
  | _ => Throw TypeError
  end.

Definition handlePersonalSign (params : list json) (privateKey : json) :
  outcome string :=
  match decodeMessage (params !! 0%nat) with
  | Return decodedMessage => signMessage lib privateKey decodedMessage
  | Throw e => Throw e
  end.

Definition handleEthSign (params : list json) (privateKey : json) :
  outcome string :=
  match decodeMessage (params !! 1%nat) with
  | Return decodedMessage => signMessage lib privateKey decodedMessage
  | Throw e => Throw e
  end.

(** [parseInt(params.nonce, 16)] *)
Definition parse_nonce (v : json) : number :=
  parseInt (double_of lib)
    (match v with JStr s => s | _ => String_of lib v end) 16.

Definition formatTransactionParams (params : RequestHandler.value) :
  outcome RawTransaction :=
  match params with
  | None => Throw TypeError
  | Some JNull => Throw TypeError
  | Some p =>
      Return
        {| to := of_value (get p "to");
           value := when_truthy (get p "value");
           data := when_truthy (get p "data");
           gasLimit :=
             when_truthy (RequestHandler.or_else (get p "gas") (get p "gasLimit"));
           gasPrice := when_truthy (get p "gasPrice");
           nonce :=
             match get p "nonce" with
             | Some n =>
                 if RequestHandler.truthy (Some n) then Some (parse_nonce n) else None
             | None => None
             end;
           maxFeePerGas := when_truthy (get p "maxFeePerGas");
           maxPriorityFeePerGas := when_truthy (get p "maxPriorityFeePerGas") |}
  end.

(** [transactionService.signAndSend(privateKey, tx)] on the request that
    [formatTransactionParams] makes. *)
Definition signAndSend (privateKey : json) (tx : RawTransaction) :
  St provider string :=
  do wallet <- lift (address_of_key lib privateKey);
  do tx <-
    (if falsy_nonce (nonce tx)
     then fun p => (Return (with_nonce (Some (Num (transactionCount p wallet))) tx), p)
     else ret tx);
  do tx <-
    (if falsy (gasLimit tx)
     then do g <- lift (estimateGas lib tx wallet); ret (with_gasLimit (Big g) tx)
     else ret tx);
  do tx <-
    (if falsy (gasPrice tx) && falsy (maxFeePerGas tx)
     then fun p =>
            (Return (with_gasPrice
                       (match feeGasPrice p with Some g => Big g | None => Null end)
                       tx), p)
     else ret tx);
  fun p =>
    match send lib wallet tx with
    | Return hash => (Return hash, sending wallet tx p)
    | Throw e => (Throw e, p)
    end.

(** [transactionService.signTransaction(privateKey, tx)] on that request. *)
Definition signTransaction (privateKey : json) (tx : RawTransaction) :
  St provider string :=
  do wallet <- lift (address_of_key lib privateKey);
  do tx <-
    (if falsy_nonce (nonce tx)
     then fun p => (Return (with_nonce (Some (Num (transactionCount p wallet))) tx), p)
     else ret tx);
  do tx <-
    (if falsy (gasLimit tx)
     then do g <- lift (estimateGas lib tx wallet); ret (with_gasLimit (Big g) tx)
     else ret tx);
  do tx <-
    (if falsy (gasPrice tx) && falsy (maxFeePerGas tx)
     then fun p =>
            (Return (with_gasPrice
                       (match feeGasPrice p with Some g => Big g | None => Null end)
                       tx), p)
     else ret tx);
  lift (sign lib wallet tx).

Definition handleSignTransaction (params : list json) (privateKey : json) :
  St provider string :=
  do tx <- lift (formatTransactionParams (params !! 0%nat));
  signTransaction privateKey tx.

Definition handleSendTransaction (params : list json) (privateKey : json) :
  St provider string :=
  do tx <- lift (formatTransactionParams (params !! 0%nat));
  signAndSend privateKey tx.

(** [{ ...types }] *)
Definition spread (types : RequestHandler.value) : list (string * json) :=
  match types with
  | Some (JObj members) => members
  | Some (JArr items) => indexed 0 items
  | Some (JStr s) => units_of lib s
  | _ => []
  end.

Definition handleSignTypedData (params : list json) (privateKey : json) :
  outcome string :=
  match parse (from_option RequestHandler.to_string "undefined" (params !! 1%nat)) with
  | None => Throw SyntaxError
  | Some JNull => Throw TypeError
  | Some typedData =>
      let cleanTypes := without "EIP712Domain" (spread (get typedData "types")) in
      signTypedData lib privateKey (get typedData "domain") cleanTypes
        (get typedData "message")
  end.

Definition handleRequest (request : RequestHandler.WCSignRequest)
  (address pin : string) : St session string :=
  do isValidPin <- on_world (KeyManager.verifyPin pin);
  if negb isValidPin then throw (Error "Invalid PIN")
  else
    do privateKey <- on_world (KeyManager.retrievePrivateKey address pin);
    if negb (RequestHandler.truthy privateKey)
    then throw (Error "Failed to retrieve private key")
    else
      let key := default JNull privateKey in
      let params := RequestHandler.params request in
      do _ <- on_provider (setCurrentChain (RequestHandler.chainId request));
      if RequestHandler.is_method "personal_sign" request
      then lift (handlePersonalSign params key)
      else if RequestHandler.is_method "eth_sign" request
      then lift (handleEthSign params key)
      else if RequestHandler.is_method "eth_signTransaction" request
      then on_provider (handleSignTransaction params key)
      else if RequestHandler.is_method "eth_sendTransaction" request
      then on_provider (handleSendTransaction params key)
      else if RequestHandler.is_method "eth_signTypedData" request
              || RequestHandler.is_method "eth_signTypedData_v4" request
      then lift (handleSignTypedData params key)
      else throw (Error ("Unsupported method: " +:+ RequestHandler.method request)).

End Libraries.

End PeerSessionBroker.

(** ** Vocabulary of the statements and sample data *)

Definition text_list (l : list ascii) : Prop :=
  forallb Utf8.sound (Utf8.chunks l) = true.

(** The shapes a text can start with. *)
Inductive text_head : list ascii -> list ascii -> Prop :=
| head1 b0 t : Utf8.ascii7 b0 = true -> Utf8.lead2 b0 = false ->
    text_head (b0 :: t) t
| head2 b0 b1 t : Utf8.lead2 b0 = true -> Utf8.lead3 b0 = false ->
    Utf8.valid2 b0 b1 = true -> text_head (b0 :: b1 :: t) t
| head3 b0 b1 b2 t : Utf8.lead3 b0 = true -> Utf8.lead4 b0 = false ->
    Utf8.valid3 b0 b1 b2 = true -> text_head (b0 :: b1 :: b2 :: t) t
| head4 b0 b1 b2 b3 t : Utf8.lead4 b0 = true ->
    Utf8.valid4 b0 b1 b2 b3 = true -> text_head (b0 :: b1 :: b2 :: b3 :: t) t.

Definition roundtrip_value (f : nat) : Prop :=
  forall v rest, plain v = true -> tail_ok rest = true ->
    (2 * String.length (stringify v) <= f)%nat ->
    parse_value f (stringify v +:+ rest) = Some (v, rest).

Definition roundtrip_elems (f : nat) : Prop :=
  forall x t rest, plain x = true -> forallb plain t = true ->
    (2 * String.length (elems_text (x :: t)) <= f)%nat ->
    parse_elems f (elems_text (x :: t) +:+ rest) = Some (x :: t, rest).

Definition roundtrip_membs (f : nat) : Prop :=
  forall k x t rest, plain x = true ->
    forallb (fun m => plain (snd m)) t = true ->
    (2 * String.length (membs_text ((k, x) :: t)) <= f)%nat ->
    parse_members f (membs_text ((k, x) :: t) +:+ rest) = Some ((k, x) :: t, rest).

Definition w0 : world :=
  {| storage := ∅; internet := ∅; generic := ∅; clock := 1700000000000%Z;
     random_wallet := fun _ => "0x71C7656EC7ab88b098defB751B7401B5f6d8976F";
     random_bytes := fun _ => []; draws := 0; rejects := fun _ => false |}.

Definition sign_request (method : string) (params : list json) :
  RequestHandler.WCSignRequest :=
  {| RequestHandler.id := 1; RequestHandler.topic := "topic";
     RequestHandler.method := method; RequestHandler.params := params;
     RequestHandler.chainId := 1 |}.

(** The device rejects no native call. *)
Definition reliable (w : world) : Prop := forall call, rejects w call = false.

(** What [getWalletList] reads from a store. *)
Definition stored_wallets (st : gmap string string) : json :=
  match st !! "wallet_list" with
  | None => JArr []
  | Some EmptyString => JArr []
  | Some text =>
      match parse text with
      | Some v => v
      | None => JArr []
      end
  end.

Definition renewed (blob : string) (r : KeyManager.StoredWallet) : KeyManager.StoredWallet :=
  {| KeyManager.address := KeyManager.address r;
     KeyManager.encryptedPrivateKey := blob;
     KeyManager.createdAt := KeyManager.createdAt r |}.

Definition alice : KeyManager.StoredWallet :=
  {| KeyManager.address := "0xf39Fd6e51aad88F6F4ce6aB8827279cffFb92266";
     KeyManager.encryptedPrivateKey := "eyJkYXRhIjoiMHgwMSIsInNhbHQiOiIweDcxQzc2NTZFIn0=";
     KeyManager.createdAt := 1690000000000%Z |}.

Definition bob : KeyManager.StoredWallet :=
  {| KeyManager.address := "0x70997970C51812dc3A010C7d01b50e0d17dc79C8";
     KeyManager.encryptedPrivateKey := "eyJkYXRhIjoiMHgwMiIsInNhbHQiOiIweDcxQzc2NTZFIn0=";
     KeyManager.createdAt := 1695000000000%Z |}.

(** A device whose registry holds two wallets. *)
Definition w2 : world :=
  set_storage (insert "wallet_list" (stringify (KeyManager.registry [alice; bob]))) w0.

(** Stand-ins for ethers: the well-known development phrase and its first
    account. *)
Definition dev_phrase : string :=
  "test test test test test test test test test test test junk".

Definition dev_account : WalletService.WalletAccount :=
  {| WalletService.address := "0xf39Fd6e51aad88F6F4ce6aB8827279cffFb92266";
     WalletService.privateKey :=
       "0xac0974bec39a17e36ba4a6b4d238ff944bacb478cbed5efcae784d7bf4f2ff80";
     WalletService.mnemonic := Some dev_phrase |}.

Definition dev_derive (phrase path : string) : outcome (string * string) :=
  if String.eqb phrase dev_phrase && String.eqb path "m/44'/60'/0'/0/0"
  then Return (WalletService.address dev_account, WalletService.privateKey dev_account)
  else Throw (Error "invalid mnemonic").

(** A device whose keychain rejects the write of the PIN. *)
Definition w_pin_rejected : world :=
  {| storage := ∅; internet := ∅; generic := ∅; clock := 1700000000000%Z;
     random_wallet := fun _ => "0x71C7656EC7ab88b098defB751B7401B5f6d8976F";
     random_bytes := fun _ => []; draws := 0;
     rejects := fun call =>
       match call with KC_setGenericPassword => true | _ => false end |}.

(** A device whose encrypted storage rejects every write. *)
Definition w_storage_rejected : world :=
  {| storage := ∅; internet := ∅; generic := ∅; clock := 1700000000000%Z;
     random_wallet := fun _ => "0x71C7656EC7ab88b098defB751B7401B5f6d8976F";
     random_bytes := fun _ => []; draws := 0;
     rejects := fun call =>
       match call with ES_setItem => true | _ => false end |}.

Definition sent_nonces (c : TransactionService.chain) : list (option Z) :=
  map (fun p => TransactionService.nonce (snd p)) (TransactionService.sent c).

(** The first transaction of an account: sent at nonce zero, still pending. *)
Definition first_tx : TransactionService.TransactionRequest :=
  {| TransactionService.to := Some "0x70997970C51812dc3A010C7d01b50e0d17dc79C8";
     TransactionService.from := None;
     TransactionService.value := Some 1000000000000000000%Z;
     TransactionService.data := None;
     TransactionService.nonce := Some 0%Z;
     TransactionService.gasLimit := Some 21000%Z;
     TransactionService.gasPrice := Some 20000000000%Z;
     TransactionService.maxFeePerGas := None;
     TransactionService.chainId := Some 1%Z |}.

(** The chain while [first_tx] is pending: the pending count of every
    account is one. *)
Definition c_pending : TransactionService.chain :=
  {| TransactionService.currentChainId := 1%Z;
     TransactionService.transactionCount := fun _ => 1%Z;
     TransactionService.gasEstimate := fun _ => 21000%Z;
     TransactionService.feeGasPrice := Some 20000000000%Z;
     TransactionService.sent := [] |}.

Definition dev_address_of_key (privateKey : string) : outcome string :=
  if String.eqb privateKey (WalletService.privateKey dev_account)
  then Return (WalletService.address dev_account)
  else Throw (Error "invalid private key").

Definition dev_parseUnits (amount unit : string) : outcome Z :=
  if String.eqb amount "30" && String.eqb unit "gwei"
  then Return 30000000000%Z
  else Throw (Error "invalid FixedNumber string value").

Definition dev_hash_of (signer : string) (tx : TransactionService.TransactionRequest) :
  string := "0x" +:+ print_Z (from_option id 0%Z (TransactionService.nonce tx)).

(** The registry of the device is the list [ws] of records. *)
Definition lists (w : world) (ws : list KeyManager.StoredWallet) : Prop :=
  fst (KeyManager.getWalletList w) = Return (KeyManager.registry ws).

(** A device that holds a PIN, a recovery phrase, two listed wallets with
    their keys, and the key of a wallet that is not listed. *)
Definition w_full : world :=
  {| storage :=
       {[ "wallet_list" := stringify (KeyManager.registry [alice; bob]);
          "wallet_mnemonic" :=
            stringify (JObj [("encrypted", JStr (KeyManager.seal "0x71C7656EC7ab88b098defB751B7401B5f6d8976F" dev_phrase));
                             ("createdAt", JNum 1690000000000%Z)]) ]};
     internet :=
       {[ KeyManager.server (KeyManager.address alice) :=
            (KeyManager.address alice, KeyManager.encryptedPrivateKey alice);
          KeyManager.server (KeyManager.address bob) :=
            (KeyManager.address bob, KeyManager.encryptedPrivateKey bob);
          KeyManager.server "0x3C44CdDdB6a900fa2b585dd299e03d12FA4293BC" :=
            ("0x3C44CdDdB6a900fa2b585dd299e03d12FA4293BC",
             "eyJkYXRhIjoiMHgwMyIsInNhbHQiOiIweDcxQzc2NTZFIn0=") ]};
     generic :=
       {[ KeyManager.KEYCHAIN_SERVICE +:+ ".pin" := ("pin", KeyManager.hashPin "123456") ]};
     clock := 1700000000000%Z;
     random_wallet := fun _ => "0x71C7656EC7ab88b098defB751B7401B5f6d8976F";
     random_bytes := fun _ => []; draws := 0; rejects := fun _ => false |}.

(** A stand-in for the engine's [String(v)]. *)
Definition dev_String_of (v : json) : string := RequestHandler.to_string v.



Definition dev_valid_phrase (phrase : string) : bool := String.eqb phrase dev_phrase.

Definition dev_wallet_of_key (privateKey : string) : outcome (string * string) :=
  if String.eqb privateKey (WalletService.privateKey dev_account)
  then Return (WalletService.address dev_account, WalletService.privateKey dev_account)
  else Throw (Error "invalid private key").



Definition dev_formatUnits (value : Z) (unit : string) : string := print_Z value.



(** The provider after one more broadcast. *)
Definition broadcast (signer : string) (tx : TransactionService.TransactionRequest)
  (c : TransactionService.chain) : TransactionService.chain :=
  {| TransactionService.currentChainId := TransactionService.currentChainId c;
     TransactionService.transactionCount := TransactionService.transactionCount c;
     TransactionService.gasEstimate := TransactionService.gasEstimate c;
     TransactionService.feeGasPrice := TransactionService.feeGasPrice c;
     TransactionService.sent := TransactionService.sent c ++ [(signer, tx)] |}.


(** The provider before any request: on the main chain, nothing sent. *)
Definition p0 : PeerSessionBroker.provider :=
  {| PeerSessionBroker.currentChainId := 1%Z;
     PeerSessionBroker.transactionCount := fun _ => 5%Z;
     PeerSessionBroker.feeGasPrice := Some 20000000000%Z;
     PeerSessionBroker.broadcast := [] |}.

(** A request on a chain. *)
Definition chain_request (chainId : Z) (method : string) (params : list json) :
  RequestHandler.WCSignRequest :=
  {| RequestHandler.id := 1; RequestHandler.topic := "topic";
     RequestHandler.method := method; RequestHandler.params := params;
     RequestHandler.chainId := chainId |}.

(** Stand-ins for the libraries. *)
Definition dev_supported (chainId : Z) : bool := Z.eqb chainId 1 || Z.eqb chainId 137.

Definition dev_double_of (negative : bool) (n : N) : Numbers.number :=
  Numbers.Infinity negative.

Definition dev_units_of (s : string) : list (string * json) := [].

Definition dev_address_of_value (key : json) : outcome string :=
  match key with
  | JStr k => dev_address_of_key k
  | _ => Throw (Error "invalid private key")
  end.

Definition dev_signMessage (key : json) (message : string) : outcome string :=
  match dev_address_of_value key with
  | Return signer => Return ("signed:" +:+ message)
  | Throw e => Throw e
  end.

Definition dev_signTypedData (key : json) (domain : RequestHandler.value)
  (types : list (string * json)) (message : RequestHandler.value) : outcome string :=
  match dev_address_of_value key with
  | Return signer => Return ("signed:" +:+ stringify (JObj types))
  | Throw e => Throw e
  end.

Definition dev_estimateGas (tx : PeerSessionBroker.RawTransaction) (from : string) :
  outcome Z := Return 21000%Z.

Definition dev_sign (signer : string) (tx : PeerSessionBroker.RawTransaction) :
  outcome string := Return "0x02f8".

Definition dev_send (signer : string) (tx : PeerSessionBroker.RawTransaction) :
  outcome string := Return "0xhash".

(** A device that holds the PIN 123456 and the key of the development
    account. *)
Definition w_dev : world :=
  {| storage := ∅;
     internet :=
       {[ KeyManager.server (WalletService.address dev_account) :=
            (WalletService.address dev_account,
             KeyManager.seal "0x71C7656EC7ab88b098defB751B7401B5f6d8976F"
               (WalletService.privateKey dev_account)) ]};
     generic :=
       {[ KeyManager.KEYCHAIN_SERVICE +:+ ".pin" := ("pin", KeyManager.hashPin "123456") ]};
     clock := 1700000000000%Z;
     random_wallet := fun _ => "0x71C7656EC7ab88b098defB751B7401B5f6d8976F";
     random_bytes := fun _ => []; draws := 0; rejects := fun _ => false |}.

(** The typed data of a permit, as a dApp sends it. *)
Definition permit_type_members : list (string * json) :=
  [("EIP712Domain", JArr [JObj [("name", JStr "name"); ("type", JStr "string")]]);
   ("Permit", JArr [JObj [("name", JStr "spender"); ("type", JStr "address")]])].

Definition permit_types : json := JObj permit_type_members.

Definition permit_members : list (string * json) :=
  [("domain", JObj [("name", JStr "Token"); ("chainId", JNum 1)]);
   ("types", permit_types);
   ("primaryType", JStr "Permit");
   ("message", JObj [("spender", JStr "0x70997970C51812dc3A010C7d01b50e0d17dc79C8")])].

Definition permit : json := JObj permit_members.

(** The parameters of a transfer, as a dApp sends them. *)
Definition transfer_params : json :=
  JObj [("from", JStr "0xf39Fd6e51aad88F6F4ce6aB8827279cffFb92266");
        ("to", JStr "0x70997970C51812dc3A010C7d01b50e0d17dc79C8");
        ("value", JStr "0xde0b6b3a7640000");
        ("gas", JStr "0x5208")].

Definition dev_lib : PeerSessionBroker.libraries :=
  {| PeerSessionBroker.supported := dev_supported;
     PeerSessionBroker.double_of := dev_double_of;
     PeerSessionBroker.String_of := dev_String_of;
     PeerSessionBroker.units_of := dev_units_of;
     PeerSessionBroker.address_of_key := dev_address_of_value;
     PeerSessionBroker.signMessage := dev_signMessage;
     PeerSessionBroker.signTypedData := dev_signTypedData;
     PeerSessionBroker.estimateGas := dev_estimateGas;
     PeerSessionBroker.sign := dev_sign;
     PeerSessionBroker.send := dev_send |}.

(** The three steps by which [signAndSend] and [signTransaction] complete
    a request of a dApp for a signer: the nonce, the gas limit, the gas
    price. *)
Definition complete (lib : PeerSessionBroker.libraries) (wallet : string)
  (tx : PeerSessionBroker.RawTransaction) :
  St PeerSessionBroker.provider PeerSessionBroker.RawTransaction :=
  do tx <-
    (if PeerSessionBroker.falsy_nonce (PeerSessionBroker.nonce tx)
     then fun p =>
            (Return (PeerSessionBroker.with_nonce
                       (Some (Numbers.Num (PeerSessionBroker.transactionCount p wallet)))
                       tx), p)
     else ret tx);
  do tx <-
    (if PeerSessionBroker.falsy (PeerSessionBroker.gasLimit tx)
     then do g <- lift (PeerSessionBroker.estimateGas lib tx wallet);
          ret (PeerSessionBroker.with_gasLimit (PeerSessionBroker.Big g) tx)
     else ret tx);
  (if PeerSessionBroker.falsy (PeerSessionBroker.gasPrice tx) &&
      PeerSessionBroker.falsy (PeerSessionBroker.maxFeePerGas tx)
   then fun p =>
          (Return (PeerSessionBroker.with_gasPrice
                     (match PeerSessionBroker.feeGasPrice p with
                      | Some g => PeerSessionBroker.Big g
                      | None => PeerSessionBroker.Null
                      end) tx), p)
   else ret tx).

(** * Properties *)

#[local] Arguments String.append !s1 s2 : simpl nomatch.

(** ** Strings *)

Lemma append_empty_r (s : string) : s +:+ EmptyString = s.
Proof. induction s as [|c s IH]; simpl; [reflexivity | f_equal; exact IH]. Qed.

Lemma append_assoc (a b c : string) : (a +:+ b) +:+ c = a +:+ (b +:+ c).
Proof. induction a as [|x a IH]; simpl; [reflexivity | f_equal; exact IH]. Qed.

Lemma append_cons (c : ascii) (a b : string) :
  String c a +:+ b = String c (a +:+ b).
Proof. reflexivity. Qed.

Lemma length_append (a b : string) :
  String.length (a +:+ b) = (String.length a + String.length b)%nat.
Proof. induction a as [|x a IH]; simpl; [reflexivity | f_equal; exact IH]. Qed.

Lemma list_of_append (a b : string) :
  list_ascii_of_string (a +:+ b) = list_ascii_of_string a ++ list_ascii_of_string b.
Proof. induction a as [|x a IH]; simpl; [reflexivity | f_equal; exact IH]. Qed.

(** Case analysis on the eight bits of a character. *)
Ltac bits c := destruct c as [[] [] [] [] [] [] [] []].

(** ** Hex and base64 round trips *)

Lemma hex_pair_digits (b : ascii) :
  Hex.pair (lower_hex_digit (u8 b / 16)) (lower_hex_digit (u8 b mod 16)) = Some b.
Proof. bits b; vm_compute; reflexivity. Qed.

Lemma hex_decode_encode (bs : Buffer) : Hex.decode (Hex.encode bs) = bs.
Proof.
  induction bs as [|b r IH]; simpl; [reflexivity |].
  now rewrite hex_pair_digits, IH.
Qed.

Lemma list_ind3 {A} (P : list A -> Prop) :
  P [] -> (forall x, P [x]) -> (forall x y, P [x; y]) ->
  (forall x y z r, P r -> P (x :: y :: z :: r)) ->
  forall l, P l.
Proof.
  intros H0 H1 H2 H3.
  fix self 1.
  intros [|x [|y [|z r]]]; [apply H0 | apply H1 | apply H2 | apply H3, self].
Qed.

Lemma base64_clean_char (x : Base64.sextet) (r : string) :
  Base64.clean (String (Base64.char_of_sextet x) r) = x :: Base64.clean r.
Proof. destruct x as [[] [] [] [] [] []]; reflexivity. Qed.

Lemma base64_bytes3 (x y z : ascii) (l : list Base64.sextet) :
  Base64.bytes_of_sextets
    (Base64.first_of x :: Base64.second_of x y :: Base64.third_of y z ::
     Base64.fourth_of z :: l) =
  x :: y :: z :: Base64.bytes_of_sextets l.
Proof. destruct x, y, z; reflexivity. Qed.

Lemma base64_decode_encode (bs : Buffer) : Base64.decode (Base64.encode bs) = bs.
Proof.
  unfold Base64.decode.
  induction bs as [|x|x y|x y z r IH] using list_ind3.
  - reflexivity.
  - simpl Base64.encode. rewrite !base64_clean_char. destruct x; reflexivity.
  - simpl Base64.encode. rewrite !base64_clean_char. destruct x, y; reflexivity.
  - change (Base64.encode (x :: y :: z :: r)) with
      (String (Base64.char_of_sextet (Base64.first_of x))
         (String (Base64.char_of_sextet (Base64.second_of x y))
            (String (Base64.char_of_sextet (Base64.third_of y z))
               (String (Base64.char_of_sextet (Base64.fourth_of z))
                  (Base64.encode r))))).
    rewrite !base64_clean_char, base64_bytes3. now rewrite IH.
Qed.

(** ** UTF-8: texts survive [Buffer.from(s).toString('utf8')] *)

Lemma chunks_cons (b0 : ascii) (t0 : list ascii) :
  Utf8.chunks (b0 :: t0) =
  if Utf8.lead4 b0 then
    match t0 with
    | b1 :: b2 :: b3 :: t3 =>
        if Utf8.valid4 b0 b1 b2 b3
        then Utf8.Scalar (Utf8.point4 b0 b1 b2 b3) [b0; b1; b2; b3] :: Utf8.chunks t3
        else Utf8.Broken b0 :: Utf8.chunks t0
    | _ => Utf8.Broken b0 :: Utf8.chunks t0
    end
  else if Utf8.lead3 b0 then
    match t0 with
    | b1 :: b2 :: t2 =>
        if Utf8.valid3 b0 b1 b2
        then Utf8.Scalar (Utf8.point3 b0 b1 b2) [b0; b1; b2] :: Utf8.chunks t2
        else Utf8.Broken b0 :: Utf8.chunks t0
    | _ => Utf8.Broken b0 :: Utf8.chunks t0
    end
  else if Utf8.lead2 b0 then
    match t0 with
    | b1 :: t1 =>
        if Utf8.valid2 b0 b1
        then Utf8.Scalar (Utf8.point2 b0 b1) [b0; b1] :: Utf8.chunks t1
        else Utf8.Broken b0 :: Utf8.chunks t0
    | _ => Utf8.Broken b0 :: Utf8.chunks t0
    end
  else if Utf8.ascii7 b0 then Utf8.Scalar (u8 b0) [b0] :: Utf8.chunks t0
  else Utf8.Broken b0 :: Utf8.chunks t0.
Proof. reflexivity. Qed.

Lemma lead_order (b : ascii) :
  (Utf8.lead4 b = true -> Utf8.lead3 b = true) /\
  (Utf8.lead3 b = true -> Utf8.lead2 b = true) /\
  (Utf8.lead2 b = true -> Utf8.ascii7 b = false).
Proof.
  unfold Utf8.lead4, Utf8.lead3, Utf8.lead2, Utf8.ascii7.
  repeat split; intros H; apply N.ltb_lt in H;
    first [apply N.ltb_lt | apply N.ltb_ge]; lia.
Qed.

Lemma text_list_inv (b0 : ascii) (t0 : list ascii) :
  text_list (b0 :: t0) ->
  exists t, text_head (b0 :: t0) t /\ text_list t /\ (length t <= length t0)%nat.
Proof.
  unfold text_list. rewrite chunks_cons.
  destruct (lead_order b0) as (H43 & H32 & H2a).
  destruct (Utf8.lead4 b0) eqn:L4.
  { destruct t0 as [|b1 [|b2 [|b3 t3]]]; try discriminate.
    destruct (Utf8.valid4 b0 b1 b2 b3) eqn:V; try discriminate.
    simpl. intros H. exists t3. split; [now apply head4 |]. split; [exact H | simpl; lia]. }
  destruct (Utf8.lead3 b0) eqn:L3.
  { destruct t0 as [|b1 [|b2 t2]]; try discriminate.
    destruct (Utf8.valid3 b0 b1 b2) eqn:V; try discriminate.
    simpl. intros H. exists t2. split; [now apply head3 |]. split; [exact H | simpl; lia]. }
  destruct (Utf8.lead2 b0) eqn:L2.
  { destruct t0 as [|b1 t1]; try discriminate.
    destruct (Utf8.valid2 b0 b1) eqn:V; try discriminate.
    simpl. intros H. exists t1. split; [now apply head2 |]. split; [exact H | simpl; lia]. }
  destruct (Utf8.ascii7 b0) eqn:A; try discriminate.
  simpl. intros H. exists t0. split; [now apply head1 |]. split; [exact H | lia].
Qed.

Lemma chunks_head (l t : list ascii) :
  text_head l t ->
  exists c, Utf8.sound c = true /\ l = Utf8.render c ++ t /\
            forall r, Utf8.chunks (Utf8.render c ++ r) = c :: Utf8.chunks r.
Proof.
  intros H. destruct H as [b0 t A L2|b0 b1 t L2 L3 V|b0 b1 b2 t L3 L4 V|b0 b1 b2 b3 t L4 V].
  - exists (Utf8.Scalar (u8 b0) [b0]). repeat split. intros r. simpl Utf8.render.
    simpl app. rewrite chunks_cons.
    destruct (lead_order b0) as (H43 & H32 & _).
    destruct (Utf8.lead4 b0) eqn:L4; [specialize (H32 (H43 eq_refl)); congruence |].
    destruct (Utf8.lead3 b0) eqn:L3; [specialize (H32 eq_refl); congruence |].
    now rewrite L2, A.
  - exists (Utf8.Scalar (Utf8.point2 b0 b1) [b0; b1]). repeat split. intros r.
    simpl Utf8.render. simpl app. rewrite chunks_cons.
    destruct (lead_order b0) as (H43 & _ & _).
    destruct (Utf8.lead4 b0) eqn:L4; [specialize (H43 eq_refl); congruence |].
    now rewrite L3, L2, V.
  - exists (Utf8.Scalar (Utf8.point3 b0 b1 b2) [b0; b1; b2]). repeat split. intros r.
    simpl Utf8.render. simpl app. rewrite chunks_cons. now rewrite L4, L3, V.
  - exists (Utf8.Scalar (Utf8.point4 b0 b1 b2 b3) [b0; b1; b2; b3]). repeat split.
    intros r. simpl Utf8.render. simpl app. rewrite chunks_cons. now rewrite L4, V.
Qed.

(** Induction on a text, one code point at a time. *)
Lemma text_list_ind (P : list ascii -> Prop) :
  P [] ->
  (forall l t, text_head l t -> text_list t -> P t -> P l) ->
  forall l, text_list l -> P l.
Proof.
  intros Hnil Hstep l.
  remember (length l) as n eqn:Hn.
  revert l Hn. induction n as [n IH] using lt_wf_ind. intros l Hn Hl.
  destruct l as [|b0 t0]; [exact Hnil |].
  destruct (text_list_inv b0 t0 Hl) as (t & Hh & Ht & Hlen).
  apply (Hstep _ t Hh Ht).
  apply (IH (length t)); [subst n; simpl; lia | reflexivity | exact Ht].
Qed.

Lemma text_list_app (a b : list ascii) :
  text_list a -> text_list b -> text_list (a ++ b).
Proof.
  intros Ha Hb. induction Ha as [|l t Hh Ht IH] using text_list_ind; [exact Hb |].
  destruct (chunks_head l t Hh) as (c & Hc & -> & Hr).
  unfold text_list. rewrite <- app_assoc, Hr. simpl. rewrite Hc. exact IH.
Qed.

Lemma render_chunks (l : list ascii) :
  text_list l -> concat (map Utf8.render (Utf8.chunks l)) = l.
Proof.
  intros Hl. induction Hl as [|l t Hh Ht IH] using text_list_ind; [reflexivity |].
  destruct (chunks_head l t Hh) as (c & Hc & -> & Hr).
  rewrite Hr. simpl. now rewrite IH.
Qed.

Lemma toString_fromString (s : string) :
  Utf8.is_text s = true -> Utf8.toString (Utf8.fromString s) = s.
Proof.
  intros H. unfold Utf8.toString, Utf8.fromString.
  rewrite render_chunks by exact H. apply string_of_list_ascii_of_string.
Qed.

Lemma is_text_append (a b : string) :
  Utf8.is_text a = true -> Utf8.is_text b = true -> Utf8.is_text (a +:+ b) = true.
Proof.
  unfold Utf8.is_text. rewrite list_of_append. apply text_list_app.
Qed.

Lemma text_head_list (l t : list ascii) :
  text_head l t -> text_list t -> text_list l.
Proof.
  intros Hh Ht. destruct (chunks_head l t Hh) as (c & Hc & -> & Hr).
  unfold text_list. rewrite Hr. simpl. now rewrite Hc.
Qed.

Lemma ascii_text (l : list ascii) :
  forallb Utf8.ascii7 l = true -> text_list l.
Proof.
  induction l as [|b t IH]; simpl; intros H; [reflexivity |].
  apply andb_true_iff in H as [Hb Ht].
  apply (text_head_list _ t); [| now apply IH].
  apply head1; [exact Hb |].
  destruct (lead_order b) as (_ & _ & H2). destruct (Utf8.lead2 b); [| reflexivity].
  specialize (H2 eq_refl). congruence.
Qed.

Lemma escape_ascii (c : ascii) :
  Utf8.ascii7 c = true ->
  forallb Utf8.ascii7 (list_ascii_of_string (escape c)) = true.
Proof. bits c; vm_compute; intros H; first [reflexivity | discriminate H]. Qed.

Lemma escape_high (c : ascii) :
  Utf8.ascii7 c = false -> escape c = String c EmptyString.
Proof. bits c; vm_compute; intros H; first [reflexivity | discriminate H]. Qed.

Lemma cont_high (c : ascii) : Utf8.cont c = true -> Utf8.ascii7 c = false.
Proof. bits c; vm_compute; intros H; first [reflexivity | discriminate H]. Qed.

Lemma lead2_high (c : ascii) : Utf8.lead2 c = true -> Utf8.ascii7 c = false.
Proof. apply lead_order. Qed.

Lemma valid2_cont b0 b1 : Utf8.valid2 b0 b1 = true -> Utf8.cont b1 = true.
Proof. unfold Utf8.valid2. intros H. now apply andb_true_iff in H as [H _]. Qed.

Lemma valid3_cont b0 b1 b2 :
  Utf8.valid3 b0 b1 b2 = true -> Utf8.cont b1 = true /\ Utf8.cont b2 = true.
Proof.
  unfold Utf8.valid3. intros H.
  repeat (apply andb_true_iff in H as [H ?]). now split.
Qed.

Lemma valid4_cont b0 b1 b2 b3 :
  Utf8.valid4 b0 b1 b2 b3 = true ->
  Utf8.cont b1 = true /\ Utf8.cont b2 = true /\ Utf8.cont b3 = true.
Proof.
  unfold Utf8.valid4. intros H.
  repeat (apply andb_true_iff in H as [H ?]). now repeat split.
Qed.

Lemma escape_all_text_list (l : list ascii) :
  text_list l -> Utf8.is_text (escape_all (string_of_list_ascii l)) = true.
Proof.
  intros Hl. induction Hl as [|l t Hh Ht IH] using text_list_ind; [reflexivity |].
  destruct Hh as [b0 t A L2|b0 b1 t L2 L3 V|b0 b1 b2 t L3 L4 V|b0 b1 b2 b3 t L4 V];
    simpl string_of_list_ascii; simpl escape_all.
  - apply is_text_append; [| exact IH].
    apply ascii_text, escape_ascii, A.
  - rewrite (escape_high b0) by now apply lead2_high.
    rewrite (escape_high b1) by now apply cont_high, (valid2_cont b0).
    simpl. apply (text_head_list _ (list_ascii_of_string (escape_all (string_of_list_ascii t))));
      [now apply head2 | exact IH].
  - destruct (valid3_cont _ _ _ V) as (C1 & C2).
    destruct (lead_order b0) as (_ & H32 & _).
    rewrite (escape_high b0) by now apply lead2_high, H32.
    rewrite (escape_high b1), (escape_high b2) by now apply cont_high.
    simpl. apply (text_head_list _ (list_ascii_of_string (escape_all (string_of_list_ascii t))));
      [now apply head3 | exact IH].
  - destruct (valid4_cont _ _ _ _ V) as (C1 & C2 & C3).
    destruct (lead_order b0) as (H43 & H32 & _).
    rewrite (escape_high b0) by now apply lead2_high, H32, H43.
    rewrite (escape_high b1), (escape_high b2), (escape_high b3) by now apply cont_high.
    simpl. apply (text_head_list _ (list_ascii_of_string (escape_all (string_of_list_ascii t))));
      [now apply head4 | exact IH].
Qed.

Lemma is_text_quote (s : string) :
  Utf8.is_text s = true -> Utf8.is_text (quote s) = true.
Proof.
  intros H. unfold quote.
  change (String dquote (escape_all s +:+ String dquote EmptyString))
    with (String dquote EmptyString +:+ (escape_all s +:+ String dquote EmptyString)).
  apply is_text_append; [reflexivity |].
  apply is_text_append; [| reflexivity].
  rewrite <- (string_of_list_ascii_of_string s).
  apply escape_all_text_list, H.
Qed.

Lemma is_hex_ascii (c : ascii) : is_hex c = true -> Utf8.ascii7 c = true.
Proof. bits c; vm_compute; intros H; first [reflexivity | discriminate H]. Qed.

Lemma list_of_slice_to (n : nat) (s : string) :
  list_ascii_of_string (slice_to n s) = take n (list_ascii_of_string s).
Proof.
  unfold slice_to. revert s. induction n as [|n IH]; intros [|c r]; simpl; try reflexivity.
  now rewrite IH.
Qed.

Lemma forallb_take {A} (p : A -> bool) (n : nat) (l : list A) :
  forallb p l = true -> forallb p (take n l) = true.
Proof.
  revert l. induction n as [|n IH]; intros [|x l]; simpl; try reflexivity.
  intros H. apply andb_true_iff in H as [Hx Hl]. now rewrite Hx, IH.
Qed.

Lemma address_ascii (a : string) :
  isAddress a = true -> forallb Utf8.ascii7 (list_ascii_of_string a) = true.
Proof.
  destruct a as [|c0 [|c1 h]]; try discriminate.
  - simpl. destruct c0 as [[] [] [] [] [] [] [] []]; discriminate.
  - unfold isAddress.
    destruct (Ascii.eqb_spec c0 "0"%char) as [-> | N0];
      [| bits c0; try discriminate; now destruct N0].
    destruct (Ascii.eqb_spec c1 "x"%char) as [-> | N1];
      [| bits c1; try discriminate; now destruct N1].
    intros H. apply andb_true_iff in H as [_ H]. simpl.
    apply forallb_forall. intros c Hc.
    apply is_hex_ascii. eapply forallb_forall in H; eauto.
Qed.

Lemma slice_address_text (a : string) :
  isAddress a = true -> Utf8.is_text (slice_to 10 a) = true.
Proof.
  intros H. unfold Utf8.is_text. apply ascii_text.
  rewrite list_of_slice_to. apply forallb_take, address_ascii, H.
Qed.

(** ** JSON: [JSON.parse(JSON.stringify(v))] is [v] *)

Lemma scan_escape (c : ascii) (x : string) :
  scan_string (escape c +:+ x) = push (item_of c) (scan_string x).
Proof. bits c; reflexivity. Qed.

Lemma assemble_item (c : ascii) (l : list sitem) :
  assemble (item_of c :: l) = c :: assemble l.
Proof. bits c; reflexivity. Qed.

Lemma scan_escape_all (s rest : string) :
  scan_string (escape_all s +:+ String dquote rest) =
  Some (map item_of (list_ascii_of_string s), rest).
Proof.
  induction s as [|c s IH]; [reflexivity |].
  simpl escape_all. rewrite append_assoc, scan_escape, IH. reflexivity.
Qed.

Lemma assemble_items (l : list ascii) : assemble (map item_of l) = l.
Proof.
  induction l as [|c l IH]; [reflexivity |].
  simpl map. now rewrite assemble_item, IH.
Qed.

Lemma parse_string_quote (s rest : string) :
  parse_string (escape_all s +:+ String dquote rest) = Some (s, rest).
Proof.
  unfold parse_string. rewrite scan_escape_all, assemble_items.
  now rewrite string_of_list_ascii_of_string.
Qed.

Lemma span_all (p : ascii -> bool) (a rest : string) :
  forallb p (list_ascii_of_string a) = true ->
  match rest with String c _ => p c = false | EmptyString => True end ->
  span p (a +:+ rest) = (a, rest).
Proof.
  intros Ha Hr. induction a as [|c a IH]; simpl.
  - destruct rest as [|c r]; [reflexivity |]. simpl. now rewrite Hr.
  - simpl in Ha. apply andb_true_iff in Ha as [Hc Ha].
    rewrite Hc, (IH Ha). reflexivity.
Qed.

Lemma uint_digits (d : Decimal.uint) :
  forallb is_digit (list_ascii_of_string (NilEmpty.string_of_uint d)) = true.
Proof. induction d; simpl; auto. Qed.

Lemma digit_numchar (l : list ascii) :
  forallb is_digit l = true -> forallb is_numchar l = true.
Proof.
  induction l as [|c l IH]; simpl; [reflexivity |].
  intros H. apply andb_true_iff in H as [Hc Hl].
  rewrite (IH Hl), andb_true_r. unfold is_numchar. now rewrite Hc.
Qed.

Lemma print_Z_numchars (z : Z) :
  forallb is_numchar (list_ascii_of_string (print_Z z)) = true.
Proof.
  assert (U : forall d, forallb is_numchar
            (list_ascii_of_string (NilZero.string_of_uint d)) = true).
  { intros d. destruct d; try reflexivity;
      apply digit_numchar; apply (uint_digits (_ d)). }
  unfold print_Z. destruct z as [|p|p]; simpl.
  - reflexivity.
  - apply U.
  - apply U.
Qed.

Lemma print_Z_head (z : Z) :
  exists c r, print_Z z = String c r /\ starts c = true.
Proof.
  assert (U : forall d, d <> Decimal.Nil ->
            exists c r, NilEmpty.string_of_uint d = String c r /\ starts c = true).
  { intros d Hd. destruct d; [now destruct Hd | ..]; eexists _, _; split; reflexivity. }
  unfold print_Z. destruct z as [|p|p]; simpl.
  - eexists _, _; split; reflexivity.
  - destruct (U (Pos.to_uint p) (DecimalPos.Unsigned.to_uint_nonnil p)) as (c & r & E & Hc).
    exists c, r. split; [| exact Hc].
    unfold NilZero.string_of_uint. rewrite <- E.
    destruct (Pos.to_uint p); try reflexivity. discriminate E.
  - eexists _, _; split; reflexivity.
Qed.

Lemma int_of_print_Z (z : Z) :
  NilZero.int_of_string (print_Z z) = Some (Z.to_int z).
Proof.
  unfold print_Z. apply NilZero.isi.
  - destruct z as [|p|p]; simpl; try discriminate.
    intros [= H]. now apply (DecimalPos.Unsigned.to_uint_nonnil p).
  - destruct z as [|p|p]; simpl; try discriminate.
    intros [= H]. now apply (DecimalPos.Unsigned.to_uint_nonnil p).
Qed.

Lemma parse_number_print (z : Z) (rest : string) :
  tail_ok rest = true ->
  parse_number (print_Z z +:+ rest) = Some (JNum z, rest).
Proof.
  intros Hr. unfold parse_number.
  rewrite (span_all is_numchar (print_Z z) rest (print_Z_numchars z)).
  - rewrite int_of_print_Z, DecimalZ.of_to, String.eqb_refl. reflexivity.
  - destruct rest as [|c r]; [exact I |]. simpl in Hr. now destruct (is_numchar c).
Qed.

Lemma parse_elems_S (f : nat) (s : string) :
  parse_elems (S f) s =
  match parse_value f s with
  | Some (v, r) =>
      match skip_ws r with
      | String c r' =>
          if Ascii.eqb c ","%char then
            match parse_elems f r' with
            | Some (vs, r'') => Some (v :: vs, r'')
            | None => None
            end
          else if Ascii.eqb c "]"%char then Some ([v], r')
          else None
      | EmptyString => None
      end
  | None => None
  end.
Proof. reflexivity. Qed.

Lemma parse_members_quote (f : nat) (k rest : string) :
  parse_members (S f) (quote k +:+ String ":"%char rest) =
  match parse_value f rest with
  | Some (v, r3) =>
      match skip_ws r3 with
      | String c r4 =>
          if Ascii.eqb c ","%char then
            match parse_members f r4 with
            | Some (ms, r5) => Some ((k, v) :: ms, r5)
            | None => None
            end
          else if Ascii.eqb c "}"%char then Some ([(k, v)], r4)
          else None
      | EmptyString => None
      end
  | None => None
  end.
Proof.
  unfold quote. simpl String.append. rewrite append_assoc. simpl String.append.
  change (parse_members (S f) (String dquote (escape_all k +:+ String dquote (String ":"%char rest))))
    with (match parse_string (escape_all k +:+ String dquote (String ":"%char rest)) with
          | Some (k, r1) =>
              match skip_ws r1 with
              | String ":"%char r2 =>
                  match parse_value f r2 with
                  | Some (v, r3) =>
                      match skip_ws r3 with
                      | String c r4 =>
                          if Ascii.eqb c ","%char then
                            match parse_members f r4 with
                            | Some (ms, r5) => Some ((k, v) :: ms, r5)
                            | None => None
                            end
                          else if Ascii.eqb c "}"%char then Some ([(k, v)], r4)
                          else None
                      | EmptyString => None
                      end
                  | None => None
                  end
              | _ => None
              end
          | None => None
          end).
  rewrite parse_string_quote. reflexivity.
Qed.

Lemma parse_value_number (f : nat) (c : ascii) (r : string) :
  is_numchar c = true -> starts c = true ->
  parse_value (S f) (String c r) = parse_number (String c r).
Proof. bits c; intros H1 H2; try discriminate H1; try discriminate H2; reflexivity. Qed.

Lemma parse_value_array (f : nat) (c : ascii) (r : string) :
  starts c = true ->
  parse_value (S f) (String "["%char (String c r)) =
  match parse_elems f (String c r) with
  | Some (vs, r') => Some (JArr vs, r')
  | None => None
  end.
Proof. bits c; intros H; try discriminate H; reflexivity. Qed.

Lemma parse_value_object (f : nat) (r : string) :
  parse_value (S f) (String "{"%char (String dquote r)) =
  match parse_members f (String dquote r) with
  | Some (ms, r') => Some (JObj ms, r')
  | None => None
  end.
Proof. reflexivity. Qed.

Lemma parse_value_string (f : nat) (s rest : string) :
  parse_value (S f) (quote s +:+ rest) = Some (JStr s, rest).
Proof.
  unfold quote. simpl String.append. rewrite append_assoc. simpl String.append.
  change (parse_value (S f) (String dquote (escape_all s +:+ String dquote rest)))
    with (match parse_string (escape_all s +:+ String dquote rest) with
          | Some (x, r') => Some (JStr x, r')
          | None => None
          end).
  now rewrite parse_string_quote.
Qed.

Lemma stringify_array (items : list json) :
  stringify (JArr items) = String "["%char (elems_text items).
Proof. reflexivity. Qed.

Lemma stringify_object (members : list (string * json)) :
  stringify (JObj members) = String "{"%char (membs_text members).
Proof. reflexivity. Qed.

Lemma stringify_head (v : json) :
  plain v = true -> exists c r, stringify v = String c r /\ starts c = true.
Proof.
  destruct v as [| [] | z | l | s | items | members]; intros Hv;
    try discriminate Hv; try (eexists _, _; split; reflexivity).
  apply print_Z_head.
Qed.

Lemma elems_text_cons (x : json) (t : list json) :
  elems_text (x :: t) =
  stringify x +:+ match t with [] => "]" | _ :: _ => String ","%char (elems_text t) end.
Proof. destruct t; reflexivity. Qed.

Lemma membs_text_cons (k : string) (x : json) (t : list (string * json)) :
  membs_text ((k, x) :: t) =
  quote k +:+ String ":"%char
    (stringify x +:+
     match t with [] => "}" | _ :: _ => String ","%char (membs_text t) end).
Proof. destruct t; reflexivity. Qed.

#[local] Arguments elems_text : simpl never.
#[local] Arguments membs_text : simpl never.

Lemma starts_numchar_or (c : ascii) :
  starts c = true ->
  is_numchar c = true \/
  c = "{"%char \/ c = "["%char \/ c = dquote \/
  c = "t"%char \/ c = "f"%char \/ c = "n"%char.
Proof.
  bits c; intros H; try discriminate H;
    first [left; reflexivity | right; repeat (first [left; reflexivity | right]); reflexivity].
Qed.

Lemma roundtrip_step_value (f : nat) :
  roundtrip_elems f -> roundtrip_membs f -> roundtrip_value (S f).
Proof.
  intros HQ HR v rest Hv Hrest Hlen.
  destruct v as [| [] | z | l | s | items | members]; try discriminate Hv;
    try reflexivity.
  - (* number *)
    simpl stringify.
    destruct (print_Z_head z) as (c & r & E & Hc).
    destruct (starts_numchar_or c Hc) as [Hn | Hk].
    + rewrite E. simpl String.append. rewrite (parse_value_number f c _ Hn Hc).
      change (String c (r +:+ rest)) with (String c r +:+ rest).
      rewrite <- E. now apply parse_number_print.
    + pose proof (print_Z_numchars z) as Hall. rewrite E in Hall. simpl in Hall.
      apply andb_true_iff in Hall as [Hn _].
      rewrite E. simpl String.append. rewrite (parse_value_number f c _ Hn Hc).
      change (String c (r +:+ rest)) with (String c r +:+ rest).
      rewrite <- E. now apply parse_number_print.
  - (* string *)
    apply parse_value_string.
  - (* array *)
    rewrite stringify_array in Hlen |- *. simpl String.append.
    destruct items as [|x t]; [reflexivity |].
    simpl in Hv. apply andb_true_iff in Hv as [Hx Ht].
    destruct (stringify_head x Hx) as (c & r & E & Hc).
    assert (Q := HQ x t rest Hx Ht).
    cbn [String.length] in Hlen.
    specialize (Q ltac:(lia)).
    revert Q. rewrite elems_text_cons, E. simpl String.append.
    rewrite (parse_value_array f c _ Hc). intros ->. reflexivity.
  - (* object *)
    rewrite stringify_object in Hlen |- *. simpl String.append.
    destruct members as [|[k x] t]; [reflexivity |].
    simpl in Hv. apply andb_true_iff in Hv as [Hx Ht].
    assert (R := HR k x t rest Hx Ht).
    cbn [String.length] in Hlen.
    specialize (R ltac:(lia)).
    revert R. rewrite membs_text_cons. unfold quote at 1 2. simpl String.append.
    rewrite parse_value_object. intros ->. reflexivity.
Qed.

Lemma roundtrip_step_elems (f : nat) :
  roundtrip_value f -> roundtrip_elems f -> roundtrip_elems (S f).
Proof.
  intros HP HQ x t rest Hx Ht Hlen.
  rewrite parse_elems_S, elems_text_cons, append_assoc.
  rewrite elems_text_cons, length_append in Hlen.
  rewrite HP; [| exact Hx | now destruct t | destruct t; simpl in Hlen; lia].
  destruct t as [|y t]; [reflexivity |].
  simpl in Ht. apply andb_true_iff in Ht as [Hy Ht].
  rewrite append_cons.
  remember (elems_text (y :: t) +:+ rest) as tail eqn:E.
  simpl. subst tail.
  rewrite HQ; [reflexivity | exact Hy | exact Ht |].
  cbn [String.length] in Hlen. lia.
Qed.

Lemma roundtrip_step_membs (f : nat) :
  roundtrip_value f -> roundtrip_membs f -> roundtrip_membs (S f).
Proof.
  intros HP HR k x t rest Hx Ht Hlen.
  rewrite membs_text_cons, append_assoc, append_cons.
  rewrite parse_members_quote, append_assoc.
  rewrite membs_text_cons, length_append in Hlen. cbn [String.length] in Hlen.
  rewrite length_append in Hlen.
  rewrite HP; [| exact Hx | now destruct t | destruct t; simpl in Hlen; lia].
  destruct t as [|[k' y] t]; [reflexivity |].
  simpl in Ht. apply andb_true_iff in Ht as [Hy Ht].
  rewrite append_cons.
  remember (membs_text ((k', y) :: t) +:+ rest) as tail eqn:E.
  simpl. subst tail.
  rewrite HR; [reflexivity | exact Hy | exact Ht |].
  cbn [String.length] in Hlen. lia.
Qed.

Lemma roundtrip_all (f : nat) :
  roundtrip_value f /\ roundtrip_elems f /\ roundtrip_membs f.
Proof.
  induction f as [|f (HP & HQ & HR)].
  - repeat split.
    + intros v rest Hv _ Hlen. destruct (stringify_head v Hv) as (c & r & E & _).
      rewrite E in Hlen. simpl in Hlen. lia.
    + intros x t rest Hx _ Hlen. destruct (stringify_head x Hx) as (c & r & E & _).
      rewrite elems_text_cons, E in Hlen. simpl in Hlen. lia.
    + intros k x t rest _ _ Hlen. rewrite membs_text_cons in Hlen.
      unfold quote in Hlen. simpl in Hlen. lia.
  - repeat split.
    + now apply roundtrip_step_value.
    + now apply roundtrip_step_elems.
    + now apply roundtrip_step_membs.
Qed.

(** Parsing what was printed gives the value back. *)
Lemma parse_stringify (v : json) :
  plain v = true -> parse (stringify v) = Some v.
Proof.
  intros Hv. unfold parse.
  destruct (roundtrip_all (2 * String.length (stringify v) + 2)) as (HP & _ & _).
  rewrite <- (append_empty_r (stringify v)) at 2.
  rewrite HP; [reflexivity | exact Hv | reflexivity | lia].
Qed.

(** ** Caught exceptions *)

Lemma try_catch_total {S A : Type} (c : St S A) (d : A) (w : S) :
  exists a w', try_catch c (fun _ => ret d) w = (Return a, w').
Proof.
  unfold try_catch, ret. destruct (c w) as [[a | e] w']; eexists _, _; reflexivity.
Qed.

(** ** CryptoBox: [encrypt] and [decrypt] *)

Lemma decrypt_ignores_key (encrypted key key' : string) :
  KeyManager.decrypt encrypted key = KeyManager.decrypt encrypted key'.
Proof. reflexivity. Qed.

Lemma seal_text (a data : string) :
  Utf8.is_text data = true -> isAddress a = true ->
  Utf8.is_text
    (stringify (JObj [("data", JStr data); ("salt", JStr (slice_to 10 a))])) = true.
Proof.
  intros Hd Ha.
  change (stringify (JObj [("data", JStr data); ("salt", JStr (slice_to 10 a))]))
    with ("{" +:+ quote "data" +:+ ":" +:+ quote data +:+ "," +:+
          quote "salt" +:+ ":" +:+ quote (slice_to 10 a) +:+ "}").
  repeat (apply is_text_append; [first [reflexivity | now apply is_text_quote
                                        | now apply is_text_quote, slice_address_text] |]).
  reflexivity.
Qed.

Lemma decrypt_seal (a data key : string) :
  Utf8.is_text data = true -> isAddress a = true ->
  KeyManager.decrypt (KeyManager.seal a data) key = Return (Some (JStr data)).
Proof.
  intros Hd Ha. unfold KeyManager.decrypt, KeyManager.seal.
  rewrite base64_decode_encode, toString_fromString by now apply seal_text.
  rewrite parse_stringify by reflexivity. reflexivity.
Qed.

(** C3.  Decrypting what [encrypt] made of a secret gives the secret back:
    for every text [secret] and every password, [encrypt] returns a blob
    and [decrypt] of that blob under the same password returns exactly
    [secret].  (The random wallet drawn by [encrypt] has an address.) *)
Theorem decrypt_encrypt_roundtrip (w : world) (secret password : string) :
  Utf8.is_text secret = true ->
  isAddress (random_wallet w (draws w)) = true ->
  exists blob w',
    KeyManager.encrypt secret password w = (Return blob, w') /\
    KeyManager.decrypt blob password = Return (Some (JStr secret)).
Proof.
  intros Hs Ha. eexists _, _. split; [reflexivity |].
  now apply decrypt_seal.
Qed.


Lemma decrypt_encrypt_roundtrip_witness :
  exists blob w',
    KeyManager.encrypt "correct horse" "123456" w0 = (Return blob, w') /\
    KeyManager.decrypt blob "123456" = Return (Some (JStr "correct horse")).
Proof.
  apply (decrypt_encrypt_roundtrip w0 "correct horse" "123456"); reflexivity.
Defined.

(** C2.  The blob that [encrypt] makes of "correct horse" under the password
    "123456" decrypts under the different password "654321" to the very
    same secret: there is no decrypt error for a wrong password. *)
Theorem decrypt_accepts_wrong_password :
  exists blob w',
    KeyManager.encrypt "correct horse" "123456" w0 = (Return blob, w') /\
    "123456" <> "654321" /\
    KeyManager.decrypt blob "654321" = Return (Some (JStr "correct horse")).
Proof.
  eexists _, _. split; [reflexivity |]. split; [discriminate |].
  vm_compute. reflexivity.
Qed.

Lemma retrievePrivateKey_never_throws (address pin : string) (w : world) :
  exists v w', KeyManager.retrievePrivateKey address pin w = (Return v, w').
Proof. apply try_catch_total. Qed.

Lemma getWalletList_pure (w : world) :
  exists v, KeyManager.getWalletList w = (Return v, w).
Proof.
  unfold KeyManager.getWalletList, try_catch, bind, EncryptedStorage.getItem, native.
  destruct (rejects w ES_getItem); [eexists; reflexivity |].
  destruct (storage w !! "wallet_list") as [[|c text]|]; try (eexists; reflexivity).
  destruct (parse (String c text)); eexists; reflexivity.
Qed.

(** Listing a wallet touches the encrypted storage only. *)
Lemma addToWalletList_frame (a blob : string) (w : world) :
  exists o w',
    KeyManager.addToWalletList a blob w = (o, w') /\
    internet w' = internet w /\ rejects w' = rejects w.
Proof.
  unfold KeyManager.addToWalletList, bind at 1.
  destruct (getWalletList_pure w) as (v & ->).
  destruct v as [| b | z | l | s | items | members];
    try (eexists _, _; repeat split; reflexivity).
  unfold bind at 1, lift.
  destruct (KeyManager.findIndex a items) as [[i|] | e];
    try (eexists _, _; repeat split; reflexivity).
  - unfold bind, ret, EncryptedStorage.setItem, native.
    destruct (rejects w ES_setItem); eexists _, _; repeat split; reflexivity.
  - unfold bind, ret, Date_now, EncryptedStorage.setItem, native.
    destruct (rejects w ES_setItem); eexists _, _; repeat split; reflexivity.
Qed.

(** Whatever PIN a key was stored under, every PIN retrieves it. *)
Lemma retrievePrivateKey_any_pin (w : world) (a privateKey pin pin' : string) :
  rejects w KC_setInternetCredentials = false ->
  rejects w KC_getInternetCredentials = false ->
  Utf8.is_text privateKey = true ->
  isAddress (random_wallet w (draws w)) = true ->
  exists stored w1 w2,
    KeyManager.storePrivateKey a privateKey pin w = (Return stored, w1) /\
    KeyManager.retrievePrivateKey a pin' w1 = (Return (Some (JStr privateKey)), w2).
Proof.
  intros Hset Hget Ht Ha.
  set (blob := KeyManager.seal (random_wallet w (draws w)) privateKey).
  set (w' := set_internet (insert (KeyManager.server a) (a, blob)) (draw w)).
  destruct (addToWalletList_frame a blob w') as (o & w3 & E & Hi & Hr).
  assert (Hstore : exists stored,
             KeyManager.storePrivateKey a privateKey pin w = (Return stored, w3)).
  { unfold KeyManager.storePrivateKey, try_catch, bind at 1.
    unfold KeyManager.encrypt, bind at 1, Wallet_createRandom, ret at 1.
    unfold bind at 1, Keychain.setInternetCredentials, native at 1.
    cbn [rejects draw]. rewrite Hset. fold blob. fold w'.
    unfold bind at 1. rewrite E.
    destruct o as [[] | e]; eexists; reflexivity. }
  destruct Hstore as (stored & Hstore).
  exists stored, w3, w3.
  split; [exact Hstore |].
  unfold KeyManager.retrievePrivateKey, try_catch, bind,
    Keychain.getInternetCredentials, native.
  rewrite Hr, Hi. cbn [rejects internet w' set_internet draw]. rewrite Hget.
  rewrite lookup_insert_eq. unfold lift.
  unfold blob. now rewrite decrypt_seal.
Qed.

(** C1.  A private key stored under the PIN "123456" is returned, not
    [null], by [retrievePrivateKey] called with the PIN "000000". *)
Theorem retrievePrivateKey_accepts_wrong_pin :
  exists w1 w2,
    KeyManager.storePrivateKey "0xf39Fd6e51aad88F6F4ce6aB8827279cffFb92266"
      "0xac0974bec39a17e36ba4a6b4d238ff944bacb478cbed5efcae784d7bf4f2ff80"
      "123456" w0 = (Return true, w1) /\
    KeyManager.retrievePrivateKey "0xf39Fd6e51aad88F6F4ce6aB8827279cffFb92266"
      "000000" w1 =
      (Return (Some (JStr "0xac0974bec39a17e36ba4a6b4d238ff944bacb478cbed5efcae784d7bf4f2ff80")), w2) /\
    Some (JStr "0xac0974bec39a17e36ba4a6b4d238ff944bacb478cbed5efcae784d7bf4f2ff80")
      <> KeyManager.null.
Proof.
  eexists _, _. split; [vm_compute; reflexivity |].
  split; [vm_compute; reflexivity | discriminate].
Qed.

(** ** KeyVault: the PIN *)

Lemma verifyPin_after_setPin (w : world) (p1 p2 : string) :
  rejects w KC_setGenericPassword = false ->
  rejects w KC_getGenericPassword = false ->
  exists w',
    KeyManager.setPin p1 w = (Return true, w') /\
    KeyManager.verifyPin p2 w' =
      (Return (String.eqb (KeyManager.hashPin p1) (KeyManager.hashPin p2)), w').
Proof.
  intros Hset Hget.
  exists (set_generic (insert (KeyManager.KEYCHAIN_SERVICE +:+ ".pin")
                         ("pin", KeyManager.hashPin p1)) w).
  split.
  - unfold KeyManager.setPin, try_catch, bind, Keychain.setGenericPassword, native.
    now rewrite Hset.
  - unfold KeyManager.verifyPin, try_catch, bind, Keychain.getGenericPassword, native.
    cbn [rejects set_generic generic]. rewrite Hget.
    now rewrite lookup_insert_eq.
Qed.

(** C9.  PIN verification is not injective: the distinct PINs "Aa" and "BB"
    have the same [hashPin], so once [setPin("Aa")] has stored its hash,
    [verifyPin("BB")] returns [true]. *)
Theorem verifyPin_not_injective :
  "Aa" <> "BB" /\
  KeyManager.hashPin "Aa" = KeyManager.hashPin "BB" /\
  forall w : world,
    rejects w KC_setGenericPassword = false ->
    rejects w KC_getGenericPassword = false ->
    exists w',
      KeyManager.setPin "Aa" w = (Return true, w') /\
      KeyManager.verifyPin "BB" w' = (Return true, w').
Proof.
  split; [discriminate |]. split; [reflexivity |].
  intros w Hset Hget.
  destruct (verifyPin_after_setPin w "Aa" "BB" Hset Hget) as (w' & H1 & H2).
  exists w'. split; [exact H1 | exact H2].
Qed.

Lemma verifyPin_not_injective_witness :
  exists w',
    KeyManager.setPin "Aa" w0 = (Return true, w') /\
    KeyManager.verifyPin "BB" w' = (Return true, w').
Proof.
  apply (proj2 (proj2 verifyPin_not_injective) w0); reflexivity.
Defined.

(** ** PeerSessionBroker: [formatRequest] *)

Lemma decodeMessage_hex (h : string) :
  RequestHandler.decodeMessage ("0x" +:+ h) = Utf8.toString (Hex.decode h).
Proof. reflexivity. Qed.

Lemma decodeMessage_plain (m : string) :
  startsWith "0x" m = false -> RequestHandler.decodeMessage m = m.
Proof. unfold RequestHandler.decodeMessage. now intros ->. Qed.

(** C7.  [formatRequest] reads the message of a [personal_sign] request
    from [params[0]] and that of an [eth_sign] request from [params[1]];
    a message that starts with [0x] is hex-decoded, so the bytes [bs]
    written in hex after [0x] are shown as the text of [bs]; the
    [personal_sign] message [0x48656c6c6f] is shown as "Hello". *)
Theorem formatRequest_message (formatEther : json -> outcome string)
  (request : RequestHandler.WCSignRequest) (m : string) :
  (RequestHandler.method request = "personal_sign" ->
   RequestHandler.params request !! 0%nat = Some (JStr m) ->
   RequestHandler.formatRequest formatEther request =
     Return (RequestHandler.message (RequestHandler.decodeMessage m))) /\
  (RequestHandler.method request = "eth_sign" ->
   RequestHandler.params request !! 1%nat = Some (JStr m) ->
   RequestHandler.formatRequest formatEther request =
     Return (RequestHandler.message (RequestHandler.decodeMessage m))) /\
  (forall bs : Buffer,
     RequestHandler.decodeMessage ("0x" +:+ Hex.encode bs) = Utf8.toString bs) /\
  (forall address : json,
     RequestHandler.formatRequest formatEther
       (sign_request "personal_sign" [JStr "0x48656c6c6f"; address]) =
     Return (RequestHandler.message "Hello")).
Proof.
  repeat split.
  - intros Hm Hp. unfold RequestHandler.formatRequest, RequestHandler.is_method.
    rewrite Hm, Hp. reflexivity.
  - intros Hm Hp. unfold RequestHandler.formatRequest, RequestHandler.is_method.
    rewrite Hm, Hp. reflexivity.
  - intros bs. now rewrite decodeMessage_hex, hex_decode_encode.
Qed.

Lemma formatRequest_message_witness :
  RequestHandler.formatRequest (fun _ => Return "0")
    (sign_request "personal_sign" [JStr "0x4869"; JStr "0xf39F"]) =
    Return (RequestHandler.message (RequestHandler.decodeMessage "0x4869")) /\
  RequestHandler.formatRequest (fun _ => Return "0")
    (sign_request "eth_sign" [JStr "0xf39F"; JStr "0x4869"]) =
    Return (RequestHandler.message (RequestHandler.decodeMessage "0x4869")).
Proof.
  split.
  - apply (proj1 (formatRequest_message (fun _ => Return "0")
             (sign_request "personal_sign" [JStr "0x4869"; JStr "0xf39F"]) "0x4869"));
      reflexivity.
  - apply (proj1 (proj2 (formatRequest_message (fun _ => Return "0")
             (sign_request "eth_sign" [JStr "0xf39F"; JStr "0x4869"]) "0x4869")));
      reflexivity.
Defined.

(** ** KeyVault: the wallet registry *)

Lemma getWalletList_reads (w : world) :
  rejects w ES_getItem = false ->
  KeyManager.getWalletList w = (Return (stored_wallets (storage w)), w).
Proof.
  intros H. unfold KeyManager.getWalletList, try_catch, bind,
    EncryptedStorage.getItem, native, stored_wallets.
  rewrite H. destruct (storage w !! "wallet_list") as [[|c text]|]; try reflexivity.
  destruct (parse (String c text)); reflexivity.
Qed.

Lemma plain_registry (ws : list KeyManager.StoredWallet) :
  plain (KeyManager.registry ws) = true.
Proof.
  unfold KeyManager.registry. simpl. induction ws as [|r ws IH]; [reflexivity |].
  simpl. exact IH.
Qed.

Lemma stored_wallets_insert (st : gmap string string) (ws : list KeyManager.StoredWallet) :
  stored_wallets (<["wallet_list" := stringify (KeyManager.registry ws)]> st) =
  KeyManager.registry ws.
Proof.
  unfold stored_wallets. rewrite lookup_insert_eq.
  rewrite parse_stringify by apply plain_registry.
  unfold KeyManager.registry. rewrite stringify_array. reflexivity.
Qed.

Lemma has_address_of_wallet (a : string) (r : KeyManager.StoredWallet) :
  KeyManager.has_address a (KeyManager.of_wallet r) =
  Return (String.eqb (KeyManager.address r) a).
Proof. reflexivity. Qed.

Lemma filter_out_registry (a : string) (ws : list KeyManager.StoredWallet) :
  KeyManager.filter_out a (map KeyManager.of_wallet ws) =
  Return (map KeyManager.of_wallet (filter (fun r => KeyManager.address r <> a) ws)).
Proof.
  induction ws as [|r ws IH]; [reflexivity |].
  cbn [map KeyManager.filter_out]. rewrite has_address_of_wallet, IH.
  rewrite filter_cons. destruct (String.eqb_spec (KeyManager.address r) a) as [E | N].
  - rewrite decide_False by (intros H; now apply H). reflexivity.
  - rewrite decide_True by exact N. reflexivity.
Qed.

Lemma findIndex_registry (a : string) (ws : list KeyManager.StoredWallet) :
  a ∈ map KeyManager.address ws ->
  exists i r,
    KeyManager.findIndex a (map KeyManager.of_wallet ws) = Return (Some i) /\
    ws !! i = Some r /\ KeyManager.address r = a.
Proof.
  induction ws as [|r ws IH]; intros Hin; [inversion Hin |].
  cbn [map KeyManager.findIndex]. rewrite has_address_of_wallet.
  destruct (String.eqb_spec (KeyManager.address r) a) as [E | N].
  - exists 0%nat, r. now repeat split.
  - cbn [map] in Hin. apply elem_of_cons in Hin as [E | Hin]; [now destruct N |].
    destruct (IH Hin) as (i & r' & Hf & Hl & Ha).
    exists (S i), r'. rewrite Hf. now repeat split.
Qed.



Lemma of_wallet_renewed (a blob : string) (r : KeyManager.StoredWallet) :
  KeyManager.address r = a ->
  KeyManager.record a blob (get (KeyManager.of_wallet r) "createdAt") =
  KeyManager.of_wallet (renewed blob r).
Proof. intros <-. reflexivity. Qed.



(** ** WalletFactory: [createNewWallet] *)

(** The persistence steps report a failure by their result, never by an
    exception, and [createNewWallet] does not read that result: whenever
    the derivation succeeds, the wallet is returned. *)
Lemma createNewWallet_returns_wallet
  (phrase_of_entropy : Buffer -> string)
  (derive : string -> string -> outcome (string * string))
  (pin : string) (w : world) (wallet : WalletService.WalletAccount) :
  WalletService.createWalletFromMnemonic derive
    (phrase_of_entropy (take 16 (random_bytes w (draws w)))) 0 = Return wallet ->
  exists w',
    WalletService.createNewWallet phrase_of_entropy derive pin w =
      (Return (Some wallet), w').
Proof.
  intros Hd.
  unfold WalletService.createNewWallet, try_catch at 1, bind at 1.
  unfold WalletService.generateMnemonic, bind at 1, getRandomValues, ret at 1.
  unfold bind at 1, lift. rewrite Hd.
  unfold bind at 1.
  destruct (try_catch_total
              (do encryptedMnemonic <- KeyManager.encrypt
                   (phrase_of_entropy (take 16 (random_bytes w (draws w)))) pin;
               do now <- Date_now;
               do _ <- EncryptedStorage.setItem KeyManager.MNEMONIC_KEY
                         (stringify (JObj [("encrypted", JStr encryptedMnemonic);
                                           ("createdAt", JNum now)]));
               ret true) false (draw w)) as (b1 & w1 & E1).
  unfold KeyManager.storeMnemonic. rewrite E1.
  unfold bind at 1.
  destruct (try_catch_total
              (do encryptedKey <- KeyManager.encrypt (WalletService.privateKey wallet) pin;
               do _ <- Keychain.setInternetCredentials
                         (KeyManager.server (WalletService.address wallet))
                         (WalletService.address wallet) encryptedKey;
               do _ <- KeyManager.addToWalletList (WalletService.address wallet) encryptedKey;
               ret true) false w1) as (b2 & w2' & E2).
  unfold KeyManager.storePrivateKey. rewrite E2.
  unfold bind at 1.
  destruct (try_catch_total
              (do _ <- Keychain.setGenericPassword "pin" (KeyManager.hashPin pin)
                         (KeyManager.KEYCHAIN_SERVICE +:+ ".pin");
               ret true) false w2') as (b3 & w3 & E3).
  unfold KeyManager.setPin. rewrite E3.
  eexists. reflexivity.
Qed.

(** C4.  When the keychain rejects the write of the PIN, [setPin] reports
    failure, yet [createNewWallet("123456")] returns the new account, no
    PIN is set, and the registry lists the new address.  When the
    encrypted storage rejects its writes, storing the mnemonic and storing
    the private key both report failure, and [createNewWallet] returns the
    new account all the same. *)
Theorem createNewWallet_ignores_failed_steps :
  (exists w',
     KeyManager.setPin "123456" w_pin_rejected = (Return false, w_pin_rejected) /\
     WalletService.createNewWallet (fun _ => dev_phrase) dev_derive "123456"
       w_pin_rejected = (Return (Some dev_account), w') /\
     fst (KeyManager.hasPin w') = Return false /\
     exists record,
       fst (KeyManager.getWalletList w') = Return (KeyManager.registry [record]) /\
       KeyManager.address record = WalletService.address dev_account) /\
  (exists w',
     fst (KeyManager.storeMnemonic dev_phrase "123456" w_storage_rejected) =
       Return false /\
     fst (KeyManager.storePrivateKey (WalletService.address dev_account)
            (WalletService.privateKey dev_account) "123456" w_storage_rejected) =
       Return false /\
     WalletService.createNewWallet (fun _ => dev_phrase) dev_derive "123456"
       w_storage_rejected = (Return (Some dev_account), w')).
Proof.
  split.
  - eexists. split; [vm_compute; reflexivity |].
    split; [vm_compute; reflexivity |].
    split; [vm_compute; reflexivity |].
    eexists {| KeyManager.address := _; KeyManager.encryptedPrivateKey := _;
               KeyManager.createdAt := _ |}.
    split; vm_compute; reflexivity.
  - eexists. split; [vm_compute; reflexivity |].
    split; vm_compute; reflexivity.
Qed.

(** ** ChainSigner: replacement transactions *)

Section Replacement.

Variable address_of_key : string -> outcome string.
Variable parseUnits : string -> string -> outcome Z.
Variable hash_of : string -> TransactionService.TransactionRequest -> string.

(** What [signAndSend] submits carries the nonce of the request, unless
    that nonce is unset or zero: then it carries the pending count. *)
Lemma signAndSend_nonce (privateKey signer : string)
  (tx : TransactionService.TransactionRequest) (c : TransactionService.chain) :
  address_of_key privateKey = Return signer ->
  exists hash c',
    TransactionService.signAndSend address_of_key hash_of privateKey tx c =
      (Return hash, c') /\
    sent_nonces c' =
      sent_nonces c ++
      [if TransactionService.falsy (TransactionService.nonce tx)
       then Some (TransactionService.transactionCount c signer)
       else TransactionService.nonce tx].
Proof.
  intros Hk.
  unfold TransactionService.signAndSend, bind, lift, ret,
    TransactionService.getTransactionCount, TransactionService.estimateGas,
    TransactionService.getFeeData, TransactionService.sendTransaction,
    sent_nonces.
  rewrite Hk.
  destruct (TransactionService.falsy (TransactionService.nonce tx)) eqn:Hn;
    cbn -[TransactionService.falsy];
    repeat match goal with
           | |- context [if ?b then _ else _] =>
               destruct b; cbn -[TransactionService.falsy]
           end;
    eexists _, _; (split; [reflexivity |]);
    cbn [TransactionService.sent]; rewrite map_app; reflexivity.
Qed.

(** A replacement for a transaction whose nonce is not zero is submitted
    at that very nonce. *)
Lemma cancelTransaction_keeps_nonzero_nonce (privateKey signer gasPrice : string)
  (nonce price : Z) (c : TransactionService.chain) :
  address_of_key privateKey = Return signer ->
  parseUnits gasPrice "gwei" = Return price ->
  nonce <> 0%Z ->
  exists hash c',
    TransactionService.cancelTransaction address_of_key parseUnits hash_of
      privateKey nonce gasPrice c = (Return hash, c') /\
    sent_nonces c' = sent_nonces c ++ [Some nonce].
Proof.
  intros Hk Hp Hn.
  unfold TransactionService.cancelTransaction, bind at 1, lift. rewrite Hk.
  unfold bind at 1. rewrite Hp.
  unfold bind at 1. cbn [TransactionService.getCurrentChainId].
  match goal with
  | |- context [TransactionService.signAndSend _ _ _ ?tx c] =>
      destruct (signAndSend_nonce privateKey signer tx c Hk) as (h & c' & E & Hs)
  end.
  exists h, c'. split; [exact E |].
  rewrite Hs. cbn [TransactionService.nonce TransactionService.falsy].
  destruct (Z.eqb_spec nonce 0); [contradiction | reflexivity].
Qed.

(** A cancellation of the transaction at nonce zero is submitted at the
    pending count instead. *)
Lemma cancelTransaction_at_zero (privateKey signer gasPrice : string)
  (price : Z) (c : TransactionService.chain) :
  address_of_key privateKey = Return signer ->
  parseUnits gasPrice "gwei" = Return price ->
  exists hash c',
    TransactionService.cancelTransaction address_of_key parseUnits hash_of
      privateKey 0 gasPrice c = (Return hash, c') /\
    sent_nonces c' =
      sent_nonces c ++ [Some (TransactionService.transactionCount c signer)].
Proof.
  intros Hk Hp.
  unfold TransactionService.cancelTransaction, bind at 1, lift. rewrite Hk.
  unfold bind at 1. rewrite Hp.
  unfold bind at 1. cbn [TransactionService.getCurrentChainId].
  match goal with
  | |- context [TransactionService.signAndSend _ _ _ ?tx c] =>
      destruct (signAndSend_nonce privateKey signer tx c Hk) as (h & c' & E & Hs)
  end.
  exists h, c'. split; [exact E | exact Hs].
Qed.

Lemma speedUpTransaction_nonce (privateKey signer newGasPrice : string)
  (price : Z) (originalTx : TransactionService.TransactionRequest)
  (c : TransactionService.chain) :
  address_of_key privateKey = Return signer ->
  parseUnits newGasPrice "gwei" = Return price ->
  exists hash c',
    TransactionService.speedUpTransaction address_of_key parseUnits hash_of
      privateKey originalTx newGasPrice c = (Return hash, c') /\
    sent_nonces c' =
      sent_nonces c ++
      [if TransactionService.falsy (TransactionService.nonce originalTx)
       then Some (TransactionService.transactionCount c signer)
       else TransactionService.nonce originalTx].
Proof.
  intros Hk Hp.
  unfold TransactionService.speedUpTransaction, bind at 1, lift. rewrite Hp.
  destruct (signAndSend_nonce privateKey signer
              (TransactionService.with_gasPrice (Some price) originalTx) c Hk)
    as (h & c' & E & Hs).
  exists h, c'. split; [exact E | exact Hs].
Qed.

End Replacement.

(** C5.  While the transaction at nonce 0 is pending, both
    [cancelTransaction(key, 0, "30")] and
    [speedUpTransaction(key, first_tx, "30")] submit a transaction whose
    nonce is 1, the pending count, not the original nonce 0. *)
Theorem replacement_at_nonce_zero_takes_pending_count :
  TransactionService.nonce first_tx = Some 0%Z /\
  (exists hash c',
     TransactionService.cancelTransaction dev_address_of_key dev_parseUnits
       dev_hash_of (WalletService.privateKey dev_account) 0 "30" c_pending =
       (Return hash, c') /\
     sent_nonces c' = [Some 1%Z]) /\
  (exists hash c',
     TransactionService.speedUpTransaction dev_address_of_key dev_parseUnits
       dev_hash_of (WalletService.privateKey dev_account) first_tx "30" c_pending =
       (Return hash, c') /\
     sent_nonces c' = [Some 1%Z]).
Proof.
  split; [reflexivity |].
  split; eexists _, _; (split; [vm_compute; reflexivity | reflexivity]).
Qed.

(** * Further properties of the code *)

(** ** KeyVault: the recovery phrase *)

Lemma storeMnemonic_run (w : world) (mnemonic pin : string) :
  rejects w ES_setItem = false ->
  KeyManager.storeMnemonic mnemonic pin w =
    (Return true,
     set_storage
       (insert KeyManager.MNEMONIC_KEY
          (stringify
             (JObj [("encrypted",
                     JStr (KeyManager.seal (random_wallet w (draws w)) mnemonic));
                    ("createdAt", JNum (clock w))])))
       (draw w)).
Proof.
  intros Hset.
  unfold KeyManager.storeMnemonic, KeyManager.encrypt, try_catch, bind,
    Wallet_createRandom, ret, Date_now, EncryptedStorage.setItem, native.
  cbn [rejects draw clock]. now rewrite Hset.
Qed.

(** X1.  The recovery phrase that [storeMnemonic] stored is what
    [retrieveMnemonic] returns, whichever PINs the two calls are given. *)
Theorem retrieveMnemonic_storeMnemonic
  (Buffer_from_value : KeyManager.value -> outcome Buffer)
  (w : world) (mnemonic pin pin' : string) :
  rejects w ES_setItem = false ->
  rejects w ES_getItem = false ->
  Utf8.is_text mnemonic = true ->
  isAddress (random_wallet w (draws w)) = true ->
  exists w',
    KeyManager.storeMnemonic mnemonic pin w = (Return true, w') /\
    KeyVault.retrieveMnemonic Buffer_from_value pin' w' =
      (Return (Some (JStr mnemonic)), w').
Proof.
  intros Hset Hget Ht Ha. eexists. split; [now apply storeMnemonic_run |].
  unfold KeyVault.retrieveMnemonic, try_catch, bind, EncryptedStorage.getItem, native.
  cbn [rejects set_storage draw storage]. rewrite Hget.
  rewrite lookup_insert_eq.
  remember (JObj [("encrypted",
                   JStr (KeyManager.seal (random_wallet w (draws w)) mnemonic));
                  ("createdAt", JNum (clock w))]) as v eqn:Ev.
  assert (Hp : plain v = true) by (subst v; reflexivity).
  destruct (stringify_head v Hp) as (c & r & Hs & _). rewrite Hs, <- Hs.
  rewrite parse_stringify by exact Hp. subst v.
  cbn [get assoc_last String.eqb Ascii.eqb Bool.eqb]. unfold lift.
  cbn [KeyVault.decrypt_value]. now rewrite decrypt_seal.
Qed.

Lemma retrieveMnemonic_storeMnemonic_witness :
  exists w',
    KeyManager.storeMnemonic dev_phrase "123456" w0 = (Return true, w') /\
    KeyVault.retrieveMnemonic (fun _ => Throw TypeError) "123456" w' =
      (Return (Some (JStr dev_phrase)), w').
Proof.
  apply (retrieveMnemonic_storeMnemonic (fun _ => Throw TypeError) w0 dev_phrase
           "123456" "123456"); reflexivity.
Defined.

(** ** KeyVault: removing a wallet *)

Lemma append_inj (s a b : string) : s +:+ a = s +:+ b -> a = b.
Proof.
  induction s as [|c s IH]; simpl; intros H; [exact H |].
  injection H as H. now apply IH.
Qed.

Lemma server_inj (a b : string) : KeyManager.server a = KeyManager.server b -> a = b.
Proof.
  unfold KeyManager.server. intros H.
  now apply append_inj, append_inj in H.
Qed.

Lemma retrievePrivateKey_reads (w : world) (a pin : string) :
  KeyManager.retrievePrivateKey a pin w =
    (if rejects w KC_getInternetCredentials then Return KeyManager.null
     else match internet w !! KeyManager.server a with
          | None => Return KeyManager.null
          | Some (_, password) =>
              match KeyManager.decrypt password pin with
              | Return v => Return v
              | Throw _ => Return KeyManager.null
              end
          end, w).
Proof.
  unfold KeyManager.retrievePrivateKey, try_catch, bind,
    Keychain.getInternetCredentials, native, lift, ret.
  destruct (rejects w KC_getInternetCredentials); [reflexivity |].
  destruct (internet w !! KeyManager.server a) as [[u p]|]; [| reflexivity].
  destruct (KeyManager.decrypt p pin); reflexivity.
Qed.

(** What [deleteWallet] does to the keychain, whatever becomes of the
    registry. *)
Lemma deleteWallet_keychain (a : string) (w : world) :
  exists done w',
    KeyManager.deleteWallet a w = (Return done, w') /\
    rejects w' = rejects w /\ generic w' = generic w /\
    internet w' =
      if rejects w KC_resetInternetCredentials then internet w
      else delete (KeyManager.server a) (internet w).
Proof.
  unfold KeyManager.deleteWallet, try_catch, bind at 1,
    Keychain.resetInternetCredentials, native at 1.
  destruct (rejects w KC_resetInternetCredentials) eqn:Hr.
  - eexists _, _. repeat split; reflexivity.
  - unfold bind at 1.
    destruct (getWalletList_pure
                (set_internet (delete (KeyManager.server a)) w)) as (v & ->).
    destruct v as [| b | z | l | s | items | members];
      try (eexists _, _; repeat split; reflexivity).
    unfold bind at 1, lift.
    destruct (KeyManager.filter_out a items) as [kept | e];
      [| eexists _, _; repeat split; reflexivity].
    unfold bind, ret, EncryptedStorage.setItem, native.
    destruct (rejects _ ES_setItem); eexists _, _; repeat split; reflexivity.
Qed.

(** X2.  Once [deleteWallet(address)] has run on a device whose keychain
    rejects neither the reset nor the read, [retrievePrivateKey(address)]
    returns [null] for every PIN: the key is gone even when [deleteWallet]
    reports a failure of the registry update. *)
Theorem deleteWallet_removes_key (w : world) (a pin : string) :
  rejects w KC_resetInternetCredentials = false ->
  rejects w KC_getInternetCredentials = false ->
  exists done w',
    KeyManager.deleteWallet a w = (Return done, w') /\
    KeyManager.retrievePrivateKey a pin w' = (Return KeyManager.null, w').
Proof.
  intros Hreset Hget.
  destruct (deleteWallet_keychain a w) as (done & w' & E & Hr & _ & Hi).
  exists done, w'. split; [exact E |].
  rewrite retrievePrivateKey_reads, Hr, Hget, Hi, Hreset.
  now rewrite lookup_delete_eq.
Qed.

Lemma deleteWallet_removes_key_witness :
  exists done w',
    KeyManager.deleteWallet (KeyManager.address alice) w_full = (Return done, w') /\
    KeyManager.retrievePrivateKey (KeyManager.address alice) "123456" w' =
      (Return KeyManager.null, w').
Proof.
  apply (deleteWallet_removes_key w_full (KeyManager.address alice) "123456");
    reflexivity.
Defined.

(** X3.  [deleteWallet(address)] leaves the key of every other address as
    it was: [retrievePrivateKey] of another address returns after the
    deletion what it returned before. *)
Theorem deleteWallet_keeps_other_keys (w : world) (a other pin : string) :
  other <> a ->
  exists done w',
    KeyManager.deleteWallet a w = (Return done, w') /\
    fst (KeyManager.retrievePrivateKey other pin w') =
    fst (KeyManager.retrievePrivateKey other pin w).
Proof.
  intros Hne.
  destruct (deleteWallet_keychain a w) as (done & w' & E & Hr & _ & Hi).
  exists done, w'. split; [exact E |].
  rewrite !retrievePrivateKey_reads, Hr, Hi. cbn [fst].
  destruct (rejects w KC_resetInternetCredentials); [reflexivity |].
  rewrite lookup_delete_ne; [reflexivity |].
  intros H. apply Hne. symmetry. now apply server_inj.
Qed.

Lemma deleteWallet_keeps_other_keys_witness :
  exists done w',
    KeyManager.deleteWallet (KeyManager.address alice) w_full = (Return done, w') /\
    fst (KeyManager.retrievePrivateKey (KeyManager.address bob) "123456" w') =
    fst (KeyManager.retrievePrivateKey (KeyManager.address bob) "123456" w_full).
Proof.
  apply (deleteWallet_keeps_other_keys w_full (KeyManager.address alice)
           (KeyManager.address bob) "123456").
  discriminate.
Defined.

(** ** KeyVault: six-digit PINs *)

Lemma digit_chunk (c : ascii) (t : list ascii) :
  is_digit c = true ->
  Utf8.chunks (c :: t) = Utf8.Scalar (u8 c) [c] :: Utf8.chunks t.
Proof.
  intros H. rewrite chunks_cons.
  bits c; vm_compute in H; first [discriminate H | reflexivity].
Qed.

Lemma digit_range (c : ascii) : is_digit c = true -> 48 <= u8 c <= 57.
Proof.
  unfold is_digit. intros H. apply andb_true_iff in H as [H1 H2].
  apply N.leb_le in H1, H2. lia.
Qed.

Lemma u8_inj (a b : ascii) : u8 a = u8 b -> a = b.
Proof.
  intros H. rewrite <- (ascii_N_embedding a), <- (ascii_N_embedding b).
  unfold u8 in H. now rewrite H.
Qed.

Lemma to_hex_inj (a b : N) : to_hex a = to_hex b -> a = b.
Proof.
  unfold to_hex. intros H.
  assert (Hn : forall n, N.to_hex_uint n <> Hexadecimal.Nil).
  { intros n E. pose proof (f_equal N.of_hex_uint E) as E'.
    rewrite HexadecimalN.Unsigned.of_to in E'. subst n.
    vm_compute in E. discriminate E. }
  apply (f_equal HexadecimalString.NilZero.uint_of_string) in H.
  rewrite !HexadecimalString.NilZero.usu in H by apply Hn.
  injection H as H. apply (f_equal N.of_hex_uint) in H.
  now rewrite !HexadecimalN.Unsigned.of_to in H.
Qed.

Lemma step_digit (acc : N) (c : ascii) :
  is_digit c = true -> acc < 2 ^ 27 ->
  KeyManager.step acc (u8 c) = acc * 31 + u8 c.
Proof.
  intros Hc Ha. apply digit_range in Hc.
  unfold KeyManager.step, Utf8.first_unit.
  destruct (N.ltb_spec 0xFFFF (u8 c)) as [Hbig | _]; [lia |].
  apply N.mod_small. change (2 ^ 32) with 4294967296.
  change (2 ^ 27) with 134217728 in Ha. lia.
Qed.

Lemma hashPin_digits (c1 c2 c3 c4 c5 c6 : ascii) :
  is_digit c1 = true -> is_digit c2 = true -> is_digit c3 = true ->
  is_digit c4 = true -> is_digit c5 = true -> is_digit c6 = true ->
  KeyManager.hashPin
    (String c1 (String c2 (String c3 (String c4 (String c5 (String c6 EmptyString)))))) =
  to_hex (((((u8 c1 * 31 + u8 c2) * 31 + u8 c3) * 31 + u8 c4) * 31 + u8 c5) * 31
          + u8 c6).
Proof.
  intros H1 H2 H3 H4 H5 H6.
  unfold KeyManager.hashPin, Utf8.points. cbn [list_ascii_of_string].
  rewrite !digit_chunk by assumption.
  cbn [Utf8.chunks map Utf8.point_of fold_left].
  pose proof (digit_range c1 H1). pose proof (digit_range c2 H2).
  pose proof (digit_range c3 H3). pose proof (digit_range c4 H4).
  pose proof (digit_range c5 H5). pose proof (digit_range c6 H6).
  change (2 ^ 27) with 134217728 in *.
  rewrite (step_digit 0 c1 H1) by (change (2 ^ 27) with 134217728; lia).
  rewrite (step_digit _ c2 H2) by (change (2 ^ 27) with 134217728; lia).
  rewrite (step_digit _ c3 H3) by (change (2 ^ 27) with 134217728; lia).
  rewrite (step_digit _ c4 H4) by (change (2 ^ 27) with 134217728; lia).
  rewrite (step_digit _ c5 H5) by (change (2 ^ 27) with 134217728; lia).
  rewrite (step_digit _ c6 H6) by (change (2 ^ 27) with 134217728; lia).
  reflexivity.
Qed.

Lemma horner_digit (a b : N) (c d : ascii) :
  is_digit c = true -> is_digit d = true ->
  a * 31 + u8 c = b * 31 + u8 d -> a = b /\ c = d.
Proof.
  intros Hc Hd H. apply digit_range in Hc, Hd.
  assert (u8 c = u8 d) by lia. split; [lia | now apply u8_inj].
Qed.

Lemma valid_pin_digits (pin : string) :
  Validation.isValidPin pin = true ->
  exists c1 c2 c3 c4 c5 c6,
    pin = String c1 (String c2 (String c3 (String c4 (String c5 (String c6 EmptyString))))) /\
    is_digit c1 = true /\ is_digit c2 = true /\ is_digit c3 = true /\
    is_digit c4 = true /\ is_digit c5 = true /\ is_digit c6 = true.
Proof.
  unfold Validation.isValidPin. intros H. apply andb_true_iff in H as [Hl Hd].
  destruct pin as [|c1 [|c2 [|c3 [|c4 [|c5 [|c6 [|c7 r]]]]]]]; try discriminate Hl.
  cbn [list_ascii_of_string forallb] in Hd.
  repeat (apply andb_true_iff in Hd as [? Hd]).
  exists c1, c2, c3, c4, c5, c6. repeat split; assumption.
Qed.

(** On the PINs that the screens accept, [hashPin] has no collision. *)
Lemma hashPin_valid_inj (p q : string) :
  Validation.isValidPin p = true -> Validation.isValidPin q = true ->
  KeyManager.hashPin p = KeyManager.hashPin q -> p = q.
Proof.
  intros Hp Hq H.
  destruct (valid_pin_digits p Hp) as (a1 & a2 & a3 & a4 & a5 & a6 & -> & A1 & A2 & A3 & A4 & A5 & A6).
  destruct (valid_pin_digits q Hq) as (b1 & b2 & b3 & b4 & b5 & b6 & -> & B1 & B2 & B3 & B4 & B5 & B6).
  rewrite !hashPin_digits in H by assumption.
  apply to_hex_inj in H.
  apply horner_digit in H as [H ->]; [| assumption ..].
  apply horner_digit in H as [H ->]; [| assumption ..].
  apply horner_digit in H as [H ->]; [| assumption ..].
  apply horner_digit in H as [H ->]; [| assumption ..].
  apply horner_digit in H as [H ->]; [| assumption ..].
  apply u8_inj in H as ->. reflexivity.
Qed.

Lemma hasPin_reads (w : world) :
  KeyManager.hasPin w =
    (Return (if rejects w KC_getGenericPassword then false
             else bool_decide (is_Some (generic w !! (KeyManager.KEYCHAIN_SERVICE +:+ ".pin")))),
     w).
Proof.
  unfold KeyManager.hasPin, try_catch, bind, Keychain.getGenericPassword, native, ret.
  destruct (rejects w KC_getGenericPassword); reflexivity.
Qed.

(** X4.  Among six-digit PINs, the PIN that was set is the only one that
    verifies: after [setPin(p)], [hasPin()] is [true] and [verifyPin(q)] is
    [true] exactly when [q] is [p]. *)
Theorem verifyPin_exact_on_valid_pins (w : world) (p q : string) :
  rejects w KC_setGenericPassword = false ->
  rejects w KC_getGenericPassword = false ->
  Validation.isValidPin p = true ->
  Validation.isValidPin q = true ->
  exists w',
    KeyManager.setPin p w = (Return true, w') /\
    KeyManager.hasPin w' = (Return true, w') /\
    KeyManager.verifyPin q w' = (Return (String.eqb p q), w').
Proof.
  intros Hset Hget Hp Hq.
  destruct (verifyPin_after_setPin w p q Hset Hget) as (w' & E1 & E2).
  exists w'. split; [exact E1 |]. split.
  - unfold KeyManager.setPin, try_catch, bind, Keychain.setGenericPassword,
      native, ret in E1.
    rewrite Hset in E1. injection E1 as <-.
    rewrite hasPin_reads. cbn [rejects set_generic generic]. rewrite Hget.
    now rewrite lookup_insert_eq.
  - rewrite E2. do 2 f_equal.
    destruct (String.eqb_spec p q) as [-> | Hne].
    + apply String.eqb_refl.
    + apply String.eqb_neq. intros H. apply Hne.
      now apply hashPin_valid_inj.
Qed.

Lemma verifyPin_exact_on_valid_pins_witness :
  exists w',
    KeyManager.setPin "123456" w0 = (Return true, w') /\
    KeyManager.hasPin w' = (Return true, w') /\
    KeyManager.verifyPin "123457" w' = (Return (String.eqb "123456" "123457"), w').
Proof.
  apply (verifyPin_exact_on_valid_pins w0 "123456" "123457"); reflexivity.
Defined.

(** ** KeyVault: listing a wallet *)

Lemma lists_stored (w : world) (ws : list KeyManager.StoredWallet) :
  rejects w ES_getItem = false ->
  lists w ws -> stored_wallets (storage w) = KeyManager.registry ws.
Proof.
  intros Hget H. unfold lists in H.
  rewrite getWalletList_reads in H by exact Hget. now injection H.
Qed.

Lemma findIndex_registry_absent (a : string) (ws : list KeyManager.StoredWallet) :
  a ∉ map KeyManager.address ws ->
  KeyManager.findIndex a (map KeyManager.of_wallet ws) = Return None.
Proof.
  induction ws as [|r ws IH]; intros Hout; [reflexivity |].
  cbn [map KeyManager.findIndex]. rewrite has_address_of_wallet.
  cbn [map] in Hout. apply not_elem_of_cons in Hout as [Hne Hout].
  destruct (String.eqb_spec (KeyManager.address r) a) as [E | _];
    [now destruct Hne |].
  now rewrite IH.
Qed.

(** The run of [storePrivateKey] for an address that the registry lists. *)
Lemma storePrivateKey_listed (w : world) (ws : list KeyManager.StoredWallet)
  (a privateKey pin : string) :
  reliable w -> lists w ws -> a ∈ map KeyManager.address ws ->
  exists i r,
    ws !! i = Some r /\ KeyManager.address r = a /\
    KeyManager.storePrivateKey a privateKey pin w =
      (Return true,
       set_storage
         (insert "wallet_list"
            (stringify
               (KeyManager.registry
                  (<[i := renewed (KeyManager.seal (random_wallet w (draws w)) privateKey) r]> ws))))
         (set_internet
            (insert (KeyManager.server a)
               (a, KeyManager.seal (random_wallet w (draws w)) privateKey))
            (draw w))).
Proof.
  intros Hw Hws Hin. apply lists_stored in Hws; [| apply Hw].
  destruct (findIndex_registry a ws Hin) as (i & r & Hf & Hl & Ha).
  exists i, r. split; [exact Hl |]. split; [exact Ha |].
  unfold KeyManager.storePrivateKey, try_catch, bind at 1.
  unfold KeyManager.encrypt, bind at 1, Wallet_createRandom, ret at 1.
  unfold bind at 1, Keychain.setInternetCredentials, native at 1.
  cbn [rejects draw]. rewrite Hw.
  unfold bind at 1, KeyManager.addToWalletList, bind at 1.
  rewrite getWalletList_reads by apply Hw.
  cbn [storage set_internet draw]. rewrite Hws. unfold KeyManager.registry at 1.
  unfold bind at 1, lift. rewrite Hf.
  unfold bind at 1, ret at 1.
  rewrite list_lookup_fmap, Hl. cbn [fmap option_fmap option_map default].
  rewrite (of_wallet_renewed a _ r Ha).
  rewrite <- list_fmap_insert.
  unfold EncryptedStorage.setItem, native. cbn [rejects set_internet draw].
  rewrite Hw. reflexivity.
Qed.

(** The run of [storePrivateKey] for an address that the registry does
    not list. *)
Lemma storePrivateKey_unlisted (w : world) (ws : list KeyManager.StoredWallet)
  (a privateKey pin : string) :
  reliable w -> lists w ws -> a ∉ map KeyManager.address ws ->
  KeyManager.storePrivateKey a privateKey pin w =
    (Return true,
     set_storage
       (insert "wallet_list"
          (stringify
             (KeyManager.registry
                (ws ++ [{| KeyManager.address := a;
                           KeyManager.encryptedPrivateKey :=
                             KeyManager.seal (random_wallet w (draws w)) privateKey;
                           KeyManager.createdAt := clock w |}]))))
       (set_internet
          (insert (KeyManager.server a)
             (a, KeyManager.seal (random_wallet w (draws w)) privateKey))
          (draw w))).
Proof.
  intros Hw Hws Hout. apply lists_stored in Hws; [| apply Hw].
  unfold KeyManager.storePrivateKey, try_catch, bind at 1.
  unfold KeyManager.encrypt, bind at 1, Wallet_createRandom, ret at 1.
  unfold bind at 1, Keychain.setInternetCredentials, native at 1.
  cbn [rejects draw]. rewrite Hw.
  unfold bind at 1, KeyManager.addToWalletList, bind at 1.
  rewrite getWalletList_reads by apply Hw.
  cbn [storage set_internet draw]. rewrite Hws. unfold KeyManager.registry at 1.
  unfold bind at 1, lift. rewrite (findIndex_registry_absent a ws Hout).
  unfold bind, Date_now, ret, EncryptedStorage.setItem, native.
  cbn [rejects clock set_internet draw].
  rewrite Hw. unfold KeyManager.registry. rewrite map_app. reflexivity.
Qed.

Lemma lists_after_write (w : world) (ws : list KeyManager.StoredWallet) :
  rejects w ES_getItem = false ->
  lists (set_storage (insert "wallet_list" (stringify (KeyManager.registry ws))) w) ws.
Proof.
  intros Hget. unfold lists. rewrite getWalletList_reads by exact Hget.
  cbn [fst storage set_storage]. f_equal. apply stored_wallets_insert.
Qed.

(** X5.  On a device that rejects no call, storing a private key for an
    address that the registry does not list succeeds, appends one record
    to the registry, after the records it held, with that address and the
    current time as its creation time, and puts into the keychain entry of
    the address the very blob that the record holds. *)
Theorem storePrivateKey_appends_new (w : world) (ws : list KeyManager.StoredWallet)
  (a privateKey pin : string) :
  reliable w -> lists w ws -> a ∉ map KeyManager.address ws ->
  exists w' blob,
    KeyManager.storePrivateKey a privateKey pin w = (Return true, w') /\
    lists w' (ws ++ [{| KeyManager.address := a;
                        KeyManager.encryptedPrivateKey := blob;
                        KeyManager.createdAt := clock w |}]) /\
    internet w' !! KeyManager.server a = Some (a, blob).
Proof.
  intros Hw Hws Hout. eexists _, _.
  split; [exact (storePrivateKey_unlisted w ws a privateKey pin Hw Hws Hout) |].
  split; [apply lists_after_write, Hw |].
  cbn [internet set_storage set_internet]. apply lookup_insert_eq.
Qed.

Lemma storePrivateKey_appends_new_witness :
  exists w' blob,
    KeyManager.storePrivateKey "0x3C44CdDdB6a900fa2b585dd299e03d12FA4293BC" "0x03"
      "123456" w2 = (Return true, w') /\
    lists w' ([alice; bob] ++
              [{| KeyManager.address := "0x3C44CdDdB6a900fa2b585dd299e03d12FA4293BC";
                  KeyManager.encryptedPrivateKey := blob;
                  KeyManager.createdAt := clock w2 |}]) /\
    internet w' !! KeyManager.server "0x3C44CdDdB6a900fa2b585dd299e03d12FA4293BC" =
      Some ("0x3C44CdDdB6a900fa2b585dd299e03d12FA4293BC", blob).
Proof.
  apply (storePrivateKey_appends_new w2 [alice; bob]
           "0x3C44CdDdB6a900fa2b585dd299e03d12FA4293BC" "0x03" "123456").
  - intros call. reflexivity.
  - vm_compute. reflexivity.
  - intros H. apply list_elem_of_In in H. simpl in H.
    destruct H as [H | [H | []]]; discriminate H.
Defined.

Lemma deleteWallet_run (w : world) (ws : list KeyManager.StoredWallet) (a : string) :
  reliable w -> lists w ws ->
  KeyManager.deleteWallet a w =
    (Return true,
     set_storage
       (insert "wallet_list"
          (stringify
             (KeyManager.registry (filter (fun r => KeyManager.address r <> a) ws))))
       (set_internet (delete (KeyManager.server a)) w)).
Proof.
  intros Hw Hws. apply lists_stored in Hws; [| apply Hw].
  unfold KeyManager.deleteWallet, try_catch, bind,
    Keychain.resetInternetCredentials, native at 1.
  rewrite Hw. rewrite getWalletList_reads by apply Hw.
  cbn [storage set_internet]. rewrite Hws. unfold KeyManager.registry at 1.
  unfold lift. rewrite filter_out_registry.
  unfold EncryptedStorage.setItem, native. cbn [rejects set_internet].
  rewrite Hw. reflexivity.
Qed.

(** X6.  The registry never lists an address twice: if the addresses of
    its records are distinct, they still are after [storePrivateKey], for
    a listed or a new address, and after [deleteWallet], which moreover
    leaves no record of the deleted address. *)
Theorem registry_addresses_stay_distinct (w : world)
  (ws : list KeyManager.StoredWallet) (a privateKey pin : string) :
  reliable w -> lists w ws -> NoDup (map KeyManager.address ws) ->
  (exists w' ws',
     KeyManager.storePrivateKey a privateKey pin w = (Return true, w') /\
     lists w' ws' /\ NoDup (map KeyManager.address ws') /\
     a ∈ map KeyManager.address ws') /\
  (exists w' ws',
     KeyManager.deleteWallet a w = (Return true, w') /\
     lists w' ws' /\ NoDup (map KeyManager.address ws') /\
     a ∉ map KeyManager.address ws').
Proof.
  intros Hw Hws Hnd. split.
  - destruct (decide (a ∈ map KeyManager.address ws)) as [Hin | Hout].
    + destruct (storePrivateKey_listed w ws a privateKey pin Hw Hws Hin)
        as (i & r & Hl & Ha & E).
      eexists _, _. split; [exact E |].
      split; [apply lists_after_write, Hw |].
      assert (Hsame : map KeyManager.address
                        (<[i := renewed (KeyManager.seal (random_wallet w (draws w)) privateKey) r]> ws)
                      = map KeyManager.address ws).
      { change (map KeyManager.address) with (fmap (M := list) KeyManager.address).
        rewrite list_fmap_insert. apply list_insert_id.
        rewrite list_lookup_fmap, Hl. reflexivity. }
      rewrite Hsame. split; assumption.
    + eexists _, _.
      split; [exact (storePrivateKey_unlisted w ws a privateKey pin Hw Hws Hout) |].
      split; [apply lists_after_write, Hw |].
      rewrite map_app. cbn [map KeyManager.address]. split.
      * apply NoDup_app. split; [exact Hnd |]. split; [| apply NoDup_singleton].
        intros x Hx Hx'. apply list_elem_of_singleton in Hx'. now subst x.
      * apply elem_of_app. right. now apply list_elem_of_singleton.
  - eexists _, _. split; [exact (deleteWallet_run w ws a Hw Hws) |].
    split; [apply lists_after_write, Hw |].
    change (map KeyManager.address) with (fmap (M := list) KeyManager.address) in *.
    split.
    + clear Hws. induction ws as [|r ws IH]; [constructor |].
      rewrite filter_cons. rewrite fmap_cons in Hnd. apply NoDup_cons in Hnd as [Hr Hnd].
      destruct (decide (KeyManager.address r <> a)); [| now apply IH].
      rewrite fmap_cons. apply NoDup_cons. split; [| now apply IH].
      intros Hin. apply Hr. apply list_elem_of_fmap in Hin as (x & Hx & Hin).
      apply list_elem_of_filter in Hin as [_ Hin]. rewrite Hx.
      now apply list_elem_of_fmap_2.
    + intros Hin. apply list_elem_of_fmap in Hin as (x & Hx & Hin).
      apply list_elem_of_filter in Hin as [Hne _]. now apply Hne.
Qed.

Lemma registry_addresses_stay_distinct_witness :
  (exists w' ws',
     KeyManager.storePrivateKey (KeyManager.address bob) "0x03" "123456" w2 =
       (Return true, w') /\
     lists w' ws' /\ NoDup (map KeyManager.address ws') /\
     KeyManager.address bob ∈ map KeyManager.address ws') /\
  (exists w' ws',
     KeyManager.deleteWallet (KeyManager.address bob) w2 = (Return true, w') /\
     lists w' ws' /\ NoDup (map KeyManager.address ws') /\
     KeyManager.address bob ∉ map KeyManager.address ws').
Proof.
  apply (registry_addresses_stay_distinct w2 [alice; bob]
           (KeyManager.address bob) "0x03" "123456").
  - intros call. reflexivity.
  - vm_compute. reflexivity.
  - apply NoDup_cons. split.
    + intros H. apply list_elem_of_In in H. simpl in H.
      destruct H as [H | []]. discriminate H.
    + apply NoDup_singleton.
Defined.

(** ** KeyVault: biometric unlock *)

Lemma verifyPin_reads (w : world) (pin : string) :
  KeyManager.verifyPin pin w =
    (Return (if rejects w KC_getGenericPassword then false
             else match generic w !! (KeyManager.KEYCHAIN_SERVICE +:+ ".pin") with
                  | None => false
                  | Some (_, password) => String.eqb password (KeyManager.hashPin pin)
                  end), w).
Proof.
  unfold KeyManager.verifyPin, try_catch, bind, Keychain.getGenericPassword, native, ret.
  destruct (rejects w KC_getGenericPassword); [reflexivity |].
  destruct (generic w !! _) as [[u p]|]; reflexivity.
Qed.



(** ** KeyVault: wiping the device *)

Lemma address_text_of_wallet (String_of : json -> string) (r : KeyManager.StoredWallet) :
  KeyVault.address_text String_of (KeyManager.of_wallet r) =
  Return (KeyManager.address r).
Proof. reflexivity. Qed.

Lemma reset_each_registry (String_of : json -> string)
  (ws : list KeyManager.StoredWallet) (w : world) :
  rejects w KC_resetInternetCredentials = false ->
  exists w',
    KeyVault.reset_each String_of (map KeyManager.of_wallet ws) w = (Return tt, w') /\
    storage w' = storage w /\ generic w' = generic w /\ rejects w' = rejects w /\
    (forall a, a ∈ map KeyManager.address ws ->
       internet w' !! KeyManager.server a = None) /\
    (forall a, a ∉ map KeyManager.address ws ->
       internet w' !! KeyManager.server a = internet w !! KeyManager.server a).
Proof.
  revert w. induction ws as [|r ws IH]; intros w Hr.
  - exists w. repeat split; try reflexivity. intros a Ha. inversion Ha.
  - cbn [map KeyVault.reset_each]. unfold bind at 1, lift.
    rewrite address_text_of_wallet.
    unfold bind at 1, Keychain.resetInternetCredentials, native. rewrite Hr.
    destruct (IH (set_internet (delete (KeyManager.server (KeyManager.address r))) w) Hr)
      as (w' & E & Hs & Hg & Hrj & Hin & Hout).
    exists w'. split; [exact E |]. split; [exact Hs |]. split; [exact Hg |].
    split; [exact Hrj |]. split.
    + intros a Ha. destruct (decide (a ∈ map KeyManager.address ws)) as [Hl | Hn];
        [now apply Hin |].
      rewrite Hout by exact Hn. apply elem_of_cons in Ha as [-> | Ha];
        [| contradiction].
      cbn [internet set_internet]. apply lookup_delete_eq.
    + intros a Ha. apply not_elem_of_cons in Ha as [Hne Ha].
      rewrite Hout by exact Ha. cbn [internet set_internet].
      apply lookup_delete_ne. intros H. apply Hne. symmetry. now apply server_inj.
Qed.

Lemma clearAll_run (String_of : json -> string) (w : world)
  (ws : list KeyManager.StoredWallet) :
  reliable w -> lists w ws ->
  exists w',
    KeyVault.clearAll false false String_of w = (Return tt, w') /\
    storage w' = ∅ /\ rejects w' = rejects w /\
    generic w' !! KeyVault.PIN_SERVICE = None /\
    generic w' !! KeyVault.BIOMETRIC_SERVICE = None /\
    (forall a, a ∈ map KeyManager.address ws ->
       internet w' !! KeyManager.server a = None) /\
    (forall a, a ∉ map KeyManager.address ws ->
       internet w' !! KeyManager.server a = internet w !! KeyManager.server a).
Proof.
  intros Hw Hws. apply lists_stored in Hws; [| apply Hw].
  unfold KeyVault.clearAll, try_catch, bind at 1.
  rewrite getWalletList_reads by apply Hw. rewrite Hws.
  unfold bind at 1, lift. cbn [KeyVault.iterate KeyManager.registry].
  unfold bind at 1.
  destruct (reset_each_registry String_of ws w (Hw _))
    as (w' & E & Hs & Hg & Hrj & Hin & Hout).
  rewrite E. unfold bind, KeyVault.resetGenericPassword, KeyVault.clear.
  eexists. split; [reflexivity |].
  cbn [storage generic rejects internet set_storage set_generic].
  split; [reflexivity |]. split; [exact Hrj |].
  split; [| split; [apply lookup_delete_eq | split; assumption]].
  rewrite lookup_delete_ne by discriminate. apply lookup_delete_eq.
Qed.

(** X8.  On a device that rejects no call, [clearAll()] leaves nothing to
    read: afterwards no PIN is set, the registry is empty, no recovery
    phrase is returned, and [retrievePrivateKey] returns [null] for every
    address that the registry listed. *)
Theorem clearAll_wipes (String_of : json -> string)
  (Buffer_from_value : KeyManager.value -> outcome Buffer)
  (w : world) (ws : list KeyManager.StoredWallet) (pin : string) :
  reliable w -> lists w ws ->
  exists w',
    KeyVault.clearAll false false String_of w = (Return tt, w') /\
    fst (KeyManager.hasPin w') = Return false /\
    lists w' [] /\
    fst (KeyVault.retrieveMnemonic Buffer_from_value pin w') = Return KeyManager.null /\
    forall a, a ∈ map KeyManager.address ws ->
      fst (KeyManager.retrievePrivateKey a pin w') = Return KeyManager.null.
Proof.
  intros Hw Hws.
  destruct (clearAll_run String_of w ws Hw Hws)
    as (w' & E & Hs & Hrj & Hp & _ & Hin & _).
  exists w'. split; [exact E |]. split; [| split; [| split]].
  - rewrite hasPin_reads, Hrj, Hw. cbn [fst].
    change (KeyManager.KEYCHAIN_SERVICE +:+ ".pin") with KeyVault.PIN_SERVICE.
    now rewrite Hp.
  - unfold lists. rewrite getWalletList_reads by (rewrite Hrj; apply Hw).
    now rewrite Hs.
  - unfold KeyVault.retrieveMnemonic, try_catch, bind, EncryptedStorage.getItem,
      native, ret.
    rewrite Hrj, Hw, Hs. reflexivity.
  - intros a Ha. rewrite retrievePrivateKey_reads, Hrj, Hw, (Hin a Ha). reflexivity.
Qed.

Lemma clearAll_wipes_witness :
  exists w',
    KeyVault.clearAll false false dev_String_of w_full = (Return tt, w') /\
    fst (KeyManager.hasPin w') = Return false /\
    lists w' [] /\
    fst (KeyVault.retrieveMnemonic (fun _ => Throw TypeError) "123456" w') =
      Return KeyManager.null /\
    forall a, a ∈ map KeyManager.address [alice; bob] ->
      fst (KeyManager.retrievePrivateKey a "123456" w') = Return KeyManager.null.
Proof.
  apply (clearAll_wipes dev_String_of (fun _ => Throw TypeError) w_full
           [alice; bob] "123456").
  - intros call. reflexivity.
  - vm_compute. reflexivity.
Defined.

(** X9.  [clearAll()] removes the keys of the listed wallets only: the
    key of an address that the registry does not list, such as one whose
    listing failed, is still returned by [retrievePrivateKey] afterwards. *)
Theorem clearAll_keeps_unlisted_keys (String_of : json -> string)
  (w : world) (ws : list KeyManager.StoredWallet) (a pin : string) :
  reliable w -> lists w ws -> a ∉ map KeyManager.address ws ->
  exists w',
    KeyVault.clearAll false false String_of w = (Return tt, w') /\
    fst (KeyManager.retrievePrivateKey a pin w') =
    fst (KeyManager.retrievePrivateKey a pin w).
Proof.
  intros Hw Hws Ha.
  destruct (clearAll_run String_of w ws Hw Hws)
    as (w' & E & _ & Hrj & _ & _ & _ & Hout).
  exists w'. split; [exact E |].
  now rewrite !retrievePrivateKey_reads, Hrj, (Hout a Ha).
Qed.

Lemma clearAll_keeps_unlisted_keys_witness :
  exists w',
    KeyVault.clearAll false false dev_String_of w_full = (Return tt, w') /\
    fst (KeyManager.retrievePrivateKey "0x3C44CdDdB6a900fa2b585dd299e03d12FA4293BC"
           "123456" w') =
    fst (KeyManager.retrievePrivateKey "0x3C44CdDdB6a900fa2b585dd299e03d12FA4293BC"
           "123456" w_full).
Proof.
  apply (clearAll_keeps_unlisted_keys dev_String_of w_full [alice; bob]
           "0x3C44CdDdB6a900fa2b585dd299e03d12FA4293BC" "123456").
  - intros call. reflexivity.
  - vm_compute. reflexivity.
  - intros H. apply list_elem_of_In in H. simpl in H.
    destruct H as [H | [H | []]]; discriminate H.
Defined.

(** ** WalletFactory: the words of a phrase *)

Lemma split_cons (sep : ascii) (s : string) :
  exists word words, WalletFactory.split sep s = word :: words.
Proof.
  destruct s as [|c r]; [eexists _, _; reflexivity |].
  cbn [WalletFactory.split]. destruct (Ascii.eqb c sep); [eexists _, _; reflexivity |].
  destruct (WalletFactory.split sep r); eexists _, _; reflexivity.
Qed.

Lemma join_cons (sep word : string) (next : string) (rest : list string) :
  WalletFactory.join sep (word :: next :: rest) =
  word +:+ sep +:+ WalletFactory.join sep (next :: rest).
Proof. reflexivity. Qed.

Lemma join_split (s : string) :
  WalletFactory.join " " (WalletFactory.split " "%char s) = s.
Proof.
  induction s as [|c r IH]; [reflexivity |].
  cbn [WalletFactory.split].
  destruct (split_cons " "%char r) as (word & words & E). rewrite E in *.
  destruct (Ascii.eqb_spec c " "%char) as [-> | _].
  - rewrite join_cons, IH. reflexivity.
  - destruct words as [|next rest].
    + cbn [WalletFactory.join] in *. now rewrite IH.
    + rewrite join_cons in *. rewrite append_cons, IH. reflexivity.
Qed.

Lemma trim_end_idem (s : string) :
  WalletService.trim_end (WalletService.trim_end s) = WalletService.trim_end s.
Proof.
  induction s as [|c r IH]; [reflexivity |].
  cbn [WalletService.trim_end].
  destruct (WalletService.trim_end r) as [|d e] eqn:E.
  - destruct (WalletService.is_space c) eqn:Hc; [reflexivity |].
    cbn [WalletService.trim_end]. now rewrite Hc.
  - cbn [WalletService.trim_end] in *. now rewrite IH.
Qed.

Lemma trim_start_head (s : string) :
  match WalletService.trim_start s with
  | EmptyString => True
  | String c _ => WalletService.is_space c = false
  end.
Proof.
  induction s as [|c r IH]; [exact I |].
  cbn [WalletService.trim_start].
  destruct (WalletService.is_space c) eqn:Hc; [exact IH | exact Hc].
Qed.

Lemma trim_end_head (c : ascii) (r : string) :
  WalletService.is_space c = false ->
  exists r', WalletService.trim_end (String c r) = String c r'.
Proof.
  intros Hc. cbn [WalletService.trim_end].
  destruct (WalletService.trim_end r); [rewrite Hc |]; eexists; reflexivity.
Qed.

Lemma trim_idem (s : string) :
  WalletService.trim (WalletService.trim s) = WalletService.trim s.
Proof.
  unfold WalletService.trim.
  pose proof (trim_start_head s) as H.
  destruct (WalletService.trim_start s) as [|c r]; [reflexivity |].
  destruct (trim_end_head c r H) as (r' & E).
  rewrite E at 1. cbn [WalletService.trim_start]. rewrite H, <- E.
  apply trim_end_idem.
Qed.

(** X10.  Joining the words that [mnemonicToWords] makes of a phrase gives
    the phrase back, trimmed: [wordsToMnemonic(mnemonicToWords(m))] is
    [m.trim()]. *)
Theorem wordsToMnemonic_mnemonicToWords (mnemonic : string) :
  WalletFactory.wordsToMnemonic (WalletFactory.mnemonicToWords mnemonic) =
  WalletService.trim mnemonic.
Proof.
  unfold WalletFactory.wordsToMnemonic, WalletFactory.mnemonicToWords.
  rewrite join_split. apply trim_idem.
Qed.









(** ** WalletFactory: creating, importing and loading a wallet *)

Lemma set_storage_same (w : world) : set_storage (fun _ => storage w) w = w.
Proof. destruct w. reflexivity. Qed.

(** Listing a wallet changes nothing but the encrypted storage. *)
Lemma addToWalletList_storage (a blob : string) (w : world) :
  exists o st, KeyManager.addToWalletList a blob w = (o, set_storage (fun _ => st) w).
Proof.
  unfold KeyManager.addToWalletList, bind at 1.
  destruct (getWalletList_pure w) as (v & ->).
  destruct v as [| b | z | l | s | items | members];
    try (eexists _, (storage w); rewrite set_storage_same; reflexivity).
  unfold bind at 1, lift.
  destruct (KeyManager.findIndex a items) as [[i|] | e];
    try (eexists _, (storage w); rewrite set_storage_same; reflexivity).
  - unfold bind, ret, EncryptedStorage.setItem, native.
    destruct (rejects w ES_setItem);
      [eexists _, (storage w); rewrite set_storage_same; reflexivity |].
    eexists _, _. reflexivity.
  - unfold bind, ret, Date_now, EncryptedStorage.setItem, native.
    destruct (rejects w ES_setItem);
      [eexists _, (storage w); rewrite set_storage_same; reflexivity |].
    eexists _, _. reflexivity.
Qed.

(** What [storePrivateKey] does outside the encrypted storage. *)
Lemma storePrivateKey_frame (a privateKey pin : string) (w : world) :
  exists done w',
    KeyManager.storePrivateKey a privateKey pin w = (Return done, w') /\
    generic w' = generic w /\ rejects w' = rejects w.
Proof.
  unfold KeyManager.storePrivateKey, try_catch, bind at 1.
  unfold KeyManager.encrypt, bind at 1, Wallet_createRandom, ret at 1.
  unfold bind at 1, Keychain.setInternetCredentials, native at 1.
  cbn [rejects draw].
  destruct (rejects w KC_setInternetCredentials);
    [eexists _, _; repeat split; reflexivity |].
  unfold bind at 1.
  match goal with
  | |- context [KeyManager.addToWalletList a ?blob ?w1] =>
      destruct (addToWalletList_storage a blob w1) as (o & st & ->)
  end.
  destruct o as [[] | e]; eexists _, _; repeat split; reflexivity.
Qed.

Lemma lists_frame (w w' : world) (ws : list KeyManager.StoredWallet) :
  rejects w ES_getItem = false -> rejects w' ES_getItem = false ->
  storage w' !! "wallet_list" = storage w !! "wallet_list" ->
  lists w ws -> lists w' ws.
Proof.
  intros Hr Hr' Hs. unfold lists.
  rewrite !getWalletList_reads by assumption. cbn [fst].
  unfold stored_wallets. now rewrite Hs.
Qed.

(** The run of [storePrivateKey] on a device that rejects no call. *)
Lemma storePrivateKey_reliable (w : world) (ws : list KeyManager.StoredWallet)
  (a privateKey pin : string) :
  reliable w -> lists w ws ->
  exists w' ws',
    KeyManager.storePrivateKey a privateKey pin w = (Return true, w') /\
    lists w' ws' /\ a ∈ map KeyManager.address ws' /\
    generic w' = generic w /\ rejects w' = rejects w /\
    internet w' !! KeyManager.server a =
      Some (a, KeyManager.seal (random_wallet w (draws w)) privateKey) /\
    (forall key, key <> "wallet_list" -> storage w' !! key = storage w !! key).
Proof.
  intros Hw Hws.
  destruct (decide (a ∈ map KeyManager.address ws)) as [Hin | Hout].
  - destruct (storePrivateKey_listed w ws a privateKey pin Hw Hws Hin)
      as (i & r & Hl & Ha & E).
    eexists _, _. split; [exact E |].
    split; [apply lists_after_write, Hw |].
    cbn [generic rejects internet storage set_storage set_internet draw].
    repeat split.
    + change (map KeyManager.address) with (fmap (M := list) KeyManager.address).
      rewrite list_fmap_insert, list_insert_id; [exact Hin |].
      rewrite list_lookup_fmap, Hl. reflexivity.
    + apply lookup_insert_eq.
    + intros key Hkey. now apply lookup_insert_ne.
  - eexists _, _.
    split; [exact (storePrivateKey_unlisted w ws a privateKey pin Hw Hws Hout) |].
    split; [apply lists_after_write, Hw |].
    cbn [generic rejects internet storage set_storage set_internet draw].
    repeat split.
    + rewrite map_app. apply elem_of_app. right. now apply list_elem_of_singleton.
    + apply lookup_insert_eq.
    + intros key Hkey. now apply lookup_insert_ne.
Qed.

(** The three persistence steps that follow the derivation of an account,
    on a device that rejects no call. *)
Lemma persist_run (w : world) (ws : list KeyManager.StoredWallet)
  (mnemonic pin : string) (wallet : WalletService.WalletAccount) :
  reliable w -> lists w ws ->
  exists w',
    (do _ <- KeyManager.storeMnemonic mnemonic pin;
     do _ <- KeyManager.storePrivateKey (WalletService.address wallet)
               (WalletService.privateKey wallet) pin;
     do _ <- KeyManager.setPin pin;
     ret (Some wallet)) w = (Return (Some wallet), w') /\
    reliable w' /\
    storage w' !! KeyManager.MNEMONIC_KEY =
      Some (stringify
              (JObj [("encrypted",
                      JStr (KeyManager.seal (random_wallet w (draws w)) mnemonic));
                     ("createdAt", JNum (clock w))])) /\
    internet w' !! KeyManager.server (WalletService.address wallet) =
      Some (WalletService.address wallet,
            KeyManager.seal (random_wallet w (S (draws w)))
              (WalletService.privateKey wallet)) /\
    generic w' !! (KeyManager.KEYCHAIN_SERVICE +:+ ".pin") =
      Some ("pin", KeyManager.hashPin pin) /\
    exists ws', lists w' ws' /\
      WalletService.address wallet ∈ map KeyManager.address ws'.
Proof.
  intros Hw Hws.
  unfold bind at 1. rewrite storeMnemonic_run by apply Hw.
  set (w1 := set_storage _ (draw w)).
  assert (Hw1 : reliable w1) by exact Hw.
  assert (Hws1 : lists w1 ws).
  { apply (lists_frame w); [apply Hw | apply Hw | | exact Hws].
    unfold w1. cbn [storage set_storage draw]. now rewrite lookup_insert_ne. }
  destruct (storePrivateKey_reliable w1 ws (WalletService.address wallet)
              (WalletService.privateKey wallet) pin Hw1 Hws1)
    as (w2 & ws' & E & Hl & Hin & Hg & Hr & Hi & Hs).
  unfold bind at 1. rewrite E.
  unfold KeyManager.setPin, try_catch, bind, Keychain.setGenericPassword,
    native, ret.
  rewrite Hr, Hw1.
  eexists. split; [reflexivity |].
  cbn [storage internet generic rejects set_generic].
  split; [intros call; cbn [rejects set_generic]; rewrite Hr; apply Hw1 |].
  split; [rewrite Hs by discriminate; unfold w1; cbn [storage set_storage draw];
          apply lookup_insert_eq |].
  split; [exact Hi |].
  split; [apply lookup_insert_eq |].
  exists ws'. split; [| exact Hin].
  apply (lists_frame w2); [rewrite Hr; apply Hw1 | cbn [rejects set_generic];
                          rewrite Hr; apply Hw1 | reflexivity | exact Hl].
Qed.

Lemma retrieveMnemonic_reads
  (Buffer_from_value : KeyManager.value -> outcome Buffer)
  (w : world) (a mnemonic pin : string) (t : Z) :
  rejects w ES_getItem = false ->
  storage w !! KeyManager.MNEMONIC_KEY =
    Some (stringify (JObj [("encrypted", JStr (KeyManager.seal a mnemonic));
                           ("createdAt", JNum t)])) ->
  Utf8.is_text mnemonic = true -> isAddress a = true ->
  KeyVault.retrieveMnemonic Buffer_from_value pin w =
    (Return (Some (JStr mnemonic)), w).
Proof.
  intros Hget Hs Ht Ha.
  unfold KeyVault.retrieveMnemonic, try_catch, bind, EncryptedStorage.getItem, native.
  rewrite Hget, Hs.
  remember (JObj [("encrypted", JStr (KeyManager.seal a mnemonic));
                  ("createdAt", JNum t)]) as v eqn:Ev.
  assert (Hp : plain v = true) by (subst v; reflexivity).
  destruct (stringify_head v Hp) as (c & r & Hh & _). rewrite Hh, <- Hh.
  rewrite parse_stringify by exact Hp. subst v.
  cbn [get assoc_last String.eqb Ascii.eqb Bool.eqb]. unfold lift.
  cbn [KeyVault.decrypt_value]. now rewrite decrypt_seal.
Qed.

Lemma loadWallet_reads (w : world) (a blob_owner privateKey pin user : string) :
  rejects w KC_getInternetCredentials = false ->
  internet w !! KeyManager.server a =
    Some (user, KeyManager.seal blob_owner privateKey) ->
  Utf8.is_text privateKey = true -> isAddress blob_owner = true ->
  privateKey <> EmptyString ->
  WalletFactory.loadWallet a pin w =
    (Return (Some {| WalletFactory.address := a;
                     WalletFactory.privateKey := JStr privateKey |}), w).
Proof.
  intros Hget Hi Ht Ha Hne.
  unfold WalletFactory.loadWallet, try_catch, bind at 1.
  rewrite retrievePrivateKey_reads, Hget, Hi, decrypt_seal by assumption.
  cbn [RequestHandler.truthy]. destruct privateKey; [now destruct Hne | reflexivity].
Qed.

Lemma addresses_of_registry (ws : list KeyManager.StoredWallet) :
  WalletFactory.addresses_of (map KeyManager.of_wallet ws) =
  Return (map (fun r => Some (JStr (KeyManager.address r))) ws).
Proof.
  induction ws as [|r ws IH]; [reflexivity |].
  cbn [map]. change (KeyManager.of_wallet r :: map KeyManager.of_wallet ws)
    with (JObj [("address", JStr (KeyManager.address r));
                ("encryptedPrivateKey", JStr (KeyManager.encryptedPrivateKey r));
                ("createdAt", JNum (KeyManager.createdAt r))]
          :: map KeyManager.of_wallet ws).
  cbn [WalletFactory.addresses_of]. rewrite IH. reflexivity.
Qed.

Lemma getWalletAddresses_lists (w : world) (ws : list KeyManager.StoredWallet) :
  rejects w ES_getItem = false -> lists w ws ->
  WalletFactory.getWalletAddresses w =
    (Return (map (fun r => Some (JStr (KeyManager.address r))) ws), w).
Proof.
  intros Hget Hws. apply lists_stored in Hws; [| exact Hget].
  unfold WalletFactory.getWalletAddresses, bind.
  rewrite getWalletList_reads by exact Hget. rewrite Hws.
  unfold KeyManager.registry, lift. now rewrite addresses_of_registry.
Qed.

(** What can be read back from a device after [persist_run]. *)
Lemma persisted_reads
  (Buffer_from_value : KeyManager.value -> outcome Buffer)
  (w w' : world) (mnemonic pin pin' : string) (wallet : WalletService.WalletAccount) :
  (forall n, isAddress (random_wallet w n) = true) ->
  Utf8.is_text mnemonic = true ->
  Utf8.is_text (WalletService.privateKey wallet) = true ->
  WalletService.privateKey wallet <> EmptyString ->
  reliable w' ->
  storage w' !! KeyManager.MNEMONIC_KEY =
    Some (stringify
            (JObj [("encrypted",
                    JStr (KeyManager.seal (random_wallet w (draws w)) mnemonic));
                   ("createdAt", JNum (clock w))])) ->
  internet w' !! KeyManager.server (WalletService.address wallet) =
    Some (WalletService.address wallet,
          KeyManager.seal (random_wallet w (S (draws w)))
            (WalletService.privateKey wallet)) ->
  generic w' !! (KeyManager.KEYCHAIN_SERVICE +:+ ".pin") =
    Some ("pin", KeyManager.hashPin pin) ->
  (exists ws', lists w' ws' /\
     WalletService.address wallet ∈ map KeyManager.address ws') ->
  fst (KeyManager.verifyPin pin w') = Return true /\
  fst (KeyVault.retrieveMnemonic Buffer_from_value pin' w') =
    Return (Some (JStr mnemonic)) /\
  fst (WalletFactory.loadWallet (WalletService.address wallet) pin' w') =
    Return (Some {| WalletFactory.address := WalletService.address wallet;
                    WalletFactory.privateKey := JStr (WalletService.privateKey wallet) |}) /\
  exists listed,
    fst (WalletFactory.getWalletAddresses w') = Return listed /\
    Some (JStr (WalletService.address wallet)) ∈ listed.
Proof.
  intros Hrand Hm Hk Hne Hw' Hs Hi Hg (ws' & Hl & Hin).
  split; [| split; [| split]].
  - rewrite verifyPin_reads, Hw', Hg. cbn [fst]. now rewrite String.eqb_refl.
  - erewrite retrieveMnemonic_reads; [reflexivity | apply Hw' | exact Hs | exact Hm |].
    apply Hrand.
  - erewrite loadWallet_reads; [reflexivity | apply Hw' | exact Hi | exact Hk | | exact Hne].
    apply Hrand.
  - eexists. rewrite (getWalletAddresses_lists w' ws') by (apply Hw' || exact Hl).
    split; [reflexivity |].
    apply list_elem_of_fmap in Hin as (r & -> & Hr).
    apply list_elem_of_fmap. now exists r.
Qed.

(** X12.  On a device that rejects no call, a wallet made by
    [createNewWallet(pin)] can be used afterwards: the PIN verifies,
    [retrieveMnemonic] returns the generated phrase, [loadWallet] of the
    new address returns its private key, and [getWalletAddresses] lists
    the address.  (The generated phrase and the derived key are texts, the
    key is not empty, and the random wallets drawn have addresses.) *)
Theorem createNewWallet_then_unlock
  (phrase_of_entropy : Buffer -> string)
  (derive : string -> string -> outcome (string * string))
  (Buffer_from_value : KeyManager.value -> outcome Buffer)
  (w : world) (ws : list KeyManager.StoredWallet) (phrase pin pin' : string)
  (wallet : WalletService.WalletAccount) :
  reliable w -> lists w ws ->
  (forall n, isAddress (random_wallet w n) = true) ->
  phrase_of_entropy (take 16 (random_bytes w (draws w))) = phrase ->
  WalletService.createWalletFromMnemonic derive phrase 0 = Return wallet ->
  Utf8.is_text phrase = true ->
  Utf8.is_text (WalletService.privateKey wallet) = true ->
  WalletService.privateKey wallet <> EmptyString ->
  exists w',
    WalletService.createNewWallet phrase_of_entropy derive pin w =
      (Return (Some wallet), w') /\
    fst (KeyManager.verifyPin pin w') = Return true /\
    fst (KeyVault.retrieveMnemonic Buffer_from_value pin' w') =
      Return (Some (JStr phrase)) /\
    fst (WalletFactory.loadWallet (WalletService.address wallet) pin' w') =
      Return (Some {| WalletFactory.address := WalletService.address wallet;
                      WalletFactory.privateKey := JStr (WalletService.privateKey wallet) |}) /\
    exists listed,
      fst (WalletFactory.getWalletAddresses w') = Return listed /\
      Some (JStr (WalletService.address wallet)) ∈ listed.
Proof.
  intros Hw Hws Hrand Hphrase Hd Hm Hk Hne.
  assert (Hw1 : reliable (draw w)) by exact Hw.
  assert (Hws1 : lists (draw w) ws)
    by (apply (lists_frame w); [apply Hw | apply Hw | reflexivity | exact Hws]).
  destruct (persist_run (draw w) ws phrase pin wallet Hw1 Hws1)
    as (w' & E & Hw' & Hs & Hi & Hg & Hl).
  exists w'. split.
  - unfold WalletService.createNewWallet, try_catch, bind at 1.
    unfold WalletService.generateMnemonic, bind at 1, getRandomValues, ret at 1.
    rewrite Hphrase. unfold bind at 1, lift. rewrite Hd.
    now rewrite E.
  - apply (persisted_reads Buffer_from_value (draw w) w' phrase pin pin' wallet);
      assumption.
Qed.

Lemma createNewWallet_then_unlock_witness :
  exists w',
    WalletService.createNewWallet (fun _ => dev_phrase) dev_derive "123456" w0 =
      (Return (Some dev_account), w') /\
    fst (KeyManager.verifyPin "123456" w') = Return true /\
    fst (KeyVault.retrieveMnemonic (fun _ => Throw TypeError) "123456" w') =
      Return (Some (JStr dev_phrase)) /\
    fst (WalletFactory.loadWallet (WalletService.address dev_account) "123456" w') =
      Return (Some {| WalletFactory.address := WalletService.address dev_account;
                      WalletFactory.privateKey :=
                        JStr (WalletService.privateKey dev_account) |}) /\
    exists listed,
      fst (WalletFactory.getWalletAddresses w') = Return listed /\
      Some (JStr (WalletService.address dev_account)) ∈ listed.
Proof.
  apply (createNewWallet_then_unlock (fun _ => dev_phrase) dev_derive
           (fun _ => Throw TypeError) w0 [] dev_phrase "123456" "123456" dev_account).
  - intros call. reflexivity.
  - vm_compute. reflexivity.
  - intros n. reflexivity.
  - reflexivity.
  - reflexivity.
  - reflexivity.
  - reflexivity.
  - discriminate.
Defined.

(** X13.  On a device that rejects no call, [importWalletFromMnemonic]
    of a phrase that ethers accepts returns the derived account, and
    afterwards the PIN verifies, [retrieveMnemonic] returns the phrase as
    it was typed, [loadWallet] returns the derived key and
    [getWalletAddresses] lists the address. *)
Theorem importWalletFromMnemonic_then_unlock
  (valid_phrase : string -> bool)
  (derive : string -> string -> outcome (string * string))
  (Buffer_from_value : KeyManager.value -> outcome Buffer)
  (w : world) (ws : list KeyManager.StoredWallet) (mnemonic pin pin' : string)
  (wallet : WalletService.WalletAccount) :
  reliable w -> lists w ws ->
  (forall n, isAddress (random_wallet w n) = true) ->
  WalletFactory.validateMnemonic valid_phrase mnemonic = true ->
  WalletService.createWalletFromMnemonic derive mnemonic 0 = Return wallet ->
  Utf8.is_text mnemonic = true ->
  Utf8.is_text (WalletService.privateKey wallet) = true ->
  WalletService.privateKey wallet <> EmptyString ->
  exists w',
    WalletFactory.importWalletFromMnemonic valid_phrase derive mnemonic pin w =
      (Return (Some wallet), w') /\
    WalletService.mnemonic wallet = Some (WalletService.trim mnemonic) /\
    fst (KeyManager.verifyPin pin w') = Return true /\
    fst (KeyVault.retrieveMnemonic Buffer_from_value pin' w') =
      Return (Some (JStr mnemonic)) /\
    fst (WalletFactory.loadWallet (WalletService.address wallet) pin' w') =
      Return (Some {| WalletFactory.address := WalletService.address wallet;
                      WalletFactory.privateKey := JStr (WalletService.privateKey wallet) |}) /\
    exists listed,
      fst (WalletFactory.getWalletAddresses w') = Return listed /\
      Some (JStr (WalletService.address wallet)) ∈ listed.
Proof.
  intros Hw Hws Hrand Hv Hd Hm Hk Hne.
  destruct (persist_run w ws mnemonic pin wallet Hw Hws)
    as (w' & E & Hw' & Hs & Hi & Hg & Hl).
  exists w'. split; [| split].
  - unfold WalletFactory.importWalletFromMnemonic, try_catch. rewrite Hv.
    cbn [negb]. unfold bind at 1, lift. rewrite Hd. now rewrite E.
  - unfold WalletService.createWalletFromMnemonic in Hd.
    destruct (derive _ _) as [[a k] | e]; [| discriminate Hd].
    injection Hd as <-. reflexivity.
  - apply (persisted_reads Buffer_from_value w w' mnemonic pin pin' wallet);
      assumption.
Qed.

Lemma importWalletFromMnemonic_then_unlock_witness :
  exists w',
    WalletFactory.importWalletFromMnemonic dev_valid_phrase dev_derive
      (" " +:+ dev_phrase) "123456" w2 = (Return (Some dev_account), w') /\
    WalletService.mnemonic dev_account =
      Some (WalletService.trim (" " +:+ dev_phrase)) /\
    fst (KeyManager.verifyPin "123456" w') = Return true /\
    fst (KeyVault.retrieveMnemonic (fun _ => Throw TypeError) "000000" w') =
      Return (Some (JStr (" " +:+ dev_phrase))) /\
    fst (WalletFactory.loadWallet (WalletService.address dev_account) "000000" w') =
      Return (Some {| WalletFactory.address := WalletService.address dev_account;
                      WalletFactory.privateKey :=
                        JStr (WalletService.privateKey dev_account) |}) /\
    exists listed,
      fst (WalletFactory.getWalletAddresses w') = Return listed /\
      Some (JStr (WalletService.address dev_account)) ∈ listed.
Proof.
  apply (importWalletFromMnemonic_then_unlock dev_valid_phrase dev_derive
           (fun _ => Throw TypeError) w2 [alice; bob] (" " +:+ dev_phrase)
           "123456" "000000" dev_account).
  - intros call. reflexivity.
  - vm_compute. reflexivity.
  - intros n. reflexivity.
  - reflexivity.
  - reflexivity.
  - reflexivity.
  - reflexivity.
  - discriminate.
Defined.



(** X15.  [importWalletFromPrivateKey] never replaces a PIN: on a device
    where [hasPin()] is [true], every PIN verifies after the import, with
    whatever PIN it was called, exactly as it did before. *)
Theorem importWalletFromPrivateKey_keeps_pin
  (wallet_of_key : string -> outcome (string * string))
  (w : world) (privateKey pin : string) :
  fst (KeyManager.hasPin w) = Return true ->
  exists result w',
    WalletFactory.importWalletFromPrivateKey wallet_of_key privateKey pin w =
      (Return result, w') /\
    forall q, fst (KeyManager.verifyPin q w') = fst (KeyManager.verifyPin q w).
Proof.
  intros Hpin.
  assert (Hh : forall w1, generic w1 = generic w -> rejects w1 = rejects w ->
                 KeyManager.hasPin w1 = (Return true, w1)).
  { intros w1 Hg Hr. rewrite hasPin_reads in *. rewrite Hr, Hg.
    lazymatch type of Hpin with
    | fst (?a, _) = _ => change (a = Return true) in Hpin
    end.
    now rewrite Hpin. }
  unfold WalletFactory.importWalletFromPrivateKey, try_catch, bind at 1, lift.
  destruct (WalletFactory.createWalletFromPrivateKey wallet_of_key privateKey)
    as [wallet | e]; [| exists None, w; split; [reflexivity | reflexivity]].
  destruct (storePrivateKey_frame (WalletService.address wallet)
              (WalletService.privateKey wallet) pin w)
    as (done & w1 & E & Hg & Hr).
  unfold bind at 1. rewrite E.
  unfold bind at 1. rewrite (Hh w1 Hg Hr). cbn [negb]. unfold bind, ret.
  exists (Some wallet), w1. split; [reflexivity |].
  intros q. now rewrite !verifyPin_reads, Hr, Hg.
Qed.

Lemma importWalletFromPrivateKey_keeps_pin_witness :
  exists result w',
    WalletFactory.importWalletFromPrivateKey dev_wallet_of_key
      (WalletService.privateKey dev_account) "999999" w_full = (Return result, w') /\
    forall q, fst (KeyManager.verifyPin q w') = fst (KeyManager.verifyPin q w_full).
Proof.
  apply (importWalletFromPrivateKey_keeps_pin dev_wallet_of_key w_full
           (WalletService.privateKey dev_account) "999999").
  reflexivity.
Defined.

(** ** ChainSigner: what is signed and sent *)

Section Signing.

Variable address_of_key : string -> outcome string.
Variable parseEther : string -> outcome Z.
Variable parseUnits : string -> string -> outcome Z.
Variable hash_of : string -> TransactionService.TransactionRequest -> string.
Variable signed_of : string -> TransactionService.TransactionRequest -> string.
Variable transfer_data : string -> string -> string -> Z -> outcome string.











End Signing.







(** ** ChainSigner: gas price tiers *)

(** X22.  The three speed options are ordered.  For a gas price [p] of
    the provider that is not negative, the normal option is [p], the slow
    option is 80 percent of it rounded down and the fast option 120
    percent rounded down, so slow is at most normal and normal at most
    fast; each is shown in gwei with its waiting time. *)
Theorem gas_tiers_ordered (formatUnits : Z -> string -> string)
  (c : TransactionService.chain) (p : Z) :
  TransactionService.feeGasPrice c = Some p -> (0 <= p)%Z ->
  exists s f,
    ChainSigner.getSpeedOptions formatUnits c =
      (Return
         {| ChainSigner.slow :=
              {| ChainSigner.gasPrice := formatUnits s "gwei";
                 ChainSigner.estimatedTime := "~5 min" |};
            ChainSigner.normal :=
              {| ChainSigner.gasPrice := formatUnits p "gwei";
                 ChainSigner.estimatedTime := "~2 min" |};
            ChainSigner.fast :=
              {| ChainSigner.gasPrice := formatUnits f "gwei";
                 ChainSigner.estimatedTime := "~30 sec" |} |}, c) /\
    (s <= p <= f)%Z /\
    (5 * s <= 4 * p < 5 * (s + 1))%Z /\
    (5 * f <= 6 * p < 5 * (f + 1))%Z.
Proof.
  intros Hfee Hp.
  exists (Z.quot (p * 80) 100), (Z.quot (p * 120) 100). split.
  - unfold ChainSigner.getSpeedOptions, ProviderService.getGasFeeOptions, bind, ret,
      TransactionService.getFeeData, ProviderService.baseGasPrice.
    rewrite Hfee. cbn [TransactionService.falsy default].
    destruct (Z.eqb_spec p 0) as [-> | _]; reflexivity.
  - rewrite !Z.quot_div_nonneg by lia.
    pose proof (Z.div_mod (p * 80) 100 ltac:(lia)).
    pose proof (Z.mod_pos_bound (p * 80) 100 ltac:(lia)).
    pose proof (Z.div_mod (p * 120) 100 ltac:(lia)).
    pose proof (Z.mod_pos_bound (p * 120) 100 ltac:(lia)).
    lia.
Qed.

Lemma gas_tiers_ordered_witness :
  exists s f,
    ChainSigner.getSpeedOptions dev_formatUnits c_pending =
      (Return
         {| ChainSigner.slow :=
              {| ChainSigner.gasPrice := dev_formatUnits s "gwei";
                 ChainSigner.estimatedTime := "~5 min" |};
            ChainSigner.normal :=
              {| ChainSigner.gasPrice := dev_formatUnits 20000000000 "gwei";
                 ChainSigner.estimatedTime := "~2 min" |};
            ChainSigner.fast :=
              {| ChainSigner.gasPrice := dev_formatUnits f "gwei";
                 ChainSigner.estimatedTime := "~30 sec" |} |}, c_pending) /\
    (s <= 20000000000 <= f)%Z /\
    (5 * s <= 4 * 20000000000 < 5 * (s + 1))%Z /\
    (5 * f <= 6 * 20000000000 < 5 * (f + 1))%Z.
Proof.
  apply (gas_tiers_ordered dev_formatUnits c_pending 20000000000).
  - reflexivity.
  - lia.
Defined.

(** ** PeerSessionBroker: numbers in requests *)

Lemma digit_of_ascii (radix : N) (c : ascii) (d : N) :
  Numbers.digit_of radix c = Some d ->
  u8 c < 128 /\ Numbers.white1 c = false /\
  Ascii.eqb c "-"%char = false /\ Ascii.eqb c "+"%char = false /\
  Ascii.eqb c ":"%char = false.
Proof.
  unfold Numbers.digit_of. destruct (hexval c) as [v|] eqn:Hv; [| discriminate].
  intros _. revert Hv.
  bits c; vm_compute; intros H; first [discriminate H | repeat split; reflexivity].
Qed.

Lemma skip_white_ascii (c : ascii) (r : string) :
  u8 c < 128 -> Numbers.white1 c = false ->
  Numbers.skip_white (String c r) = String c r.
Proof.
  intros Hc Hw. cbn [Numbers.skip_white]. rewrite Hw.
  destruct r as [|b r2]; [reflexivity |].
  assert (H2 : Numbers.white2 c b = false).
  { unfold Numbers.white2. destruct (N.eqb_spec (u8 c) 0xC2); [lia | reflexivity]. }
  rewrite H2. destruct r2 as [|d r3]; [reflexivity |].
  assert (H3 : Numbers.white3 c b d = false).
  { unfold Numbers.white3. cbv zeta.
    destruct (N.eqb_spec (u8 c) 0xE1); [lia |].
    destruct (N.eqb_spec (u8 c) 0xE2); [lia |].
    destruct (N.eqb_spec (u8 c) 0xE3); [lia |].
    destruct (N.eqb_spec (u8 c) 0xEF); [lia |]. reflexivity. }
  now rewrite H3.
Qed.

(** [parseInt] of a string that starts with a digit of a radix other than
    16. *)
Lemma parseInt_digits (double_of : bool -> N -> Numbers.number)
  (radix : N) (c : ascii) (r : string) (d : N) :
  Numbers.digit_of radix c = Some d -> (radix =? 16) = false ->
  Numbers.digits_value radix 0 (String c r) < 2 ^ 53 ->
  Numbers.parseInt double_of (String c r) radix =
  Numbers.Num (Z.of_N (Numbers.digits_value radix 0 (String c r))).
Proof.
  intros Hd Hr Hn.
  destruct (digit_of_ascii radix c d Hd) as (Hc & Hw & Hm & Hp & _).
  unfold Numbers.parseInt. rewrite (skip_white_ascii c r Hc Hw), Hr.
  unfold JSON.strip_sign, Numbers.negative. rewrite Hm, Hp. cbn [orb].
  unfold Numbers.has_digit. rewrite Hd.
  rewrite bool_decide_eq_true_2 by (eexists; reflexivity).
  apply N.ltb_lt in Hn. now rewrite Hn.
Qed.

Lemma digits_value_uint_acc (d : Decimal.uint) (acc : positive) :
  Numbers.digits_value 10 (N.pos acc) (NilEmpty.string_of_uint d) =
  N.pos (Pos.of_uint_acc d acc).
Proof.
  revert acc. induction d; intros acc; cbn [NilEmpty.string_of_uint Pos.of_uint_acc];
    [reflexivity | ..];
    cbn [Numbers.digits_value];
    match goal with
    | |- context [Numbers.digit_of 10 ?c] =>
        let v := eval vm_compute in (Numbers.digit_of 10 c) in
        change (Numbers.digit_of 10 c) with v
    end;
    cbv iota beta; rewrite <- IHd; f_equal; lia.
Qed.

Lemma digits_value_uint (d : Decimal.uint) :
  Numbers.digits_value 10 0 (NilEmpty.string_of_uint d) = N.of_uint d.
Proof.
  unfold N.of_uint.
  induction d; cbn [NilEmpty.string_of_uint Pos.of_uint];
    [reflexivity | ..];
    cbn [Numbers.digits_value];
    match goal with
    | |- context [Numbers.digit_of 10 ?c] =>
        let v := eval vm_compute in (Numbers.digit_of 10 c) in
        change (Numbers.digit_of 10 c) with v
    end;
    cbv iota beta; first [exact IHd | apply digits_value_uint_acc].
Qed.

(** The digits that print a natural number denote it. *)
Lemma digits_value_print (n : N) :
  Numbers.digits_value 10 0 (print_Z (Z.of_N n)) = n.
Proof.
  destruct n as [|p]; [reflexivity |].
  unfold print_Z. cbn [Z.of_N Z.to_int NilZero.string_of_int].
  unfold NilZero.string_of_uint.
  pose proof (DecimalPos.Unsigned.to_uint_nonnil p) as Hnil.
  destruct (Pos.to_uint p) eqn:E; [now destruct Hnil | ..];
    rewrite <- E, digits_value_uint; unfold N.of_uint;
    apply DecimalPos.Unsigned.of_to.
Qed.

Lemma print_head_digit (n : N) :
  exists c r d, print_Z (Z.of_N n) = String c r /\ Numbers.digit_of 10 c = Some d.
Proof.
  destruct n as [|p]; [eexists _, _, _; split; reflexivity |].
  unfold print_Z. cbn [Z.of_N Z.to_int NilZero.string_of_int].
  unfold NilZero.string_of_uint.
  pose proof (DecimalPos.Unsigned.to_uint_nonnil p) as Hnil.
  destruct (Pos.to_uint p); [now destruct Hnil | ..];
    eexists _, _, _; split; reflexivity.
Qed.

Lemma split_digits (prefix : string) (n : N) :
  forallb (fun c => negb (Ascii.eqb c ":"%char)) (list_ascii_of_string prefix) = true ->
  WalletFactory.split ":"%char (prefix +:+ ":" +:+ print_Z (Z.of_N n)) =
  [prefix; print_Z (Z.of_N n)].
Proof.
  intros Hp.
  assert (Hd : WalletFactory.split ":"%char (print_Z (Z.of_N n)) = [print_Z (Z.of_N n)]).
  { assert (Hu : forall d, WalletFactory.split ":"%char (NilEmpty.string_of_uint d) =
                           [NilEmpty.string_of_uint d]).
    { induction d; cbn [NilEmpty.string_of_uint]; [reflexivity | ..];
        cbn [WalletFactory.split]; rewrite IHd; reflexivity. }
    destruct n as [|p]; [reflexivity |].
    unfold print_Z. cbn [Z.of_N Z.to_int NilZero.string_of_int].
    unfold NilZero.string_of_uint. destruct (Pos.to_uint p) eqn:E; try reflexivity;
      rewrite <- E; apply Hu. }
  induction prefix as [|c prefix IH].
  - change (EmptyString +:+ ":" +:+ print_Z (Z.of_N n))
      with (String ":"%char (print_Z (Z.of_N n))).
    cbn [WalletFactory.split Ascii.eqb Bool.eqb]. now rewrite Hd.
  - cbn [list_ascii_of_string forallb] in Hp. apply andb_true_iff in Hp as [Hc Hp].
    apply negb_true_iff in Hc.
    rewrite append_cons. cbn [WalletFactory.split]. rewrite Hc, (IH Hp). reflexivity.
Qed.

(** X23.  The chain of a request is read back as it was offered: every
    chain string [eip155:<id>] that [approveSession] offers for a
    supported chain id [id], a natural number below 2^53, is parsed by the
    session request handler to the number [id]. *)
Theorem offered_chain_parses_back (double_of : bool -> N -> Numbers.number)
  (SUPPORTED_CHAIN_IDS : list Z) (address : string) (id : Z) :
  id ∈ SUPPORTED_CHAIN_IDS -> (0 <= id < 2 ^ 53)%Z ->
  exists namespace,
    WalletConnectService.supportedNamespaces SUPPORTED_CHAIN_IDS address =
      [("eip155", namespace)] /\
    "eip155:" +:+ print_Z id ∈ WalletConnectService.chains namespace /\
    SessionRequest.chainId double_of ("eip155:" +:+ print_Z id) = Numbers.Num id.
Proof.
  intros Hin Hid. eexists. split; [reflexivity |]. split.
  - cbn [WalletConnectService.chains].
    apply (list_elem_of_fmap_2 (fun id => "eip155:" +:+ print_Z id)), Hin.
  - unfold SessionRequest.chainId.
    rewrite <- (Z2N.id id) by lia.
    change ("eip155:" +:+ print_Z (Z.of_N (Z.to_N id)))
      with ("eip155" +:+ ":" +:+ print_Z (Z.of_N (Z.to_N id))).
    rewrite split_digits by reflexivity.
    destruct (print_head_digit (Z.to_N id)) as (c & r & d & E & Hd).
    assert (Hv : Numbers.digits_value 10 0 (String c r) = Z.to_N id)
      by (rewrite <- E; apply digits_value_print).
    rewrite E, (parseInt_digits double_of 10 c r d Hd eq_refl), Hv; [reflexivity |].
    rewrite Hv. change (2 ^ 53) with (Z.to_N (2 ^ 53)). apply Z2N.inj_lt; lia.
Qed.

Lemma offered_chain_parses_back_witness :
  exists namespace,
    WalletConnectService.supportedNamespaces [1%Z; 137%Z]
      "0xf39Fd6e51aad88F6F4ce6aB8827279cffFb92266" = [("eip155", namespace)] /\
    "eip155:" +:+ print_Z 137 ∈ WalletConnectService.chains namespace /\
    SessionRequest.chainId dev_double_of ("eip155:" +:+ print_Z 137) = Numbers.Num 137.
Proof.
  apply (offered_chain_parses_back dev_double_of [1%Z; 137%Z]
           "0xf39Fd6e51aad88F6F4ce6aB8827279cffFb92266" 137).
  - apply list_elem_of_In. simpl. right. left. reflexivity.
  - lia.
Defined.

(** ** PeerSessionBroker: handling a request *)

Lemma verifyPin_result (w : world) (pin : string) (b : bool) :
  fst (KeyManager.verifyPin pin w) = Return b ->
  KeyManager.verifyPin pin w = (Return b, w).
Proof. rewrite verifyPin_reads. cbn [fst]. now intros ->. Qed.

Lemma verifyPin_returns (w : world) (pin : string) :
  exists b, KeyManager.verifyPin pin w = (Return b, w).
Proof. rewrite verifyPin_reads. eexists. reflexivity. Qed.

Lemma retrievePrivateKey_returns (w : world) (a pin : string) :
  exists key, KeyManager.retrievePrivateKey a pin w = (Return key, w).
Proof.
  rewrite retrievePrivateKey_reads.
  destruct (rejects w KC_getInternetCredentials); [eexists; reflexivity |].
  destruct (internet w !! KeyManager.server a) as [[u password]|];
    [| eexists; reflexivity].
  destruct (KeyManager.decrypt password pin); eexists; reflexivity.
Qed.

Lemma retrievePrivateKey_result (w : world) (a pin : string) (key : KeyManager.value) :
  fst (KeyManager.retrievePrivateKey a pin w) = Return key ->
  KeyManager.retrievePrivateKey a pin w = (Return key, w).
Proof.
  destruct (retrievePrivateKey_returns w a pin) as (k & E). rewrite E.
  cbn [fst]. now intros [= ->].
Qed.

Lemma is_method_eq (name : string) (request : RequestHandler.WCSignRequest) :
  RequestHandler.is_method name request = true -> RequestHandler.method request = name.
Proof. unfold RequestHandler.is_method. apply String.eqb_eq. Qed.

Lemma handleRequest_steps (lib : PeerSessionBroker.libraries)
  (request : RequestHandler.WCSignRequest)
  (address pin : string) (w : world) (p : PeerSessionBroker.provider)
  (b : bool) (key : KeyManager.value) :
  KeyManager.verifyPin pin w = (Return b, w) ->
  KeyManager.retrievePrivateKey address pin w = (Return key, w) ->
  PeerSessionBroker.handleRequest lib request address pin (w, p) =
    if negb b then (Throw (Error "Invalid PIN"), (w, p))
    else if negb (RequestHandler.truthy key)
    then (Throw (Error "Failed to retrieve private key"), (w, p))
    else if PeerSessionBroker.supported lib (RequestHandler.chainId request)
    then
      (if RequestHandler.is_method "personal_sign" request
       then lift (PeerSessionBroker.handlePersonalSign lib
                    (RequestHandler.params request) (default JNull key))
       else if RequestHandler.is_method "eth_sign" request
       then lift (PeerSessionBroker.handleEthSign lib
                    (RequestHandler.params request) (default JNull key))
       else if RequestHandler.is_method "eth_signTransaction" request
       then PeerSessionBroker.on_provider
              (PeerSessionBroker.handleSignTransaction lib
                 (RequestHandler.params request) (default JNull key))
       else if RequestHandler.is_method "eth_sendTransaction" request
       then PeerSessionBroker.on_provider
              (PeerSessionBroker.handleSendTransaction lib
                 (RequestHandler.params request) (default JNull key))
       else if RequestHandler.is_method "eth_signTypedData" request
               || RequestHandler.is_method "eth_signTypedData_v4" request
       then lift (PeerSessionBroker.handleSignTypedData lib
                    (RequestHandler.params request) (default JNull key))
       else throw (Error ("Unsupported method: " +:+ RequestHandler.method request)))
        (w, PeerSessionBroker.with_chain (RequestHandler.chainId request) p)
    else (Throw (Error ("Unsupported chain: " +:+
                        print_Z (RequestHandler.chainId request))), (w, p)).
Proof.
  intros Hv Hk.
  unfold PeerSessionBroker.handleRequest.
  unfold bind at 1. unfold PeerSessionBroker.on_world at 1.
  cbn [fst snd]. rewrite Hv.
  destruct b; cbn [negb]; [| reflexivity].
  unfold bind at 1. unfold PeerSessionBroker.on_world at 1. cbn [fst snd]. rewrite Hk.
  destruct (RequestHandler.truthy key); cbn [negb]; [| reflexivity].
  unfold bind at 1. unfold PeerSessionBroker.on_provider at 1.
  unfold PeerSessionBroker.setCurrentChain. cbn [fst snd].
  destruct (PeerSessionBroker.supported lib (RequestHandler.chainId request));
    reflexivity.
Qed.

Lemma complete_state (lib : PeerSessionBroker.libraries) (wallet : string)
  (tx : PeerSessionBroker.RawTransaction) (p : PeerSessionBroker.provider) :
  snd (complete lib wallet tx p) = p.
Proof.
  unfold complete, bind, ret, lift.
  destruct (PeerSessionBroker.falsy_nonce (PeerSessionBroker.nonce tx));
    repeat match goal with
           | |- context [if ?b then _ else _] => destruct b
           | |- context [match PeerSessionBroker.estimateGas ?l ?t ?w with _ => _ end] =>
               destruct (PeerSessionBroker.estimateGas l t w)
           end;
    reflexivity.
Qed.

Lemma signAndSend_completes (lib : PeerSessionBroker.libraries) (key : json)
  (tx : PeerSessionBroker.RawTransaction) (p : PeerSessionBroker.provider) :
  PeerSessionBroker.signAndSend lib key tx p =
  match PeerSessionBroker.address_of_key lib key with
  | Return wallet =>
      match complete lib wallet tx p with
      | (Return tx', p') =>
          match PeerSessionBroker.send lib wallet tx' with
          | Return hash => (Return hash, PeerSessionBroker.sending wallet tx' p')
          | Throw e => (Throw e, p')
          end
      | (Throw e, p') => (Throw e, p')
      end
  | Throw e => (Throw e, p)
  end.
Proof.
  unfold PeerSessionBroker.signAndSend, complete, bind, ret, lift.
  destruct (PeerSessionBroker.address_of_key lib key) as [wallet | e]; [| reflexivity].
  destruct (PeerSessionBroker.falsy_nonce (PeerSessionBroker.nonce tx));
    repeat match goal with
           | |- context [if ?b then _ else _] => destruct b
           | |- context [match PeerSessionBroker.estimateGas ?l ?t ?w with _ => _ end] =>
               destruct (PeerSessionBroker.estimateGas l t w)
           end;
    reflexivity.
Qed.

Lemma signTransaction_completes (lib : PeerSessionBroker.libraries) (key : json)
  (tx : PeerSessionBroker.RawTransaction) (p : PeerSessionBroker.provider) :
  PeerSessionBroker.signTransaction lib key tx p =
  match PeerSessionBroker.address_of_key lib key with
  | Return wallet =>
      match complete lib wallet tx p with
      | (Return tx', p') => (PeerSessionBroker.sign lib wallet tx', p')
      | (Throw e, p') => (Throw e, p')
      end
  | Throw e => (Throw e, p)
  end.
Proof.
  unfold PeerSessionBroker.signTransaction, complete, bind, ret, lift.
  destruct (PeerSessionBroker.address_of_key lib key) as [wallet | e]; [| reflexivity].
  destruct (PeerSessionBroker.falsy_nonce (PeerSessionBroker.nonce tx));
    repeat match goal with
           | |- context [if ?b then _ else _] => destruct b
           | |- context [match PeerSessionBroker.estimateGas ?l ?t ?w with _ => _ end] =>
               destruct (PeerSessionBroker.estimateGas l t w)
           end;
    reflexivity.
Qed.

(** The handlers of transaction requests leave the provider on its chain. *)
Lemma transaction_handlers_chain (lib : PeerSessionBroker.libraries)
  (params : list json) (key : json) (p : PeerSessionBroker.provider) :
  PeerSessionBroker.currentChainId
    (snd (PeerSessionBroker.handleSendTransaction lib params key p)) =
    PeerSessionBroker.currentChainId p /\
  snd (PeerSessionBroker.handleSignTransaction lib params key p) = p.
Proof.
  split.
  - unfold PeerSessionBroker.handleSendTransaction.
    unfold bind at 1. unfold lift at 1.
    destruct (PeerSessionBroker.formatTransactionParams lib (params !! 0%nat))
      as [tx | e]; [| reflexivity].
    rewrite signAndSend_completes.
    destruct (PeerSessionBroker.address_of_key lib key) as [wallet | e];
      [| reflexivity].
    pose proof (complete_state lib wallet tx p) as Hc.
    destruct (complete lib wallet tx p) as [[tx' | e] p'];
      cbn [snd] in Hc; subst p'; [| reflexivity].
    destruct (PeerSessionBroker.send lib wallet tx'); reflexivity.
  - unfold PeerSessionBroker.handleSignTransaction.
    unfold bind at 1. unfold lift at 1.
    destruct (PeerSessionBroker.formatTransactionParams lib (params !! 0%nat))
      as [tx | e]; [| reflexivity].
    rewrite signTransaction_completes.
    destruct (PeerSessionBroker.address_of_key lib key) as [wallet | e];
      [| reflexivity].
    pose proof (complete_state lib wallet tx p) as Hc.
    destruct (complete lib wallet tx p) as [[tx' | e] p'];
      cbn [snd] in Hc; subst p'; reflexivity.
Qed.

(** X24.  [handleRequest] returns a signature or a hash only after its
    checks: then the PIN verified, [retrievePrivateKey] gave a key, the
    chain of the request is a supported one and has become the current
    chain, the method is one of the six that the wallet offers to dApps,
    and the device is as it was. *)
Theorem handleRequest_signs_only_after_checks (lib : PeerSessionBroker.libraries)
  (request : RequestHandler.WCSignRequest) (address pin : string)
  (w : world) (p : PeerSessionBroker.provider)
  (result : string) (s' : PeerSessionBroker.session) :
  PeerSessionBroker.handleRequest lib request address pin (w, p) =
    (Return result, s') ->
  fst (KeyManager.verifyPin pin w) = Return true /\
  (exists key,
     fst (KeyManager.retrievePrivateKey address pin w) = Return (Some key) /\
     RequestHandler.truthy (Some key) = true) /\
  PeerSessionBroker.supported lib (RequestHandler.chainId request) = true /\
  RequestHandler.method request ∈ WalletConnectService.SUPPORTED_METHODS /\
  fst s' = w /\
  PeerSessionBroker.currentChainId (snd s') = RequestHandler.chainId request.
Proof.
  destruct (verifyPin_returns w pin) as (b & Hv).
  destruct (retrievePrivateKey_returns w address pin) as (key & Hk).
  rewrite (handleRequest_steps lib request address pin w p b key Hv Hk), Hv, Hk.
  destruct b; cbn [negb fst]; [| discriminate].
  destruct (RequestHandler.truthy key) eqn:Ht; cbn [negb]; [| discriminate].
  destruct (PeerSessionBroker.supported lib (RequestHandler.chainId request));
    [| discriminate].
  destruct key as [k|]; [| discriminate Ht].
  change (default JNull (Some k)) with k.
  intros H.
  split; [reflexivity |]. split; [exists k; now split |]. split; [reflexivity |].
  unfold WalletConnectService.SUPPORTED_METHODS.
  pose proof (transaction_handlers_chain lib (RequestHandler.params request) k
                (PeerSessionBroker.with_chain (RequestHandler.chainId request) p))
    as [Hsend Hsign].
  destruct (RequestHandler.is_method "personal_sign" request) eqn:M1.
  { apply is_method_eq in M1. rewrite M1. cbv beta iota in H. unfold lift in H. apply (f_equal snd) in H. cbn [snd] in H. subst s'.
    split; [apply list_elem_of_In; simpl; tauto |].
    split; [reflexivity | first [reflexivity | exact Hsend]]. }
  destruct (RequestHandler.is_method "eth_sign" request) eqn:M2.
  { apply is_method_eq in M2. rewrite M2. cbv beta iota in H. unfold lift in H. apply (f_equal snd) in H. cbn [snd] in H. subst s'.
    split; [apply list_elem_of_In; simpl; tauto |].
    split; [reflexivity | first [reflexivity | exact Hsend]]. }
  destruct (RequestHandler.is_method "eth_signTransaction" request) eqn:M3.
  { apply is_method_eq in M3. rewrite M3. cbv beta iota in H.
    unfold PeerSessionBroker.on_provider in H. cbn [fst snd] in H.
    destruct (PeerSessionBroker.handleSignTransaction lib _ k _) as [o p'].
    cbn [snd] in Hsign. subst p'. apply (f_equal snd) in H. cbn [snd] in H. subst s'.
    split; [apply list_elem_of_In; simpl; tauto |].
    split; [reflexivity | first [reflexivity | exact Hsend]]. }
  destruct (RequestHandler.is_method "eth_sendTransaction" request) eqn:M4.
  { apply is_method_eq in M4. rewrite M4. cbv beta iota in H.
    unfold PeerSessionBroker.on_provider in H. cbn [fst snd] in H.
    destruct (PeerSessionBroker.handleSendTransaction lib _ k _) as [o p'].
    cbn [snd] in Hsend. apply (f_equal snd) in H. cbn [snd] in H. subst s'.
    split; [apply list_elem_of_In; simpl; tauto |].
    split; [reflexivity | first [reflexivity | exact Hsend]]. }
  destruct (RequestHandler.is_method "eth_signTypedData" request) eqn:M5.
  { apply is_method_eq in M5. rewrite M5. cbn [orb] in H. cbv beta iota in H. unfold lift in H.
    injection H as _ <-.
    split; [apply list_elem_of_In; simpl; tauto |].
    split; [reflexivity | first [reflexivity | exact Hsend]]. }
  destruct (RequestHandler.is_method "eth_signTypedData_v4" request) eqn:M6.
  { apply is_method_eq in M6. rewrite M6. cbn [orb] in H. cbv beta iota in H. unfold lift in H.
    injection H as _ <-.
    split; [apply list_elem_of_In; simpl; tauto |].
    split; [reflexivity | first [reflexivity | exact Hsend]]. }
  cbn [orb] in H. cbv beta iota in H. discriminate H.
Qed.

Lemma handleRequest_signs_only_after_checks_witness :
  fst (KeyManager.verifyPin "123456" w_dev) = Return true /\
  (exists key,
     fst (KeyManager.retrievePrivateKey (WalletService.address dev_account)
            "123456" w_dev) = Return (Some key) /\
     RequestHandler.truthy (Some key) = true) /\
  PeerSessionBroker.supported dev_lib
    (RequestHandler.chainId (chain_request 137 "personal_sign" [JStr "0x4869"])) = true /\
  RequestHandler.method (chain_request 137 "personal_sign" [JStr "0x4869"])
    ∈ WalletConnectService.SUPPORTED_METHODS /\
  fst (w_dev, PeerSessionBroker.with_chain 137 p0) = w_dev /\
  PeerSessionBroker.currentChainId
    (snd (w_dev, PeerSessionBroker.with_chain 137 p0)) =
    RequestHandler.chainId (chain_request 137 "personal_sign" [JStr "0x4869"]).
Proof.
  apply (handleRequest_signs_only_after_checks dev_lib
           (chain_request 137 "personal_sign" [JStr "0x4869"])
           (WalletService.address dev_account) "123456" w_dev p0 "signed:Hi"
           (w_dev, PeerSessionBroker.with_chain 137 p0)).
  vm_compute. reflexivity.
Defined.

(** X25.  The refusals of [handleRequest], in the order of its checks: a
    PIN that does not verify gives the error [Invalid PIN]; with a
    verified PIN, a missing key gives [Failed to retrieve private key];
    with both, an unsupported chain gives [Unsupported chain: <id>].  In
    each case nothing is signed and the device and the provider are as
    they were. *)
Theorem handleRequest_refusals (lib : PeerSessionBroker.libraries)
  (request : RequestHandler.WCSignRequest) (address pin : string)
  (w : world) (p : PeerSessionBroker.provider) :
  (fst (KeyManager.verifyPin pin w) = Return false ->
   PeerSessionBroker.handleRequest lib request address pin (w, p) =
     (Throw (Error "Invalid PIN"), (w, p))) /\
  (forall key,
     fst (KeyManager.verifyPin pin w) = Return true ->
     fst (KeyManager.retrievePrivateKey address pin w) = Return key ->
     RequestHandler.truthy key = false ->
     PeerSessionBroker.handleRequest lib request address pin (w, p) =
       (Throw (Error "Failed to retrieve private key"), (w, p))) /\
  (forall key,
     fst (KeyManager.verifyPin pin w) = Return true ->
     fst (KeyManager.retrievePrivateKey address pin w) = Return key ->
     RequestHandler.truthy key = true ->
     PeerSessionBroker.supported lib (RequestHandler.chainId request) = false ->
     PeerSessionBroker.handleRequest lib request address pin (w, p) =
       (Throw (Error ("Unsupported chain: " +:+
                      print_Z (RequestHandler.chainId request))), (w, p))).
Proof.
  destruct (retrievePrivateKey_returns w address pin) as (key0 & Hk0).
  split; [| split].
  - intros Hv. apply verifyPin_result in Hv.
    now rewrite (handleRequest_steps lib request address pin w p _ _ Hv Hk0).
  - intros key Hv Hk Ht. apply verifyPin_result in Hv.
    apply retrievePrivateKey_result in Hk.
    rewrite (handleRequest_steps lib request address pin w p _ _ Hv Hk), Ht.
    reflexivity.
  - intros key Hv Hk Ht Hs. apply verifyPin_result in Hv.
    apply retrievePrivateKey_result in Hk.
    rewrite (handleRequest_steps lib request address pin w p _ _ Hv Hk), Ht, Hs.
    reflexivity.
Qed.

Lemma handleRequest_refusals_witness :
  PeerSessionBroker.handleRequest dev_lib
    (chain_request 137 "personal_sign" [JStr "0x4869"])
    (WalletService.address dev_account) "000000" (w_dev, p0) =
    (Throw (Error "Invalid PIN"), (w_dev, p0)) /\
  PeerSessionBroker.handleRequest dev_lib
    (chain_request 137 "personal_sign" [JStr "0x4869"])
    (KeyManager.address bob) "123456" (w_dev, p0) =
    (Throw (Error "Failed to retrieve private key"), (w_dev, p0)) /\
  PeerSessionBroker.handleRequest dev_lib
    (chain_request 5 "personal_sign" [JStr "0x4869"])
    (WalletService.address dev_account) "123456" (w_dev, p0) =
    (Throw (Error ("Unsupported chain: " +:+ print_Z 5)), (w_dev, p0)).
Proof.
  split; [| split].
  - apply (proj1 (handleRequest_refusals dev_lib
                    (chain_request 137 "personal_sign" [JStr "0x4869"])
                    (WalletService.address dev_account) "000000" w_dev p0)).
    reflexivity.
  - apply (proj1 (proj2 (handleRequest_refusals dev_lib
                    (chain_request 137 "personal_sign" [JStr "0x4869"])
                    (KeyManager.address bob) "123456" w_dev p0))
             KeyManager.null); reflexivity.
  - apply (proj2 (proj2 (handleRequest_refusals dev_lib
                    (chain_request 5 "personal_sign" [JStr "0x4869"])
                    (WalletService.address dev_account) "123456" w_dev p0))
             (Some (JStr (WalletService.privateKey dev_account)))); reflexivity.
Defined.

(** X26.  What is shown is what is signed.  For a [personal_sign] request
    with the message in [params[0]], and for an [eth_sign] request with it
    in [params[1]], [formatRequest] shows the decoded message, and
    [handleRequest], once its checks have passed, passes that very text
    with the retrieved key to [signMessage] and returns its result. *)
Theorem signed_message_is_shown_message (lib : PeerSessionBroker.libraries)
  (formatEther : json -> outcome string)
  (request : RequestHandler.WCSignRequest) (address pin m : string) (key : json)
  (w : world) (p : PeerSessionBroker.provider) :
  fst (KeyManager.verifyPin pin w) = Return true ->
  fst (KeyManager.retrievePrivateKey address pin w) = Return (Some key) ->
  RequestHandler.truthy (Some key) = true ->
  PeerSessionBroker.supported lib (RequestHandler.chainId request) = true ->
  (RequestHandler.method request = "personal_sign" /\
   RequestHandler.params request !! 0%nat = Some (JStr m)) \/
  (RequestHandler.method request = "eth_sign" /\
   RequestHandler.params request !! 1%nat = Some (JStr m)) ->
  exists shown,
    RequestHandler.formatRequest formatEther request =
      Return (RequestHandler.message shown) /\
    PeerSessionBroker.handleRequest lib request address pin (w, p) =
      (PeerSessionBroker.signMessage lib key shown,
       (w, PeerSessionBroker.with_chain (RequestHandler.chainId request) p)).
Proof.
  intros Hv Hk Ht Hs Hm.
  apply verifyPin_result in Hv. apply retrievePrivateKey_result in Hk.
  rewrite (handleRequest_steps lib request address pin w p _ _ Hv Hk), Ht, Hs.
  cbn [negb]. change (default JNull (Some key)) with key.
  exists (RequestHandler.decodeMessage m).
  unfold RequestHandler.formatRequest, RequestHandler.is_method.
  destruct Hm as [[Hm Hp] | [Hm Hp]]; rewrite Hm; cbn [String.eqb Ascii.eqb Bool.eqb orb].
  - rewrite Hp. split; [reflexivity |].
    unfold lift, PeerSessionBroker.handlePersonalSign. rewrite Hp. reflexivity.
  - rewrite Hp. split; [reflexivity |].
    unfold lift, PeerSessionBroker.handleEthSign. rewrite Hp. reflexivity.
Qed.

Lemma signed_message_is_shown_message_witness :
  exists shown,
    RequestHandler.formatRequest (fun _ => Return "0")
      (chain_request 137 "personal_sign" [JStr "0x4869"]) =
      Return (RequestHandler.message shown) /\
    PeerSessionBroker.handleRequest dev_lib
      (chain_request 137 "personal_sign" [JStr "0x4869"])
      (WalletService.address dev_account) "123456" (w_dev, p0) =
      (PeerSessionBroker.signMessage dev_lib
         (JStr (WalletService.privateKey dev_account)) shown,
       (w_dev, PeerSessionBroker.with_chain
                 (RequestHandler.chainId
                    (chain_request 137 "personal_sign" [JStr "0x4869"])) p0)).
Proof.
  apply (signed_message_is_shown_message dev_lib (fun _ => Return "0")
           (chain_request 137 "personal_sign" [JStr "0x4869"])
           (WalletService.address dev_account) "123456" "0x4869"
           (JStr (WalletService.privateKey dev_account)) w_dev p0);
    try reflexivity.
  left. split; reflexivity.
Defined.

(** What completing a request of a dApp keeps. *)
Lemma complete_fields (lib : PeerSessionBroker.libraries) (wallet : string)
  (tx tx' : PeerSessionBroker.RawTransaction) (p : PeerSessionBroker.provider) :
  fst (complete lib wallet tx p) = Return tx' ->
  PeerSessionBroker.to tx' = PeerSessionBroker.to tx /\
  PeerSessionBroker.value tx' = PeerSessionBroker.value tx /\
  PeerSessionBroker.data tx' = PeerSessionBroker.data tx /\
  PeerSessionBroker.maxFeePerGas tx' = PeerSessionBroker.maxFeePerGas tx /\
  PeerSessionBroker.maxPriorityFeePerGas tx' =
    PeerSessionBroker.maxPriorityFeePerGas tx /\
  PeerSessionBroker.nonce tx' =
    (if PeerSessionBroker.falsy_nonce (PeerSessionBroker.nonce tx)
     then Some (Numbers.Num (PeerSessionBroker.transactionCount p wallet))
     else PeerSessionBroker.nonce tx) /\
  (PeerSessionBroker.falsy (PeerSessionBroker.gasLimit tx) = false ->
   PeerSessionBroker.gasLimit tx' = PeerSessionBroker.gasLimit tx) /\
  (PeerSessionBroker.falsy (PeerSessionBroker.gasPrice tx) = false ->
   PeerSessionBroker.gasPrice tx' = PeerSessionBroker.gasPrice tx).
Proof.
  unfold complete, bind, ret, lift.
  destruct (PeerSessionBroker.falsy_nonce (PeerSessionBroker.nonce tx)) eqn:Hn;
    cbn [PeerSessionBroker.gasLimit PeerSessionBroker.with_nonce];
    (destruct (PeerSessionBroker.falsy (PeerSessionBroker.gasLimit tx)) eqn:Hg;
     [destruct (PeerSessionBroker.estimateGas lib _ wallet) as [g | e];
      [| discriminate] |]);
    cbn [PeerSessionBroker.gasPrice PeerSessionBroker.maxFeePerGas
         PeerSessionBroker.with_nonce PeerSessionBroker.with_gasLimit];
    (destruct (PeerSessionBroker.falsy (PeerSessionBroker.gasPrice tx)) eqn:Hp;
     cbn [andb];
     [destruct (PeerSessionBroker.falsy (PeerSessionBroker.maxFeePerGas tx)) |]);
    cbn [fst]; intros [= <-];
    cbn [PeerSessionBroker.to PeerSessionBroker.value PeerSessionBroker.data
         PeerSessionBroker.gasLimit PeerSessionBroker.gasPrice
         PeerSessionBroker.nonce PeerSessionBroker.maxFeePerGas
         PeerSessionBroker.maxPriorityFeePerGas
         PeerSessionBroker.with_nonce PeerSessionBroker.with_gasLimit
         PeerSessionBroker.with_gasPrice];
    repeat split; first [reflexivity | discriminate].
Qed.

Lemma falsy_when_truthy (v : RequestHandler.value) :
  RequestHandler.truthy v = true ->
  PeerSessionBroker.when_truthy v = PeerSessionBroker.of_value v /\
  PeerSessionBroker.falsy (PeerSessionBroker.when_truthy v) = false.
Proof.
  intros Ht. unfold PeerSessionBroker.when_truthy. rewrite Ht.
  split; [reflexivity |]. destruct v as [x|]; [| discriminate Ht].
  cbn [PeerSessionBroker.of_value PeerSessionBroker.falsy]. now rewrite Ht.
Qed.

(** X27.  A transaction is sent as the dApp asked and as it was shown.
    When [handleRequest] returns the hash of an [eth_sendTransaction]
    request, exactly one request was broadcast, signed by the address of
    the retrieved key; it carries the recipient of the dApp's parameters,
    their value and data when these are set, and their gas limit ([gas]
    or else [gasLimit]) and gas price when these are set; and these are
    the recipient, data, gas limit and gas price that [formatRequest]
    shows for the request. *)
Theorem sent_transaction_is_requested_transaction (lib : PeerSessionBroker.libraries)
  (formatEther : json -> outcome string)
  (request : RequestHandler.WCSignRequest) (address pin hash : string)
  (w : world) (p : PeerSessionBroker.provider) (s' : PeerSessionBroker.session) :
  RequestHandler.method request = "eth_sendTransaction" ->
  PeerSessionBroker.handleRequest lib request address pin (w, p) = (Return hash, s') ->
  exists key signer txParams tx',
    fst (KeyManager.retrievePrivateKey address pin w) = Return (Some key) /\
    PeerSessionBroker.address_of_key lib key = Return signer /\
    RequestHandler.params request !! 0%nat = Some txParams /\
    PeerSessionBroker.send lib signer tx' = Return hash /\
    s' = (w, PeerSessionBroker.sending signer tx'
               (PeerSessionBroker.with_chain (RequestHandler.chainId request) p)) /\
    PeerSessionBroker.to tx' = PeerSessionBroker.of_value (get txParams "to") /\
    PeerSessionBroker.value tx' = PeerSessionBroker.when_truthy (get txParams "value") /\
    PeerSessionBroker.data tx' = PeerSessionBroker.when_truthy (get txParams "data") /\
    (RequestHandler.truthy
       (RequestHandler.or_else (get txParams "gas") (get txParams "gasLimit")) = true ->
     PeerSessionBroker.gasLimit tx' =
       PeerSessionBroker.of_value
         (RequestHandler.or_else (get txParams "gas") (get txParams "gasLimit"))) /\
    (RequestHandler.truthy (get txParams "gasPrice") = true ->
     PeerSessionBroker.gasPrice tx' =
       PeerSessionBroker.of_value (get txParams "gasPrice")) /\
    forall shown,
      RequestHandler.formatRequest formatEther request = Return shown ->
      exists amount,
        shown =
          RequestHandler.transaction
            (RequestHandler.or_else (get txParams "to") (Some (JStr EmptyString)))
            amount (get txParams "data")
            (RequestHandler.or_else (get txParams "gas") (get txParams "gasLimit"))
            (get txParams "gasPrice").
Proof.
  intros Hm H.
  destruct (verifyPin_returns w pin) as (b & Hv).
  destruct (retrievePrivateKey_returns w address pin) as (key & Hk).
  rewrite (handleRequest_steps lib request address pin w p b key Hv Hk) in H.
  destruct b; cbn [negb] in H; [| discriminate H].
  destruct (RequestHandler.truthy key) eqn:Ht; cbn [negb] in H; [| discriminate H].
  destruct (PeerSessionBroker.supported lib (RequestHandler.chainId request));
    [| discriminate H].
  destruct key as [k|]; [| discriminate Ht].
  change (default JNull (Some k)) with k in H.
  unfold RequestHandler.is_method in H. rewrite Hm in H.
  cbn [String.eqb Ascii.eqb Bool.eqb] in H. cbv beta iota in H.
  unfold PeerSessionBroker.on_provider in H. cbn [fst snd] in H.
  unfold PeerSessionBroker.handleSendTransaction in H.
  unfold bind at 1 in H. unfold lift at 1 in H.
  unfold PeerSessionBroker.formatTransactionParams in H.
  destruct (RequestHandler.params request !! 0%nat) as [txParams|] eqn:Hp;
    [| discriminate H].
  assert (Hnn : txParams <> JNull) by (intros ->; discriminate H).
  set (tx := {| PeerSessionBroker.to := PeerSessionBroker.of_value (get txParams "to");
                PeerSessionBroker.value := _ |}) in H.
  assert (Hr : (let '(o, p') :=
                  PeerSessionBroker.signAndSend lib k tx
                    (PeerSessionBroker.with_chain (RequestHandler.chainId request) p)
                in (o, (w, p'))) = (Return hash, s')).
  { destruct txParams; first [now destruct Hnn | exact H]. }
  clear H. rewrite signAndSend_completes in Hr.
  destruct (PeerSessionBroker.address_of_key lib k) as [signer | e] eqn:Ha;
    [| discriminate Hr].
  pose proof (complete_state lib signer tx
                (PeerSessionBroker.with_chain (RequestHandler.chainId request) p)) as Hs.
  destruct (complete lib signer tx _) as [[tx' | e] p'] eqn:Ec;
    cbn [snd] in Hs; subst p'; [| discriminate Hr].
  assert (Hf : fst (complete lib signer tx
                      (PeerSessionBroker.with_chain (RequestHandler.chainId request) p))
               = Return tx') by now rewrite Ec.
  destruct (complete_fields lib signer tx tx' _ Hf)
    as (Hto & Hval & Hdata & _ & _ & _ & Hgl & Hgp).
  destruct (PeerSessionBroker.send lib signer tx') as [h | e] eqn:Hsend;
    [| discriminate Hr].
  injection Hr as -> <-.
  exists k, signer, txParams, tx'.
  split; [now rewrite Hk |]. split; [exact Ha |]. split; [reflexivity |].
  split; [exact Hsend |]. split; [reflexivity |].
  split; [exact Hto |]. split; [exact Hval |]. split; [exact Hdata |].
  split; [| split].
  - intros Hg. destruct (falsy_when_truthy _ Hg) as [E F].
    rewrite Hgl by exact F. exact E.
  - intros Hg. destruct (falsy_when_truthy _ Hg) as [E F].
    rewrite Hgp by exact F. exact E.
  - intros shown. unfold RequestHandler.formatRequest, RequestHandler.is_method.
    rewrite Hm, Hp. cbn [String.eqb Ascii.eqb Bool.eqb orb]. cbv beta iota.
    destruct txParams; try (now destruct Hnn);
      (destruct (if RequestHandler.truthy _ then _ else _) as [amount | e];
       [intros [= <-]; eexists; reflexivity | discriminate]).
Qed.

Lemma sent_transaction_is_requested_transaction_witness :
  exists key signer txParams tx',
    fst (KeyManager.retrievePrivateKey (WalletService.address dev_account)
           "123456" w_dev) = Return (Some key) /\
    PeerSessionBroker.address_of_key dev_lib key = Return signer /\
    RequestHandler.params (chain_request 137 "eth_sendTransaction" [transfer_params])
      !! 0%nat = Some txParams /\
    PeerSessionBroker.send dev_lib signer tx' = Return "0xhash" /\
    snd (PeerSessionBroker.handleRequest dev_lib
           (chain_request 137 "eth_sendTransaction" [transfer_params])
           (WalletService.address dev_account) "123456" (w_dev, p0)) =
      (w_dev, PeerSessionBroker.sending signer tx'
                (PeerSessionBroker.with_chain
                   (RequestHandler.chainId
                      (chain_request 137 "eth_sendTransaction" [transfer_params]))
                   p0)) /\
    PeerSessionBroker.to tx' = PeerSessionBroker.of_value (get txParams "to") /\
    PeerSessionBroker.value tx' = PeerSessionBroker.when_truthy (get txParams "value") /\
    PeerSessionBroker.data tx' = PeerSessionBroker.when_truthy (get txParams "data") /\
    (RequestHandler.truthy
       (RequestHandler.or_else (get txParams "gas") (get txParams "gasLimit")) = true ->
     PeerSessionBroker.gasLimit tx' =
       PeerSessionBroker.of_value
         (RequestHandler.or_else (get txParams "gas") (get txParams "gasLimit"))) /\
    (RequestHandler.truthy (get txParams "gasPrice") = true ->
     PeerSessionBroker.gasPrice tx' =
       PeerSessionBroker.of_value (get txParams "gasPrice")) /\
    forall shown,
      RequestHandler.formatRequest (fun _ => Return "1.0")
        (chain_request 137 "eth_sendTransaction" [transfer_params]) = Return shown ->
      exists amount,
        shown =
          RequestHandler.transaction
            (RequestHandler.or_else (get txParams "to") (Some (JStr EmptyString)))
            amount (get txParams "data")
            (RequestHandler.or_else (get txParams "gas") (get txParams "gasLimit"))
            (get txParams "gasPrice").
Proof.
  apply (sent_transaction_is_requested_transaction dev_lib (fun _ => Return "1.0")
           (chain_request 137 "eth_sendTransaction" [transfer_params])
           (WalletService.address dev_account) "123456" "0xhash" w_dev p0).
  - reflexivity.
  - vm_compute. reflexivity.
Defined.

Lemma digits_value_hex_acc (d : Hexadecimal.uint) (acc : positive) :
  Numbers.digits_value 16 (N.pos acc) (HexadecimalString.NilEmpty.string_of_uint d) =
  N.pos (Pos.of_hex_uint_acc d acc).
Proof.
  revert acc. induction d; intros acc;
    cbn [HexadecimalString.NilEmpty.string_of_uint Pos.of_hex_uint_acc];
    [reflexivity | ..];
    cbn [Numbers.digits_value];
    match goal with
    | |- context [Numbers.digit_of 16 ?c] =>
        let v := eval vm_compute in (Numbers.digit_of 16 c) in
        change (Numbers.digit_of 16 c) with v
    end;
    cbv iota beta; rewrite <- IHd; f_equal; lia.
Qed.

Lemma digits_value_hex (d : Hexadecimal.uint) :
  Numbers.digits_value 16 0 (HexadecimalString.NilEmpty.string_of_uint d) =
  N.of_hex_uint d.
Proof.
  unfold N.of_hex_uint.
  induction d; cbn [HexadecimalString.NilEmpty.string_of_uint Pos.of_hex_uint];
    [reflexivity | ..];
    cbn [Numbers.digits_value];
    match goal with
    | |- context [Numbers.digit_of 16 ?c] =>
        let v := eval vm_compute in (Numbers.digit_of 16 c) in
        change (Numbers.digit_of 16 c) with v
    end;
    cbv iota beta; first [exact IHd | apply digits_value_hex_acc].
Qed.

(** The hex digits that print a natural number denote it. *)
Lemma to_hex_digits (n : N) :
  Numbers.digits_value 16 0 (to_hex n) = n /\
  exists c r d, to_hex n = String c r /\ Numbers.digit_of 16 c = Some d.
Proof.
  unfold to_hex, HexadecimalString.NilZero.string_of_uint.
  assert (Hnil : N.to_hex_uint n <> Hexadecimal.Nil).
  { intros E. pose proof (f_equal N.of_hex_uint E) as E'.
    rewrite HexadecimalN.Unsigned.of_to in E'. subst n.
    vm_compute in E. discriminate E. }
  pose proof (HexadecimalN.Unsigned.of_to n) as Hof.
  destruct (N.to_hex_uint n) eqn:E; [now destruct Hnil | ..];
    (split; [rewrite digits_value_hex; exact Hof | eexists _, _, _; split; reflexivity]).
Qed.

Lemma parse_nonce_hex (lib : PeerSessionBroker.libraries) (n : N) :
  n < 2 ^ 53 ->
  PeerSessionBroker.parse_nonce lib (JStr ("0x" +:+ to_hex n)) =
  Numbers.Num (Z.of_N n).
Proof.
  intros Hn. unfold PeerSessionBroker.parse_nonce, Numbers.parseInt.
  change ("0x" +:+ to_hex n) with (String "0"%char (String "x"%char (to_hex n))).
  rewrite skip_white_ascii by reflexivity.
  cbn [JSON.strip_sign Numbers.negative Numbers.strip_0x Ascii.eqb Bool.eqb orb N.eqb
       Pos.eqb].
  destruct (to_hex_digits n) as (Hv & c & r & d & E & Hd).
  rewrite Hv. unfold Numbers.has_digit. rewrite E, Hd.
  rewrite bool_decide_eq_true_2 by (eexists; reflexivity).
  apply N.ltb_lt in Hn. now rewrite Hn.
Qed.

(** X28.  The nonce of a request is read exactly.  When the dApp gives the
    nonce of an [eth_sendTransaction] request as the hex quantity of a
    number [n] below 2^53, the request that is broadcast carries the nonce
    [n], except for the nonce [0x0], which is replaced by the pending
    count of the signer. *)
Theorem nonce_of_request (lib : PeerSessionBroker.libraries) (params : list json)
  (txParams key : json) (n : N) (signer hash : string)
  (p p' : PeerSessionBroker.provider) :
  params !! 0%nat = Some txParams ->
  get txParams "nonce" = Some (JStr ("0x" +:+ to_hex n)) ->
  n < 2 ^ 53 ->
  PeerSessionBroker.address_of_key lib key = Return signer ->
  PeerSessionBroker.handleSendTransaction lib params key p = (Return hash, p') ->
  exists tx',
    PeerSessionBroker.broadcast p' = PeerSessionBroker.broadcast p ++ [(signer, tx')] /\
    PeerSessionBroker.nonce tx' =
      Some (Numbers.Num (if n =? 0 then PeerSessionBroker.transactionCount p signer
                         else Z.of_N n)).
Proof.
  intros Hp Hg Hn Ha H.
  unfold PeerSessionBroker.handleSendTransaction in H.
  unfold bind at 1 in H. unfold lift at 1 in H. rewrite Hp in H.
  destruct (PeerSessionBroker.formatTransactionParams lib (Some txParams))
    as [tx | e] eqn:Hf; [| discriminate H].
  assert (Ht : PeerSessionBroker.nonce tx = Some (Numbers.Num (Z.of_N n))).
  { assert (E : PeerSessionBroker.nonce tx =
                match get txParams "nonce" with
                | Some v =>
                    if RequestHandler.truthy (Some v)
                    then Some (PeerSessionBroker.parse_nonce lib v) else None
                | None => None
                end).
    { unfold PeerSessionBroker.formatTransactionParams in Hf.
      destruct txParams; first [discriminate Hf | now injection Hf as <-]. }
    rewrite E, Hg.
    change ("0x" +:+ to_hex n) with (String "0"%char (String "x"%char (to_hex n))).
    cbn [RequestHandler.truthy nonempty].
    change (String "0"%char (String "x"%char (to_hex n))) with ("0x" +:+ to_hex n).
    now rewrite parse_nonce_hex. }
  rewrite signAndSend_completes, Ha in H.
  pose proof (complete_state lib signer tx p) as Hs.
  destruct (complete lib signer tx p) as [[tx' | e] p1] eqn:Ec;
    cbn [snd] in Hs; subst p1; [| discriminate H].
  assert (Hc : fst (complete lib signer tx p) = Return tx') by now rewrite Ec.
  destruct (complete_fields lib signer tx tx' p Hc) as (_ & _ & _ & _ & _ & Hnonce & _).
  destruct (PeerSessionBroker.send lib signer tx'); [| discriminate H].
  injection H as _ <-. exists tx'. split; [reflexivity |].
  rewrite Hnonce, Ht. cbn [PeerSessionBroker.falsy_nonce].
  destruct (N.eqb_spec n 0) as [-> | Hne]; [reflexivity |].
  destruct (Z.eqb_spec (Z.of_N n) 0); [lia | reflexivity].
Qed.

Lemma nonce_of_request_witness :
  exists tx',
    PeerSessionBroker.broadcast
      (snd (PeerSessionBroker.handleSendTransaction dev_lib
              [JObj [("to", JStr "0x70997970C51812dc3A010C7d01b50e0d17dc79C8");
                     ("nonce", JStr "0x1a")]]
              (JStr (WalletService.privateKey dev_account)) p0)) =
      PeerSessionBroker.broadcast p0 ++ [(WalletService.address dev_account, tx')] /\
    PeerSessionBroker.nonce tx' =
      Some (Numbers.Num (if 26 =? 0
                         then PeerSessionBroker.transactionCount p0
                                (WalletService.address dev_account)
                         else Z.of_N 26)).
Proof.
  apply (nonce_of_request dev_lib
           [JObj [("to", JStr "0x70997970C51812dc3A010C7d01b50e0d17dc79C8");
                  ("nonce", JStr "0x1a")]]
           (JObj [("to", JStr "0x70997970C51812dc3A010C7d01b50e0d17dc79C8");
                  ("nonce", JStr "0x1a")])
           (JStr (WalletService.privateKey dev_account)) 26
           (WalletService.address dev_account) "0xhash" p0).
  - reflexivity.
  - reflexivity.
  - reflexivity.
  - reflexivity.
  - vm_compute. reflexivity.
Defined.

Lemma assoc_last_without (name removed : string) (members : list (string * json)) :
  assoc_last name (PeerSessionBroker.without removed members) =
  if String.eqb name removed then None else assoc_last name members.
Proof.
  induction members as [|[k x] rest IH]; [now destruct (String.eqb name removed) |].
  cbn [PeerSessionBroker.without].
  destruct (String.eqb_spec k removed) as [-> | Hk].
  - rewrite IH. cbn [assoc_last].
    destruct (String.eqb_spec name removed) as [-> | Hn].
    + reflexivity.
    + destruct (assoc_last name rest); [reflexivity |].
      destruct (String.eqb_spec removed name) as [E | _]; [now destruct Hn | reflexivity].
  - cbn [assoc_last]. rewrite IH.
    destruct (String.eqb_spec name removed) as [-> | Hn]; [| reflexivity].
    destruct (String.eqb_spec k removed) as [E | _]; [now destruct Hk | reflexivity].
Qed.

(** X29.  Typed data is signed as it is shown.  For an
    [eth_signTypedData] or [eth_signTypedData_v4] request whose second
    parameter is the JSON text of an object with an object of types,
    [formatRequest] shows the domain, the types and the message of that
    object, and [handleRequest], once its checks have passed, passes to
    [signTypedData] the same domain and message and the types without
    their [EIP712Domain] entry, every other type unchanged. *)
Theorem typed_data_is_signed_as_shown (lib : PeerSessionBroker.libraries)
  (formatEther : json -> outcome string)
  (request : RequestHandler.WCSignRequest) (address pin : string) (key : json)
  (members types : list (string * json))
  (w : world) (p : PeerSessionBroker.provider) :
  fst (KeyManager.verifyPin pin w) = Return true ->
  fst (KeyManager.retrievePrivateKey address pin w) = Return (Some key) ->
  RequestHandler.truthy (Some key) = true ->
  PeerSessionBroker.supported lib (RequestHandler.chainId request) = true ->
  RequestHandler.method request = "eth_signTypedData" \/
  RequestHandler.method request = "eth_signTypedData_v4" ->
  RequestHandler.params request !! 1%nat = Some (JStr (stringify (JObj members))) ->
  plain (JObj members) = true ->
  get (JObj members) "types" = Some (JObj types) ->
  exists cleanTypes,
    RequestHandler.formatRequest formatEther request =
      Return (RequestHandler.typedData (get (JObj members) "domain")
                (Some (JObj types)) (get (JObj members) "message")) /\
    PeerSessionBroker.handleRequest lib request address pin (w, p) =
      (PeerSessionBroker.signTypedData lib key (get (JObj members) "domain")
         cleanTypes (get (JObj members) "message"),
       (w, PeerSessionBroker.with_chain (RequestHandler.chainId request) p)) /\
    get (JObj cleanTypes) "EIP712Domain" = None /\
    forall name, name <> "EIP712Domain" ->
      get (JObj cleanTypes) name = get (JObj types) name.
Proof.
  intros Hv Hk Ht Hs Hm Hp Hplain Htypes.
  apply verifyPin_result in Hv. apply retrievePrivateKey_result in Hk.
  rewrite (handleRequest_steps lib request address pin w p _ _ Hv Hk), Ht, Hs.
  cbn [negb]. change (default JNull (Some key)) with key.
  exists (PeerSessionBroker.without "EIP712Domain" types).
  assert (Hparse : parse (stringify (JObj members)) = Some (JObj members))
    by now apply parse_stringify.
  split; [| split; [| split]].
  - unfold RequestHandler.formatRequest, RequestHandler.is_method.
    destruct Hm as [Hm | Hm]; rewrite Hm, Hp;
      cbn [String.eqb Ascii.eqb Bool.eqb orb from_option RequestHandler.to_string];
      rewrite Hparse, Htypes; reflexivity.
  - unfold RequestHandler.is_method.
    destruct Hm as [Hm | Hm]; rewrite Hm;
      cbn [String.eqb Ascii.eqb Bool.eqb orb]; cbv beta iota;
      unfold lift, PeerSessionBroker.handleSignTypedData; rewrite Hp;
      cbn [from_option RequestHandler.to_string];
      rewrite Hparse, Htypes; reflexivity.
  - cbn [get]. now rewrite assoc_last_without.
  - intros name Hn. cbn [get]. rewrite assoc_last_without.
    destruct (String.eqb_spec name "EIP712Domain"); [contradiction | reflexivity].
Qed.

Lemma typed_data_is_signed_as_shown_witness :
  exists cleanTypes,
    RequestHandler.formatRequest (fun _ => Return "0")
      (chain_request 137 "eth_signTypedData_v4"
         [JStr "0xf39Fd6e51aad88F6F4ce6aB8827279cffFb92266"; JStr (stringify permit)]) =
      Return (RequestHandler.typedData (get permit "domain")
                (Some permit_types) (get permit "message")) /\
    PeerSessionBroker.handleRequest dev_lib
      (chain_request 137 "eth_signTypedData_v4"
         [JStr "0xf39Fd6e51aad88F6F4ce6aB8827279cffFb92266"; JStr (stringify permit)])
      (WalletService.address dev_account) "123456" (w_dev, p0) =
      (PeerSessionBroker.signTypedData dev_lib
         (JStr (WalletService.privateKey dev_account)) (get permit "domain")
         cleanTypes (get permit "message"),
       (w_dev, PeerSessionBroker.with_chain
                 (RequestHandler.chainId
                    (chain_request 137 "eth_signTypedData_v4"
                       [JStr "0xf39Fd6e51aad88F6F4ce6aB8827279cffFb92266";
                        JStr (stringify permit)])) p0)) /\
    get (JObj cleanTypes) "EIP712Domain" = None /\
    forall name, name <> "EIP712Domain" ->
      get (JObj cleanTypes) name = get permit_types name.
Proof.
  apply (typed_data_is_signed_as_shown dev_lib (fun _ => Return "0")
           (chain_request 137 "eth_signTypedData_v4"
              [JStr "0xf39Fd6e51aad88F6F4ce6aB8827279cffFb92266"; JStr (stringify permit)])
           (WalletService.address dev_account) "123456"
           (JStr (WalletService.privateKey dev_account))
           permit_members permit_type_members w_dev p0);
    try reflexivity.
  right. reflexivity.
Defined.
